(** * sleep-hrv-analyzer: the daytime HRV aggregation and its alignment

    A shallow embedding of [utils/date_utils.py], [utils/file_parser.py],
    [data_processor.py] and [utils/pdf_generator.py], followed by the
    properties of the specification that concern them and by further
    properties of the code.

    Conventions of the embedding.
    - A Python [str] is a [string]; the text is taken to be ASCII where the
      code classifies characters (digits, white space).  Other text, such as
      the Japanese column names, is carried as its UTF-8 bytes.
    - A Python [float] is an IEEE 754 binary64 number, [spec_float] with
      precision 53 and maximal exponent 1024, and the arithmetic is the
      correctly rounded one of [SpecFloat].
    - A Python [int] is a [Z].
    - A [dict] whose iteration order is observed (the readings of one date) is
      an association list in insertion order; the date-indexed dictionary,
      which is only looked up, is a [gmap].
    - A data frame is the list of its lines.  The column pandas builds from
      the parsed timestamps is modelled as pandas 1.x and 2.x build it: when
      some timestamp was parsed and every parsed one lies within the bounds
      of [Timestamp], the column is of timestamps and a failed parse is held
      as [NaT]; otherwise the column holds the objects and a failed parse is
      held as [None].  [NaT] is not [None], is true in a condition, has the
      hour nan, which compares false with every number, and raises
      [ValueError] on [strftime].
    - [strftime] writes the year as the C library of Linux does, without
      padding.
    - A raised exception is the [Raise] case of [result].
    - The report is the list of the elements handed to the document builder;
      the text [str] gives for a number is a parameter. *)

From Stdlib Require Import ZArith List String Ascii Bool Lia DecimalString DecimalN Permutation.
From Corelib Require Import SpecFloat.
From stdpp Require Import gmap strings.

Local Open Scope Z_scope.

(** ** Exceptions *)

Inductive py_error : Type :=
| ValueError
| AttributeError.

Inductive result (A : Type) : Type :=
| Ok (a : A)
| Raise (e : py_error).

Arguments Ok {A} a.
Arguments Raise {A} e.

Definition bind {A B : Type} (r : result A) (k : A -> result B) : result B :=
  match r with
  | Ok a => k a
  | Raise e => Raise e
  end.

Notation "'let*' x ':=' r 'in' k" := (bind r (fun x => k))
  (at level 10, x name, r at level 100, k at level 200).

(** ** The methods of [str] the program calls *)

Module PyStr.

Definition code (c : ascii) : Z := Z.of_nat (nat_of_ascii c).

(** [str.isspace] on ASCII: tab to carriage return, the four separators
    28 to 31, and the space. *)
Definition isspace (c : ascii) : bool :=
  ((9 <=? code c) && (code c <=? 13)) || ((28 <=? code c) && (code c <=? 32)).

(** A decimal digit, [\d] on ASCII. *)
Definition isdigit (c : ascii) : bool :=
  (48 <=? code c) && (code c <=? 57).

Definition digit_value (c : ascii) : Z := code c - 48.

Fixpoint drop_while (p : ascii -> bool) (s : string) : string :=
  match s with
  | EmptyString => EmptyString
  | String c s' => if p c then drop_while p s' else s
  end.

Fixpoint take_while (p : ascii -> bool) (s : string) : string :=
  match s with
  | EmptyString => EmptyString
  | String c s' => if p c then String c (take_while p s') else EmptyString
  end.

Definition reverse (s : string) : string :=
  string_of_list_ascii (rev (list_ascii_of_string s)).

Definition lstrip (s : string) : string := drop_while isspace s.
Definition rstrip (s : string) : string := reverse (drop_while isspace (reverse s)).

(** [s.strip()] *)
Definition strip (s : string) : string := rstrip (lstrip s).

(** Truth value of a string: it is not empty. *)
Definition truthy (s : string) : bool :=
  match s with
  | EmptyString => false
  | String _ _ => true
  end.

(** [sep in s] *)
Fixpoint contains (sep s : string) : bool :=
  String.prefix sep s ||
  match s with
  | EmptyString => false
  | String _ s' => contains sep s'
  end.

(** [s.split(sep)] for a separator that is not empty: the text is scanned
    from the left, each occurrence of [sep] closes the current field and the
    scan resumes after it.  [skip] counts the characters of a separator
    still to pass over, [cur] is the current field. *)
Fixpoint split_go (sep s : string) (skip : nat) (cur : string) : list string :=
  match s with
  | EmptyString => [cur]
  | String c s' =>
      match skip with
      | S k => split_go sep s' k cur
      | O =>
          if String.prefix sep s
          then cur :: split_go sep s' (String.length sep - 1) EmptyString
          else split_go sep s' O (cur +:+ String c EmptyString)
      end
  end.

Definition split (sep s : string) : list string := split_go sep s O EmptyString.

(** [s.replace(c, '')] for a one-character [c] *)
Fixpoint remove_char (c : ascii) (s : string) : string :=
  match s with
  | EmptyString => EmptyString
  | String d s' => if Ascii.eqb c d then remove_char c s' else String d (remove_char c s')
  end.

(** The value of a run of decimal digits, most significant first. *)
Fixpoint digits_value (acc : Z) (s : string) : Z :=
  match s with
  | EmptyString => acc
  | String c s' => digits_value (10 * acc + digit_value c) s'
  end.

(** Some character of the text is not white space. *)
Definition has_text (s : string) : bool :=
  existsb (fun c => negb (isspace c)) (list_ascii_of_string s).

(** Every character satisfies [p]. *)
Fixpoint all_chars (p : ascii -> bool) (s : string) : bool :=
  match s with
  | EmptyString => true
  | String c s' => p c && all_chars p s'
  end.

(** The text has a last character, and it satisfies [p]. *)
Fixpoint last_is (p : ascii -> bool) (s : string) : bool :=
  match s with
  | EmptyString => false
  | String c EmptyString => p c
  | String _ s' => last_is p s'
  end.

Definition not_space (c : ascii) : bool := negb (isspace c).
Definition not_dash (c : ascii) : bool := negb (Ascii.eqb c "-").

(** No minus sign stands last or before a space: the text has no place where
    the separator [" - "] could end. *)
Fixpoint dash_ok (s : string) : bool :=
  match s with
  | EmptyString => true
  | String c s' =>
      (if Ascii.eqb c "-"
       then match s' with
            | EmptyString => false
            | String d _ => negb (Ascii.eqb d " ")
            end
       else true)
      && dash_ok s'
  end.

End PyStr.

(** ** Python's [float]: binary64 *)

Module Float64.

Definition float : Type := spec_float.

Definition prec : Z := 53.
Definition emax : Z := 1024.

(** The values a Python float can hold: the canonical binary64 numbers. *)
Definition is_float (x : float) : Prop := valid_binary prec emax x = true.

Definition fadd : float -> float -> float := SFadd prec emax.
Definition fmul : float -> float -> float := SFmul prec emax.
Definition fdiv : float -> float -> float := SFdiv prec emax.

(** Conversion of an [int] operand in mixed arithmetic: the nearest float,
    ties to even. *)
Definition float_of_int (n : Z) : float := binary_normalize prec emax n 0 false.

(** [a / b] rounded to the nearest integer, ties to even, for [0 <= a]
    and [0 < b]. *)
Definition div_half_even (a b : Z) : Z :=
  let q := a / b in
  let r := a mod b in
  match 2 * r ?= b with
  | Lt => q
  | Gt => q + 1
  | Eq => if Z.even q then q else q + 1
  end.

(** The float nearest to [(-1)^s * d * 10^e], as the correctly rounded
    conversion from decimal text yields it. *)
Definition of_decimal (s : bool) (d : Z) (e : Z) : float :=
  match d with
  | Zpos p =>
      if 0 <=? e
      then binary_normalize prec emax (if s then - (d * 10 ^ e) else d * 10 ^ e) 0 false
      else fdiv (S754_finite s p 0) (S754_finite false (Z.to_pos (10 ^ (- e))) 0)
  | _ => S754_zero s
  end.

(** [round(x, 2)]: the exact value of [x] is rounded to two decimals, ties
    to even, and the decimal obtained is converted back to the nearest
    float.  Zeros, infinities and NaN, and every float that is an integer,
    are returned as they are. *)
Definition round2 (x : float) : float :=
  match x with
  | S754_finite s m e =>
      if 0 <=? e then x
      else of_decimal s (div_half_even (Zpos m * 100) (2 ^ (- e))) (-2)
  | _ => x
  end.

(** The floats whose sum with themselves is not rounded to an infinity: the
    zeros, infinities and NaN, and the finite floats of magnitude below
    2^1023 (their exponent field is below [emax - prec]). *)
Definition doubles_exactly (v : float) : bool :=
  match v with
  | S754_finite _ _ e => e <? 971
  | _ => true
  end.

End Float64.

(** ** The conversions [int(str)] and [float(str)] *)

Module PyNum.
Import PyStr Float64.

(** [digit (["_"] digit)*]: the digits of a digit part, the underscores
    removed, or [None] when the text is not a digit part.  [after_digit]
    tells whether the previous character was a digit. *)
Fixpoint digitpart_go (after_digit : bool) (s : string) : option string :=
  match s with
  | EmptyString => if after_digit then Some EmptyString else None
  | String c s' =>
      if isdigit c then option_map (String c) (digitpart_go true s')
      else if Ascii.eqb c "_" && after_digit then digitpart_go false s'
      else None
  end.

Definition digitpart (s : string) : option string := digitpart_go false s.

(** A leading sign: whether it is a minus, and the rest of the text. *)
Definition take_sign (s : string) : bool * string :=
  match s with
  | String c s' =>
      if Ascii.eqb c "-" then (true, s')
      else if Ascii.eqb c "+" then (false, s')
      else (false, s)
  | EmptyString => (false, s)
  end.

(** [int(s)], base ten; [None] stands for the [ValueError]. *)
Definition py_int (s : string) : option Z :=
  let '(neg, body) := take_sign (strip s) in
  match digitpart body with
  | Some ds => Some (if neg then - digits_value 0 ds else digits_value 0 ds)
  | None => None
  end.

Definition lower (c : ascii) : ascii :=
  if (65 <=? code c) && (code c <=? 90)
  then ascii_of_nat (nat_of_ascii c + 32)
  else c.

Fixpoint lowercase (s : string) : string :=
  match s with
  | EmptyString => EmptyString
  | String c s' => String (lower c) (lowercase s')
  end.

Definition is_e (c : ascii) : bool := Ascii.eqb c "e" || Ascii.eqb c "E".
Definition is_dot (c : ascii) : bool := Ascii.eqb c ".".

(** An empty text, or a digit part: the digits. *)
Definition opt_digitpart (s : string) : option string :=
  match s with
  | EmptyString => Some EmptyString
  | _ => digitpart s
  end.

(** [[digitpart] "." digitpart | digitpart ["."]]: the digits before and
    after the point. *)
Definition number (s : string) : option (string * string) :=
  let ip := take_while (fun c => negb (is_dot c)) s in
  match drop_while (fun c => negb (is_dot c)) s with
  | EmptyString => option_map (fun i => (i, EmptyString)) (digitpart ip)
  | String _ fp =>
      match opt_digitpart ip, opt_digitpart fp with
      | Some i, Some f => if truthy i || truthy f then Some (i, f) else None
      | _, _ => None
      end
  end.

(** [("e" | "E") [sign] digitpart], given the text after the letter. *)
Definition exponent (s : string) : option Z :=
  let '(neg, body) := take_sign s in
  match digitpart body with
  | Some ds => Some (if neg then - digits_value 0 ds else digits_value 0 ds)
  | None => None
  end.

(** The float a text without surrounding white space denotes. *)
Definition float_of_token (t : string) : option float :=
  let '(neg, body) := take_sign t in
  let low := lowercase body in
  if String.eqb low "inf" || String.eqb low "infinity" then Some (S754_infinity neg)
  else if String.eqb low "nan" then Some S754_nan
  else
    let mant := take_while (fun c => negb (is_e c)) body in
    let ex :=
      match drop_while (fun c => negb (is_e c)) body with
      | EmptyString => Some 0
      | String _ et => exponent et
      end in
    match number mant, ex with
    | Some (i, f), Some e =>
        Some (of_decimal neg (digits_value 0 (i +:+ f))
                (e - Z.of_nat (String.length f)))
    | _, _ => None
    end.

(** [float(s)]; [None] stands for the [ValueError]. *)
Definition py_float (s : string) : option float := float_of_token (strip s).

End PyNum.

(** ** [datetime.datetime] *)

Module PyDatetime.

Record datetime : Type := {
  year : Z; month : Z; day : Z;
  hour : Z; minute : Z; second : Z
}.

Definition is_leap (y : Z) : bool :=
  (y mod 4 =? 0) && (negb (y mod 100 =? 0) || (y mod 400 =? 0)).

Definition days_in_month (y m : Z) : Z :=
  if m =? 2 then (if is_leap y then 29 else 28)
  else if (m =? 4) || (m =? 6) || (m =? 9) || (m =? 11) then 30
  else 31.

(** The ranges the constructor enforces. *)
Definition valid_datetime (d : datetime) : bool :=
  (1 <=? year d) && (year d <=? 9999) &&
  (1 <=? month d) && (month d <=? 12) &&
  (1 <=? day d) && (day d <=? days_in_month (year d) (month d)) &&
  (0 <=? hour d) && (hour d <=? 23) &&
  (0 <=? minute d) && (minute d <=? 59) &&
  (0 <=? second d) && (second d <=? 59).

(** [datetime(y, m, d, H, M, S)]; [None] stands for the [ValueError]. *)
Definition make_datetime (y m d H M S : Z) : option datetime :=
  let dt := {| year := y; month := m; day := d; hour := H; minute := M; second := S |} in
  if valid_datetime dt then Some dt else None.

Definition digit_char (n : Z) : ascii := ascii_of_nat (Z.to_nat (48 + n mod 10)).

Definition two_digits (n : Z) : string :=
  String (digit_char (n / 10)) (String (digit_char n) EmptyString).

Definition four_digits (n : Z) : string :=
  String (digit_char (n / 1000)) (String (digit_char (n / 100)) (two_digits n)).

(** [%Y] as the C library of Linux writes it: the year in decimal, without
    padding, so on four digits from the year 1000 on. *)
Definition year_text (y : Z) : string :=
  NilEmpty.string_of_uint (N.to_uint (Z.to_N y)).

(** [dt.strftime('%Y/%m/%d')] *)
Definition strftime_ymd (dt : datetime) : string :=
  year_text (year dt) +:+ "/" +:+ two_digits (month dt) +:+ "/" +:+ two_digits (day dt).

End PyDatetime.

(** ** A cell of a data frame: a text, or a number (a missing cell is NaN) *)

Inductive cell : Type :=
| Str (s : string)
| Num (x : Float64.float).

(** ** What pandas holds in a column of timestamps *)

Module Pandas.
Import PyDatetime.

(** A value of a column of timestamps that is not [None]: a datetime (a
    [Timestamp], or a [datetime.datetime] in a column of objects), or
    [NaT].  [None] is the [None] of [option]. *)
Inductive timestamp : Type :=
| Datetime (d : datetime)
| NaT.

Definition then_compare (c1 c2 : comparison) : comparison :=
  match c1 with
  | Eq => c2
  | _ => c1
  end.

(** The order of datetimes: by year, then month, day, hour, minute, second. *)
Definition datetime_compare (a b : datetime) : comparison :=
  then_compare (year a ?= year b)
    (then_compare (month a ?= month b)
       (then_compare (day a ?= day b)
          (then_compare (hour a ?= hour b)
             (then_compare (minute a ?= minute b) (second a ?= second b))))).

Definition datetime_leb (a b : datetime) : bool :=
  match datetime_compare a b with
  | Gt => false
  | _ => true
  end.

(** The first and the last whole second a [Timestamp] can hold:
    [Timestamp.min] is 1677-09-21 00:12:43.145224193 and [Timestamp.max] is
    2262-04-11 23:47:16.854775807. *)
Definition Timestamp_min : datetime :=
  {| year := 1677; month := 9; day := 21; hour := 0; minute := 12; second := 44 |}.
Definition Timestamp_max : datetime :=
  {| year := 2262; month := 4; day := 11; hour := 23; minute := 47; second := 16 |}.

Definition in_bounds (d : datetime) : bool :=
  datetime_leb Timestamp_min d && datetime_leb d Timestamp_max.

Definition is_datetime (v : option datetime) : bool :=
  match v with
  | Some _ => true
  | None => false
  end.

Definition fits (v : option datetime) : bool :=
  match v with
  | Some d => in_bounds d
  | None => true
  end.

(** The column [Series.apply(f)] returns when [f] gives a datetime or
    [None]: the values are inferred to be timestamps when one of them is a
    datetime and every datetime is within the bounds, and then a [None] is
    held as [NaT]; otherwise the values are kept as they are. *)
Definition infer_datetimelike (values : list (option datetime))
    : list (option timestamp) :=
  if existsb is_datetime values && forallb fits values
  then map (fun v => Some match v with
                          | Some d => Datetime d
                          | None => NaT
                          end) values
  else map (option_map Datetime) values.

(** [Series.apply(f)] for an [f] that may raise: the first exception ends
    it. *)
Fixpoint series_apply {A B : Type} (f : A -> result B) (values : list A)
    : result (list B) :=
  match values with
  | [] => Ok []
  | v :: values' =>
      let* y := f v in
      let* ys := series_apply f values' in
      Ok (y :: ys)
  end.

End Pandas.

(** ** utils/date_utils.py *)

Module DateUtils.
Import PyStr PyNum PyDatetime Pandas.

Inductive am_pm_ja : Type := Gozen | Gogo.

Definition text_gozen : string := "午前".
Definition text_gogo : string := "午後".

Definition drop_prefix (n : nat) (s : string) : string :=
  String.substring n (String.length s - n) s.

(** One [(\d+)] group followed by a colon: the group and the rest. *)
Definition digits_then_colon (s : string) : option (string * string) :=
  let ds := take_while isdigit s in
  match ds, drop_while isdigit s with
  | String _ _, String c rest => if Ascii.eqb c ":" then Some (ds, rest) else None
  | _, _ => None
  end.

(** [re.match(r'(午前|午後)(\d+):(\d+):(\d+)', time_part)]: the four groups,
    the digits being ASCII digits. *)
Definition match_time_part (time_part : string) : option (am_pm_ja * Z * Z * Z) :=
  let marker :=
    if String.prefix text_gozen time_part
    then Some (Gozen, drop_prefix (String.length text_gozen) time_part)
    else if String.prefix text_gogo time_part
    then Some (Gogo, drop_prefix (String.length text_gogo) time_part)
    else None in
  match marker with
  | None => None
  | Some (ap, r0) =>
      match digits_then_colon r0 with
      | None => None
      | Some (h, r1) =>
          match digits_then_colon r1 with
          | None => None
          | Some (m, r2) =>
              match take_while isdigit r2 with
              | EmptyString => None
              | sec => Some (ap, digits_value 0 h, digits_value 0 m, digits_value 0 sec)
              end
          end
      end
  end.

Definition parse_japanese_datetime (datetime_str : cell) : option datetime :=
  match datetime_str with
  | Num _ => None
  | Str s =>
      if negb (truthy s) then None
      else
        match split " " s with
        | [date_part; time_part] =>
            match map py_int (split "-" date_part) with
            | [Some year; Some month; Some day] =>
                match match_time_part time_part with
                | Some (am_pm, hour, minute, second) =>
                    let hour :=
                      match am_pm with
                      | Gogo => if negb (hour =? 12) then hour + 12 else hour
                      | Gozen => if hour =? 12 then 0 else hour
                      end in
                    make_datetime year month day hour minute second
                | None => None
                end
            | _ => None
            end
        | _ => None
        end
  end.

Definition format_time_part (datetime_str : string) : string :=
  match split " " datetime_str with
  | _ :: part :: _ => part
  | _ => datetime_str
  end.

(** [get_date_string]; [NaT.strftime] raises [ValueError]. *)
Definition get_date_string (dt : option timestamp) : result string :=
  match dt with
  | None => Ok EmptyString
  | Some (Datetime d) => Ok (strftime_ymd d)
  | Some NaT => Raise ValueError
  end.

Inductive am_pm : Type := AM | PM.

(** [re.match(r'(\d+)\s*(AM|PM)', time_slot)]: the two groups, for a label
    of ASCII characters. *)
Definition match_time_slot (time_slot : string) : option (Z * am_pm) :=
  match take_while isdigit time_slot with
  | EmptyString => None
  | ds =>
      let rest := drop_while isspace (drop_while isdigit time_slot) in
      if String.prefix "AM" rest then Some (digits_value 0 ds, AM)
      else if String.prefix "PM" rest then Some (digits_value 0 ds, PM)
      else None
  end.

Definition convert_time_slot_to_hour (time_slot : string) : Z :=
  match match_time_slot time_slot with
  | Some (hour, am_pm) =>
      match am_pm with
      | PM => if negb (hour =? 12) then hour + 12 else hour
      | AM => if hour =? 12 then 0 else hour
      end
  | None => -1
  end.

End DateUtils.

(** ** utils/file_parser.py *)

Module FileParser.
Import PyStr PyNum PyDatetime Pandas DateUtils Float64.

(** The frame [pd.read_csv] returns: the column names of the header, and
    for each line its cells, one per column. *)
Record csv_frame : Type := {
  columns : list string;
  rows : list (list cell)
}.

Definition col_bedtime : string := "就寝時間".
Definition col_wakeup : string := "起床時間".
Definition col_breathing : string := "平均呼吸".
Definition col_sleep : string := "睡眠".

Definition required_columns : list string :=
  [col_bedtime; col_wakeup; col_breathing; col_sleep].

Definition mem (x : string) (l : list string) : bool :=
  existsb (String.eqb x) l.

Fixpoint index_of (x : string) (l : list string) : option nat :=
  match l with
  | [] => None
  | y :: l' => if String.eqb x y then Some O else option_map S (index_of x l')
  end.

(** The cell of a line under a column; a line too short has a missing
    value there. *)
Definition cell_at (cols : list string) (row : list cell) (name : string) : cell :=
  match index_of name cols with
  | Some i => nth i row (Num S754_nan)
  | None => Num S754_nan
  end.

(** A line of the frame [read_autosleep_data] returns, the columns under
    their English names.  The two optional columns are [None] when the file
    does not have them. *)
Record sleep_record : Type := {
  Bedtime : cell;
  Wakeup : cell;
  Avg_Breathing_Rate : option cell;
  Sleep_Duration : option cell;
  Bedtime_dt : option timestamp;
  Wakeup_dt : option timestamp;
  Date : string
}.

(** The lines of a frame from its columns. *)
Fixpoint frame_lines {A : Type}
    (line : list cell -> option timestamp -> option timestamp -> string -> A)
    (rows : list (list cell)) (bedtime_dt wakeup_dt : list (option timestamp))
    (date : list string) : list A :=
  match rows, bedtime_dt, wakeup_dt, date with
  | row :: rows', b :: bedtime_dt', w :: wakeup_dt', d :: date' =>
      line row b w d :: frame_lines line rows' bedtime_dt' wakeup_dt' date'
  | _, _, _, _ => []
  end.

(** [read_autosleep_data], [loadSessions] in the specification, from the
    frame read from the file.  The two columns of timestamps are what
    [Series.apply(parse_japanese_datetime)] returns, and the column of dates
    what [Series.apply] of [get_date_string] returns on the wake
    timestamps: it raises when one of them is [NaT]. *)
Definition read_autosleep_data (df : csv_frame) : result (list sleep_record) :=
  let existing_columns := List.filter (fun col => mem col (columns df)) required_columns in
  if negb (mem col_bedtime existing_columns) || negb (mem col_wakeup existing_columns)
  then Raise ValueError
  else
    let optional col row :=
      if mem col existing_columns then Some (cell_at (columns df) row col) else None in
    let bedtime_dt :=
      infer_datetimelike
        (map (fun row => parse_japanese_datetime (cell_at (columns df) row col_bedtime))
           (rows df)) in
    let wakeup_dt :=
      infer_datetimelike
        (map (fun row => parse_japanese_datetime (cell_at (columns df) row col_wakeup))
           (rows df)) in
    let* date := series_apply get_date_string wakeup_dt in
    Ok (frame_lines
          (fun row b w d =>
             {| Bedtime := cell_at (columns df) row col_bedtime;
                Wakeup := cell_at (columns df) row col_wakeup;
                Avg_Breathing_Rate := optional col_breathing row;
                Sleep_Duration := optional col_sleep row;
                Bedtime_dt := b;
                Wakeup_dt := w;
                Date := d |})
          (rows df) bedtime_dt wakeup_dt date).

(** The readings of one date: bucket label to value, in insertion order. *)
Definition readings : Type := list (string * float).

(** [d[k] = v]: the value of a key already present is replaced in place, a
    new key goes last. *)
Fixpoint dict_set (k : string) (v : float) (d : readings) : readings :=
  match d with
  | [] => [(k, v)]
  | (k', v') :: d' =>
      if String.eqb k' k then (k, v) :: d' else (k', v') :: dict_set k v d'
  end.

Fixpoint dict_get (k : string) (d : readings) : option float :=
  match d with
  | [] => None
  | (k', v') :: d' => if String.eqb k' k then Some v' else dict_get k d'
  end.

Fixpoint enumerate_from {A : Type} (i : nat) (l : list A) : list (nat * A) :=
  match l with
  | [] => []
  | x :: l' => (i, x) :: enumerate_from (S i) l'
  end.

Definition enumerate {A : Type} (l : list A) : list (nat * A) := enumerate_from O l.

Definition range_separator : string := " - ".

(** The body of the loop over the cells of a line. *)
Definition store_cell (time_slots : list string) (date_hrv : readings)
    (j : nat) (value : string) : readings :=
  match time_slots !! j with
  | Some slot =>
      if truthy (strip value) then
        if contains range_separator value then
          match split range_separator value with
          | [part0; part1] =>
              match py_float part0 with
              | Some min_val =>
                  match py_float part1 with
                  | Some max_val =>
                      dict_set slot (fdiv (fadd min_val max_val) (float_of_int 2)) date_hrv
                  | None => date_hrv
                  end
              | None => date_hrv
              end
          | _ => date_hrv
          end
        else
          match py_float value with
          | Some x => dict_set slot x date_hrv
          | None => date_hrv
          end
      else date_hrv
  | None => date_hrv
  end.

Definition parse_values (time_slots : list string) (values : list string) : readings :=
  fold_left (fun date_hrv jv => store_cell time_slots date_hrv (fst jv) (snd jv))
    (enumerate (tail values)) [].

Definition double_quote : ascii := ascii_of_nat 34.

(** The body of the loop over the data lines. *)
Definition parse_line (time_slots : list string) (hrv_data : gmap string readings)
    (raw : string) : gmap string readings :=
  let line := strip raw in
  if negb (truthy line) then hrv_data
  else
    let values := split "," (remove_char double_quote line) in
    let date := strip (nth 0 values EmptyString) in
    <[date := parse_values time_slots values]> hrv_data.

(** [parse_hrv_file], [loadHrv] in the specification, from the lines
    [readlines] returns. *)
Definition parse_hrv_file (lines : list string) : result (gmap string readings) :=
  if (length lines <? 2)%nat then Raise ValueError
  else
    let header := strip (nth 1 lines EmptyString) in
    let time_slots := map strip (tail (split "," header)) in
    Ok (fold_left (parse_line time_slots) (drop 2 lines) ∅).

(** A character below 128.  In the UTF-8 bytes of a text these are the
    ASCII characters, and every byte of another character is 128 or more, so
    filtering the bytes is filtering the characters. *)
Definition is_ascii (c : ascii) : bool := code c <? 128.

(** [''.join(c for c in text if ord(c) < 128)] *)
Fixpoint keep_ascii (text : string) : string :=
  match text with
  | EmptyString => EmptyString
  | String c rest => if is_ascii c then String c (keep_ascii rest) else keep_ascii rest
  end.

Section FilterAscii.

(** [str] on a number of a frame; the decimal text Python prints is not
    modelled. *)
Variable str_of_float : float -> string.

(** [str(text)] for a cell: a text is itself. *)
Definition py_str (text : cell) : string :=
  match text with
  | Str s => s
  | Num x => str_of_float x
  end.

Definition filter_ascii_only (text : cell) : string := keep_ascii (py_str text).

End FilterAscii.

End FileParser.

(** ** data_processor.py *)

Module DataProcessor.
Import PyStr PyDatetime Pandas DateUtils FileParser Float64.

(** The loop that fills [daytime_data]. *)
Definition select_step (wakeup_hour next_bedtime_hour : Z)
    (daytime_data : list (Z * float)) (item : string * float) : list (Z * float) :=
  let hour := convert_time_slot_to_hour (fst item) in
  if (0 <=? hour) && (wakeup_hour <=? hour) && (hour <? next_bedtime_hour)
  then daytime_data ++ [(hour, snd item)]
  else daytime_data.

Definition select_daytime (hrv_data : readings) (wakeup_hour next_bedtime_hour : Z)
    : list (Z * float) :=
  fold_left (select_step wakeup_hour next_bedtime_hour) hrv_data [].

(** [daytime_data.sort(key=lambda x: x[0])]: a stable sort on the hour. *)
Fixpoint insert_by_hour (x : Z * float) (l : list (Z * float)) : list (Z * float) :=
  match l with
  | [] => [x]
  | y :: l' => if fst x <=? fst y then x :: y :: l' else y :: insert_by_hour x l'
  end.

Fixpoint sort_by_hour (l : list (Z * float)) : list (Z * float) :=
  match l with
  | [] => []
  | x :: l' => insert_by_hour x (sort_by_hour l')
  end.

(** The upper hour of the window. *)
Definition next_bedtime_hour_of (next_bedtime_datetime : option datetime) : Z :=
  match next_bedtime_datetime with
  | Some next => hour next
  | None => 23
  end.

(** [daytime_data] once sorted. *)
Definition daytime_data_of (hrv_data : readings) (wakeup_datetime : datetime)
    (next_bedtime_datetime : option datetime) : list (Z * float) :=
  sort_by_hour
    (select_daytime hrv_data (hour wakeup_datetime)
       (next_bedtime_hour_of next_bedtime_datetime)).

(** The body of the integration loop; the state is
    [(total_integral, total_time)].  The division by the int 2 and the
    product with the int [time_interval] convert the int to a float.  Both
    indices are in range, since [i] runs below [len(daytime_data) - 1]; the
    last case only makes the function total. *)
Definition integrate_step (daytime_data : list (Z * float)) (st : float * Z) (i : nat)
    : float * Z :=
  match daytime_data !! i, daytime_data !! S i with
  | Some (start_hour, start_value), Some (end_hour, end_value) =>
      let time_interval := end_hour - start_hour in
      if time_interval <=? 0 then st
      else
        let segment_integral :=
          fmul (fdiv (fadd start_value end_value) (float_of_int 2))
               (float_of_int time_interval) in
        (fadd (fst st) segment_integral, snd st + time_interval)
  | _, _ => st
  end.

(** The loop over [range(len(daytime_data) - 1)].  [total_integral] starts as
    the int 0, which the first addition converts to the float zero. *)
Definition integrate (daytime_data : list (Z * float)) : float * Z :=
  fold_left (integrate_step daytime_data)
    (seq 0 (length daytime_data - 1)) (float_of_int 0, 0).

(** The operation the specification calls [computeDaytimeAverage]. *)
Definition calculate_daytime_hrv_integral (hrv_data : readings)
    (wakeup_datetime next_bedtime_datetime : option datetime) : option float :=
  match hrv_data, wakeup_datetime with
  | [], _ => None
  | _, None => None
  | _ :: _, Some wakeup =>
      let daytime_data := daytime_data_of hrv_data wakeup next_bedtime_datetime in
      if (length daytime_data <? 2)%nat then
        match daytime_data with
        | first :: _ => Some (snd first)
        | [] => None
        end
      else
        let '(total_integral, total_time) := integrate daytime_data in
        if 0 <? total_time
        then Some (round2 (fdiv total_integral (float_of_int total_time)))
        else None
  end.

(** A line of the result frame.  The HRV column holds the text of the
    number or ['N/A']; here it is the number, or [None] for ['N/A']. *)
Record result_row : Type := {
  row_Date : string;
  row_Bedtime : string;
  row_Wakeup : string;
  row_Daytime_HRV_Avg : option float;
  row_Avg_Breathing_Rate : cell;
  row_Sleep_Duration : cell
}.

Definition not_available : cell := Str "N/A".

(** [format_time_part] on a cell: a number has no [split]. *)
Definition format_time_part_of (c : cell) : result string :=
  match c with
  | Str s => Ok (format_time_part s)
  | Num _ => Raise AttributeError
  end.

(** [next_bedtime_dt] for the record at position [i]. *)
Definition next_bedtime_of (sleep_data : list sleep_record) (i : nat) : option timestamp :=
  if (i + 1 <? length sleep_data)%nat then
    match sleep_data !! (i + 1)%nat with
    | Some next_record => Bedtime_dt next_record
    | None => None
    end
  else None.

(** The call [calculate_daytime_hrv_integral(wakeup_hrv, wakeup_dt,
    next_bedtime_dt)] on the values of the frame.  When the next bedtime is
    [NaT], the condition [if next_bedtime_datetime] holds and the upper hour
    is [NaT.hour], which is nan: [hour < next_bedtime_hour] is false for every
    bucket, [daytime_data] stays empty and the function returns [None]
    (lines 27 to 52). *)
Definition daytime_hrv_of (wakeup_hrv : readings) (wakeup_dt : datetime)
    (next_bedtime_dt : option timestamp) : option float :=
  match next_bedtime_dt with
  | None => calculate_daytime_hrv_integral wakeup_hrv (Some wakeup_dt) None
  | Some (Datetime next) =>
      calculate_daytime_hrv_integral wakeup_hrv (Some wakeup_dt) (Some next)
  | Some NaT => None
  end.

(** The body of the loop over the sleep records: the line appended, or
    [None] when the record is skipped.  Only [None] is skipped: with [NaT]
    for the bedtime the turn goes on, and with [NaT] for the wake time
    [strftime] raises. *)
Definition process_record (hrv_data : gmap string readings)
    (sleep_data : list sleep_record) (i : nat) (sleep_record : sleep_record)
    : result (option result_row) :=
  match Bedtime_dt sleep_record, Wakeup_dt sleep_record with
  | Some bedtime_dt, Some NaT => Raise ValueError
  | Some bedtime_dt, Some (Datetime wakeup_dt) =>
      let wakeup_date := strftime_ymd wakeup_dt in
      let wakeup_hrv := default [] (hrv_data !! wakeup_date) in
      let next_bedtime_dt := next_bedtime_of sleep_data i in
      let avg_daytime_hrv := daytime_hrv_of wakeup_hrv wakeup_dt next_bedtime_dt in
      let* bedtime := format_time_part_of (Bedtime sleep_record) in
      let* wakeup := format_time_part_of (Wakeup sleep_record) in
      Ok (Some {| row_Date := Date sleep_record;
                  row_Bedtime := bedtime;
                  row_Wakeup := wakeup;
                  row_Daytime_HRV_Avg := avg_daytime_hrv;
                  row_Avg_Breathing_Rate :=
                    default not_available (Avg_Breathing_Rate sleep_record);
                  row_Sleep_Duration :=
                    default not_available (Sleep_Duration sleep_record) |})
  | _, _ => Ok None
  end.

Definition process_step (hrv_data : gmap string readings)
    (sleep_data : list sleep_record) (result_df : result (list result_row))
    (ir : nat * sleep_record) : result (list result_row) :=
  let* df := result_df in
  let* new_row := process_record hrv_data sleep_data (fst ir) (snd ir) in
  match new_row with
  | Some row => Ok (df ++ [row])
  | None => Ok df
  end.

Definition process_records (hrv_data : gmap string readings)
    (sleep_data : list sleep_record) : result (list result_row) :=
  fold_left (process_step hrv_data sleep_data) (enumerate sleep_data) (Ok []).

(** [process_sleep_hrv_data], from the decoded sleep frame and the lines of
    the HRV file; the progress callback is left out. *)
Definition process_sleep_hrv_data (sleep_file : csv_frame) (hrv_file : list string)
    : result (list result_row * list sleep_record * gmap string readings) :=
  let* sleep_data := read_autosleep_data sleep_file in
  let* hrv_data := parse_hrv_file hrv_file in
  let* result_df := process_records hrv_data sleep_data in
  Ok (result_df, sleep_data, hrv_data).

End DataProcessor.

(** ** The aggregation in the words of the specification *)

Module Spec.
Import PyDatetime Pandas DateUtils FileParser DataProcessor Float64.

(** Step 3: the bucket hour lies in the window. *)
Definition in_window (wakeHour upperHour h : Z) : bool :=
  (0 <=? h) && (wakeHour <=? h) && (h <? upperHour).

(** The readings that qualify, as (hour, value) pairs in the order of the set. *)
Definition qualifying (readings : readings) (wakeHour upperHour : Z) : list (Z * float) :=
  map (fun item => (convert_time_slot_to_hour (fst item), snd item))
    (List.filter (fun item => in_window wakeHour upperHour (convert_time_slot_to_hour (fst item)))
       readings).

(** Ascending by hour. *)
Fixpoint hours_ascending (pairs : list (Z * float)) : Prop :=
  match pairs with
  | p :: (q :: _) as rest => fst p <= fst q /\ hours_ascending rest
  | _ => True
  end.

(** The adjacent pairs of a sequence. *)
Fixpoint adjacent {A : Type} (l : list A) : list (A * A) :=
  match l with
  | x :: (y :: _) as rest => (x, y) :: adjacent rest
  | _ => []
  end.

(** Step 7, one segment: skipped when its width is not positive, else its
    contribution [(v_i + v_{i+1}) / 2 * width] goes to the integral and its
    width to the total width. *)
Definition add_segment (totals : float * Z) (seg : (Z * float) * (Z * float)) : float * Z :=
  let width := fst (snd seg) - fst (fst seg) in
  if width <=? 0 then totals
  else
    (fadd (fst totals)
       (fmul (fdiv (fadd (snd (fst seg)) (snd (snd seg))) (float_of_int 2)) (float_of_int width)),
     snd totals + width).

Definition trapezoid_totals (pairs : list (Z * float)) : float * Z :=
  fold_left add_segment (adjacent pairs) (float_of_int 0, 0).

(** [totalIntegral / totalWidth] rounded to two decimals when the width is
    positive, otherwise absent. *)
Definition trapezoid_mean (pairs : list (Z * float)) : option float :=
  if 0 <? snd (trapezoid_totals pairs)
  then Some (round2 (fdiv (fst (trapezoid_totals pairs))
                       (float_of_int (snd (trapezoid_totals pairs)))))
  else None.

(** [r] is [x] rounded to two decimal places.  A float that is an
    integer, a zero, an infinity or NaN has no further decimals and is
    itself.  Otherwise [x] is [(-1)^s * m * 2^e] with [e < 0], and [r] is the
    float nearest to [(-1)^s * k / 100] for the integer [k] nearest to
    [100 * m * 2^e]: the two differ by one half at most, and by one half
    only when [k] is even. *)
Definition rounded_to_hundredths (x r : float) : Prop :=
  match x with
  | S754_finite s m e =>
      if 0 <=? e then r = x
      else
        exists k : Z,
          0 <= k /\
          Z.abs (2 * (Zpos m * 100) - 2 * k * 2 ^ (- e)) <= 2 ^ (- e) /\
          (Z.abs (2 * (Zpos m * 100) - 2 * k * 2 ^ (- e)) = 2 ^ (- e) -> Z.even k = true) /\
          r = of_decimal s k (-2)
  | _ => r = x
  end.

(** The timestamp the frame holds stands for the parse of the cell: a
    datetime is the parse, [NaT] and [None] stand for a failed parse. *)
Definition holds_parse (c : cell) (held : option timestamp) : Prop :=
  match held with
  | Some (Datetime d) => parse_japanese_datetime c = Some d
  | _ => parse_japanese_datetime c = None
  end.

(** What [read_autosleep_data] establishes for each record: the two
    timestamps stand for the parses of the two cells, the wake timestamp is
    not [NaT], and the date is the date of the wake timestamp. *)
Definition from_reader (r : sleep_record) : Prop :=
  holds_parse (Bedtime r) (Bedtime_dt r) /\
  holds_parse (Wakeup r) (Wakeup_dt r) /\
  get_date_string (Wakeup_dt r) = Ok (Date r).

(** The line a record contributes to the result, if any. *)
Definition line_of (hrv_data : gmap string readings) (sleep_data : list sleep_record)
    (ir : nat * sleep_record) : option result_row :=
  match process_record hrv_data sleep_data (fst ir) (snd ir) with
  | Ok (Some row) => Some row
  | _ => None
  end.

End Spec.

(** ** utils/pdf_generator.py *)

Module PdfGenerator.
Import PyStr FileParser Float64.

(** What the report is built from: the flowables handed to [doc.build]. *)
Inductive element : Type :=
| Paragraph (text style : string)
| Spacer (width height : Z)
| Table (data : list (list string)).

Definition MAX_ROWS : nat := 30.

(** [str] of a count. *)
Definition str_of_nat (n : nat) : string := NilEmpty.string_of_uint (Nat.to_uint n).

(** [result_data.empty]: an axis has no entry. *)
Definition frame_empty (df : csv_frame) : bool :=
  (length (rows df) =? 0)%nat || (length (columns df) =? 0)%nat.

Definition not_shown_info (display_rows total : nat) : string :=
  "Note: Showing " +:+ str_of_nat display_rows +:+ " of " +:+ str_of_nat total
  +:+ " rows. " +:+ str_of_nat (total - display_rows) +:+ " rows are not displayed.".

Section Report.

Variable str_of_float : float -> string.

(** The loop over [range(display_rows)]: [filtered_data.iloc[i]] is appended. *)
Definition table_step (filtered_data : list (list string))
    (table_data : list (list string)) (i : nat) : list (list string) :=
  table_data ++ [nth i filtered_data []].

(** [generate_pdf_report]: the elements built from [result_data], which may
    be [None]; the styling of the table and the writing of the file are left
    to the library. *)
Definition generate_pdf_report (result_data : option csv_frame) : list element :=
  let title := [Paragraph "Sleep and HRV Analysis Report" "Title"; Spacer 1 20] in
  match result_data with
  | None => title
  | Some df =>
      if frame_empty df then title
      else
        let filtered_data := map (map (filter_ascii_only str_of_float)) (rows df) in
        let display_rows := Nat.min (length filtered_data) MAX_ROWS in
        let table_data :=
          fold_left (table_step filtered_data) (seq 0 display_rows) [columns df] in
        title
        ++ [Paragraph "Analysis Results" "Heading2"; Spacer 1 10; Table table_data]
        ++ (if (MAX_ROWS <? length filtered_data)%nat
            then [Spacer 1 10;
                  Paragraph (not_shown_info display_rows (length filtered_data)) "Italic"]
            else [])
  end.

End Report.

End PdfGenerator.

(** ** Further notions used to state properties *)

Module SpecMore.
Import PyStr PyDatetime DateUtils FileParser DataProcessor Float64 Spec.

(** The result as a function of the sorted selection. *)
Definition aggregate (pairs : list (Z * float)) : option float :=
  match pairs with
  | [] => None
  | [p] => Some (snd p)
  | _ :: _ :: _ => trapezoid_mean pairs
  end.

(** The labels of a reading set. *)
Definition labels (d : readings) : list string := map fst d.

(** The cells of a data line, as [parse_line] cuts them. *)
Definition line_values (raw : string) : list string :=
  split "," (remove_char double_quote (strip raw)).

(** The date under which a data line is stored. *)
Definition line_date (raw : string) : string :=
  strip (nth 0 (line_values raw) EmptyString).

(** The line is not skipped: it has more than white space. *)
Definition not_blank (raw : string) : bool := truthy (strip raw).

(** The line is stored under the date. *)
Definition line_of_date (date raw : string) : Prop :=
  not_blank raw = true /\ line_date raw = date.

(** The text of a half of the day in a label. *)
Definition half_text (ap : am_pm) : string :=
  match ap with
  | AM => "AM"
  | PM => "PM"
  end.

(** A label of the shape the conversion reads: digits, white space or none,
    AM or PM, and any text. *)
Definition is_hour_label (time_slot : string) : Prop :=
  exists (ds ws rest : string) (ap : am_pm),
    truthy ds = true /\ all_chars isdigit ds = true /\ all_chars isspace ws = true /\
    time_slot = ds +:+ ws +:+ half_text ap +:+ rest.

(** A character that a date may have: no white space, comma or quote. *)
Definition key_char (c : ascii) : bool :=
  negb (isspace c) && negb (Ascii.eqb c ",") && negb (Ascii.eqb c double_quote).

(** The hour on the 12-hour clock: 12 for midnight and noon. *)
Definition hour12 (h : Z) : Z := if h mod 12 =? 0 then 12 else h mod 12.

(** A number below 100 in decimal, without padding. *)
Definition decimal (n : Z) : string :=
  if n <? 10 then String (digit_char n) EmptyString else two_digits n.

(** The label of the bucket that starts at hour [h], as far as the
    conversion reads it: ["6 AM"], ["12 PM"], ["11 PM"]. *)
Definition bucket_label (h : Z) : string :=
  decimal (hour12 h) +:+ " " +:+ (if h <? 12 then "AM" else "PM").

(** A timestamp written the way the sleep file has them:
    ["2025-03-02 午前6:30:00"]. *)
Definition timestamp_text (d : datetime) : string :=
  four_digits (year d) +:+ "-" +:+ two_digits (month d) +:+ "-" +:+ two_digits (day d)
  +:+ " " +:+ (if hour d <? 12 then text_gozen else text_gogo)
  +:+ decimal (hour12 (hour d)) +:+ ":" +:+ two_digits (minute d)
  +:+ ":" +:+ two_digits (second d).

(** The text does not start with a digit. *)
Definition no_leading_digit (t : string) : bool :=
  match t with
  | EmptyString => true
  | String c _ => negb (isdigit c)
  end.

End SpecMore.

(** ** Data of the worked examples *)

Module Examples.
Import PyDatetime Pandas FileParser DataProcessor Float64.

(** A morning of March 2, 2025 at the given hour. *)
Definition morning (h : Z) : datetime :=
  {| year := 2025; month := 3; day := 2; hour := h; minute := 30; second := 0 |}.

(** A night of March 2, 2025 at the given hour. *)
Definition night (h : Z) : datetime :=
  {| year := 2025; month := 3; day := 2; hour := h; minute := 15; second := 0 |}.

(** Readings at 6, 9 and 12 o'clock: 30.0, 35.0 and 40.0. *)
Definition three_readings : readings :=
  [("6 AM - 7 AM", of_decimal false 300 (-1));
   ("9 AM - 10 AM", of_decimal false 350 (-1));
   ("12 PM - 1 PM", of_decimal false 400 (-1))].

(** Readings in the last two buckets of the day: 40.0 and 50.0. *)
Definition evening_readings : readings :=
  [("10 PM - 11 PM", of_decimal false 400 (-1));
   ("11 PM - 12 AM", of_decimal false 500 (-1))].

(** One reading at 8 o'clock: 50.0. *)
Definition reading_at_8 : readings := [("8 AM - 9 AM", of_decimal false 500 (-1))].

(** One reading at 14 o'clock: 20.0. *)
Definition reading_at_14 : readings := [("2 PM - 3 PM", of_decimal false 200 (-1))].

(** One reading at 5 o'clock: 10.0. *)
Definition reading_at_5 : readings := [("5 AM - 6 AM", of_decimal false 100 (-1))].

(** A sleep file of three nights; the bedtime of the second does not parse. *)
Definition sleep_frame : csv_frame :=
  {| columns := [col_bedtime; col_wakeup; col_breathing; col_sleep];
     rows :=
       [[Str "2025-03-01 午後11:15:00"; Str "2025-03-02 午前6:30:00";
         Num (of_decimal false 142 (-1)); Str "07:15:00"];
        [Str "2025-03-02 late"; Str "2025-03-03 午前7:00:00";
         Num (of_decimal false 150 (-1)); Str "06:40:00"];
        [Str "2025-03-03 午後10:00:00"; Str "2025-03-04 午前7:30:00";
         Num (of_decimal false 138 (-1)); Str "09:30:00"]] |}.

(** An HRV file with readings on March 1, 2 and 4. *)
Definition hrv_lines : list string :=
  ["Heart Rate Variability";
   "Date,6 AM - 7 AM,9 AM - 10 AM,12 PM - 1 PM,11 PM - 12 AM";
   "2025/03/01,80,81,82,83";
   "2025/03/02,30.0,35.0,40.0,50";
   "2025/03/04,,20 - 30,,"].

Definition sleep_data : list sleep_record :=
  match read_autosleep_data sleep_frame with
  | Ok records => records
  | Raise _ => []
  end.

Definition hrv_data : gmap string readings :=
  match parse_hrv_file hrv_lines with
  | Ok data => data
  | Raise _ => ∅
  end.

(** A sleep file without the wake-time column. *)
Definition frame_without_wakeup : csv_frame :=
  {| columns := [col_bedtime; col_breathing; col_sleep];
     rows := [[Str "2025-03-01 午後11:15:00"; Num (of_decimal false 142 (-1)); Str "07:15:00"]] |}.

(** An HRV file of one bucket, its reading written bare and as a range. *)
Definition hrv_lines_bare : list string :=
  ["Heart Rate Variability"; "Date,8 AM - 9 AM"; "2025/03/02,1e308"].

Definition hrv_lines_range : list string :=
  ["Heart Rate Variability"; "Date,8 AM - 9 AM"; "2025/03/02,1e308 - 1e308"].

(** The float 1e308. *)
Definition float_1e308 : float := S754_finite false 5010420900022432 971.


(** Two labels of the same hour, 13: readings 40.0 and 50.0. *)
Definition same_hour_readings : readings :=
  [("1 PM", of_decimal false 400 (-1));
   ("1 PM - 2 PM", of_decimal false 500 (-1))].

(** The readings at 12, 9 and 6 o'clock, latest first. *)
Definition three_readings_reversed : readings :=
  [("12 PM - 1 PM", of_decimal false 400 (-1));
   ("9 AM - 10 AM", of_decimal false 350 (-1));
   ("6 AM - 7 AM", of_decimal false 300 (-1))].

(** A reading under a label that is not a bucket. *)
Definition reading_at_noon : string * float := ("noon", of_decimal false 990 (-1)).

(** An HRV file in which a blank line stands between the data lines and the
    date March 2 comes twice. *)
Definition hrv_lines_repeated : list string :=
  ["Heart Rate Variability";
   "Date,6 AM - 7 AM,9 AM - 10 AM";
   "2025/03/02,30.0,35.0";
   "   ";
   "2025/03/03,41,42";
   "2025/03/02,50,"].

Definition hrv_data_repeated : gmap string readings :=
  match parse_hrv_file hrv_lines_repeated with
  | Ok data => data
  | Raise _ => ∅
  end.

(** A sleep file that has the two timestamp columns only. *)
Definition frame_times_only : csv_frame :=
  {| columns := [col_bedtime; col_wakeup];
     rows :=
       [[Str "2025-03-01 午後11:15:00"; Str "2025-03-02 午前6:30:00"];
        [Str "2025-03-02 午後10:00:00"; Str "2025-03-03 午前7:30:00"]] |}.

(** The run on that file and the HRV file above. *)
Definition run_times_only : list result_row * list sleep_record * gmap string readings :=
  match process_sleep_hrv_data frame_times_only hrv_lines with
  | Ok run => run
  | Raise _ => ([], [], ∅)
  end.

(** A sleep file whose second wake time has no date. *)
Definition frame_unparsed_wake : csv_frame :=
  {| columns := [col_bedtime; col_wakeup];
     rows :=
       [[Str "2025-03-01 午後11:15:00"; Str "2025-03-02 午前6:30:00"];
        [Str "2025-03-02 午後10:00:00"; Str "7:30"]] |}.

(** A sleep file whose second bedtime cell is empty. *)
Definition frame_empty_bedtime : csv_frame :=
  {| columns := [col_bedtime; col_wakeup];
     rows :=
       [[Str "2025-03-01 午後11:15:00"; Str "2025-03-02 午前6:30:00"];
        [Num S754_nan; Str "2025-03-03 午前7:30:00"]] |}.

(** A sleep file in which no wake time has a date. *)
Definition frame_no_wake_parsed : csv_frame :=
  {| columns := [col_bedtime; col_wakeup];
     rows :=
       [[Str "2025-03-01 午後11:15:00"; Str "6:30"];
        [Str "2025-03-02 午後10:00:00"; Str "7:30"]] |}.

Definition sleep_data_no_wake_parsed : list sleep_record :=
  match read_autosleep_data frame_no_wake_parsed with
  | Ok records => records
  | Raise _ => []
  end.

(** Its second record. *)
Definition record_no_wake_parsed : sleep_record :=
  {| Bedtime := Str "2025-03-02 午後10:00:00";
     Wakeup := Str "7:30";
     Avg_Breathing_Rate := None;
     Sleep_Duration := None;
     Bedtime_dt :=
       Some (Datetime
               {| year := 2025; month := 3; day := 2; hour := 22; minute := 0; second := 0 |});
     Wakeup_dt := None;
     Date := EmptyString |}.

(** The run on the sleep file of three nights and the HRV file above. *)
Definition run_three_nights : list result_row * list sleep_record * gmap string readings :=
  match process_sleep_hrv_data sleep_frame hrv_lines with
  | Ok run => run
  | Raise _ => ([], [], ∅)
  end.

(** The first record of that sleep file. *)
Definition first_record : sleep_record :=
  {| Bedtime := Str "2025-03-01 午後11:15:00";
     Wakeup := Str "2025-03-02 午前6:30:00";
     Avg_Breathing_Rate := Some (Num (of_decimal false 142 (-1)));
     Sleep_Duration := Some (Str "07:15:00");
     Bedtime_dt :=
       Some (Datetime
               {| year := 2025; month := 3; day := 1; hour := 23; minute := 15; second := 0 |});
     Wakeup_dt := Some (Datetime (morning 6));
     Date := "2025/03/02" |}.

(** The morning of March 4, 2025 at 7:30. *)
Definition morning_of_march_4 : datetime :=
  {| year := 2025; month := 3; day := 4; hour := 7; minute := 30; second := 0 |}.

(** The third record of that sleep file. *)
Definition third_record : sleep_record :=
  {| Bedtime := Str "2025-03-03 午後10:00:00";
     Wakeup := Str "2025-03-04 午前7:30:00";
     Avg_Breathing_Rate := Some (Num (of_decimal false 138 (-1)));
     Sleep_Duration := Some (Str "09:30:00");
     Bedtime_dt :=
       Some (Datetime
               {| year := 2025; month := 3; day := 3; hour := 22; minute := 0; second := 0 |});
     Wakeup_dt := Some (Datetime morning_of_march_4);
     Date := "2025/03/04" |}.

(** Readings 30.0, 31.0 and 31.0 at 6, 7 and 9 o'clock: their mean over
    the three hours is 92.5 / 3. *)
Definition readings_of_a_third : readings :=
  [("6 AM - 7 AM", of_decimal false 300 (-1));
   ("7 AM - 8 AM", of_decimal false 310 (-1));
   ("9 AM - 10 AM", of_decimal false 310 (-1))].

End Examples.

(** * Properties *)

Import PyStr PyNum PyDatetime Pandas DateUtils FileParser DataProcessor Float64 Spec.

(** ** Selection of the daytime readings *)

Lemma select_fold (w u : Z) (r : readings) (acc : list (Z * float)) :
  fold_left (select_step w u) r acc = acc ++ qualifying r w u.
Proof.
  revert acc. induction r as [|item r IH]; intros acc.
  - unfold qualifying. cbn. now rewrite app_nil_r.
  - cbn [fold_left]. rewrite IH. unfold select_step, qualifying, in_window.
    cbn [List.filter].
    destruct ((0 <=? convert_time_slot_to_hour (fst item)) &&
              (w <=? convert_time_slot_to_hour (fst item)) &&
              (convert_time_slot_to_hour (fst item) <? u)).
    + cbn [map]. now rewrite <- app_assoc.
    + reflexivity.
Qed.

Lemma select_daytime_qualifying (r : readings) (w u : Z) :
  select_daytime r w u = qualifying r w u.
Proof. unfold select_daytime. now rewrite select_fold. Qed.

Lemma in_select_daytime (r : readings) (w u h : Z) (v : float) :
  In (h, v) (select_daytime r w u) <->
  exists slot, In (slot, v) r /\ convert_time_slot_to_hour slot = h /\
               0 <= h /\ w <= h /\ h < u.
Proof.
  rewrite select_daytime_qualifying. unfold qualifying, in_window.
  rewrite in_map_iff. split.
  - intros [[slot v'] [E Hin]]. cbn in E. inversion E; subst.
    apply filter_In in Hin as [Hin Hw]. cbn in Hw.
    exists slot. repeat split; try assumption; lia.
  - intros (slot & Hin & <- & H0 & Hw & Hu). exists (slot, v). split; [reflexivity|].
    apply filter_In. split; [assumption|]. cbn. lia.
Qed.

(** ** The sort *)

Lemma in_insert_by_hour (x y : Z * float) (l : list (Z * float)) :
  In y (insert_by_hour x l) <-> y = x \/ In y l.
Proof.
  induction l as [|z l IH]; cbn.
  - intuition congruence.
  - destruct (fst x <=? fst z); cbn; rewrite ?IH; intuition congruence.
Qed.

Lemma in_sort_by_hour (y : Z * float) (l : list (Z * float)) :
  In y (sort_by_hour l) <-> In y l.
Proof.
  induction l as [|x l IH]; cbn; [tauto|].
  rewrite in_insert_by_hour, IH. intuition congruence.
Qed.

Lemma length_insert_by_hour (x : Z * float) (l : list (Z * float)) :
  length (insert_by_hour x l) = S (length l).
Proof.
  induction l as [|z l IH]; cbn; [reflexivity|].
  destruct (fst x <=? fst z); cbn; congruence.
Qed.

Lemma length_sort_by_hour (l : list (Z * float)) :
  length (sort_by_hour l) = length l.
Proof.
  induction l as [|x l IH]; cbn; [reflexivity|].
  now rewrite length_insert_by_hour, IH.
Qed.

Lemma insert_ascending (x : Z * float) (l : list (Z * float)) :
  hours_ascending l -> hours_ascending (insert_by_hour x l).
Proof.
  induction l as [|y l IH]; intros Hl; [exact I|].
  cbn [insert_by_hour]. destruct (Z.leb_spec (fst x) (fst y)) as [Hxy | Hxy].
  - split; assumption.
  - destruct l as [|z l].
    + cbn. split; [lia | exact I].
    + destruct Hl as [Hyz Hl]. specialize (IH Hl). cbn [insert_by_hour] in *.
      destruct (Z.leb_spec (fst x) (fst z)); split; try assumption; lia.
Qed.

Lemma sort_ascending (l : list (Z * float)) : hours_ascending (sort_by_hour l).
Proof.
  induction l as [|x l IH]; [exact I|]. cbn [sort_by_hour].
  now apply insert_ascending.
Qed.

Lemma sort_nil_inv (l : list (Z * float)) : sort_by_hour l = [] -> l = [].
Proof.
  intros H. apply (f_equal (@length _)) in H. rewrite length_sort_by_hour in H.
  now destruct l.
Qed.

(** ** The integration loop *)

Lemma integrate_step_segment (p : list (Z * float)) (x y : Z * float)
    (l : list (Z * float)) (st : float * Z) :
  integrate_step (p ++ x :: y :: l) st (length p) = add_segment st (x, y).
Proof.
  unfold integrate_step, add_segment.
  rewrite list_lookup_middle by reflexivity.
  replace (p ++ x :: y :: l) with ((p ++ [x]) ++ y :: l) by now rewrite <- app_assoc.
  rewrite (list_lookup_middle (p ++ [x]) l y (S (length p)))
    by (rewrite length_app; cbn; lia).
  destruct x as [hx vx], y as [hy vy]. reflexivity.
Qed.

Lemma integrate_loop (p l : list (Z * float)) (st : float * Z) :
  fold_left (integrate_step (p ++ l)) (seq (length p) (length l - 1)) st
  = fold_left add_segment (adjacent l) st.
Proof.
  revert p st. induction l as [|x l IH]; intros p st; [reflexivity|].
  destruct l as [|y l]; [reflexivity|].
  replace (length (x :: y :: l) - 1)%nat with (S (length (y :: l) - 1)) by (cbn; lia).
  cbn [seq fold_left adjacent]. rewrite integrate_step_segment.
  specialize (IH (p ++ [x]) (add_segment st (x, y))).
  rewrite <- app_assoc, length_app in IH. cbn [app length] in IH.
  replace (length p + 1)%nat with (S (length p)) in IH by lia.
  exact IH.
Qed.

Lemma integrate_trapezoid (d : list (Z * float)) : integrate d = trapezoid_totals d.
Proof. exact (integrate_loop [] d (float_of_int 0, 0)). Qed.

Lemma calculate_unfold (hrv_data : readings) (wake : datetime) (next : option datetime) :
  hrv_data <> [] ->
  calculate_daytime_hrv_integral hrv_data (Some wake) next =
    let d := daytime_data_of hrv_data wake next in
    match d with
    | [] => None
    | [first] => Some (snd first)
    | _ :: _ :: _ => trapezoid_mean d
    end.
Proof.
  intros Hne. unfold calculate_daytime_hrv_integral.
  destruct hrv_data as [|item r]; [congruence|].
  cbv zeta. destruct (daytime_data_of (item :: r) wake next) as [|a [|b d]] eqn:E;
    try reflexivity.
  cbn [length Nat.ltb Nat.leb]. rewrite integrate_trapezoid. unfold trapezoid_mean.
  destruct (trapezoid_totals (a :: b :: d)) as [ti tt]. reflexivity.
Qed.

Lemma daytime_data_nil (wake : datetime) (next : option datetime) :
  daytime_data_of [] wake next = [].
Proof. reflexivity. Qed.

(** ** Binary64: the midpoint of a float with itself *)

Lemma fexp_eq (k : Z) : fexp prec emax k = Z.max (k - 53) (-1074).
Proof. reflexivity. Qed.

Lemma bounded_cases (m : positive) (e : Z) :
  bounded prec emax m e = true ->
  e <= 971 /\
  ((Zpos (digits2_pos m) = 53 /\ -1074 <= e) \/
   (Zpos (digits2_pos m) < 53 /\ e = -1074)).
Proof.
  unfold bounded, canonical_mantissa. rewrite fexp_eq.
  intros H. apply andb_prop in H as [H1 H2].
  apply Z.eqb_eq in H1. apply Z.leb_le in H2.
  change (emax - prec) with 971 in H2.
  split; [exact H2|]. lia.
Qed.

Lemma shr_fexp_fits (m : positive) (e : Z) :
  fexp prec emax (Zpos (digits2_pos m) + e) = e ->
  shr_fexp prec emax (Zpos m) e loc_Exact = (Build_shr_record (Zpos m) false false, e).
Proof.
  intros Hc. unfold shr_fexp. cbn [Zdigits2 shr_record_of_loc].
  rewrite Hc, Z.sub_diag. reflexivity.
Qed.

(** Rounding a mantissa that already fits is the identity. *)
Lemma binary_round_aux_fits (s : bool) (m : positive) (e : Z) :
  fexp prec emax (Zpos (digits2_pos m) + e) = e -> e <= 971 ->
  binary_round_aux prec emax s (Zpos m) e loc_Exact = S754_finite s m e.
Proof.
  intros Hc He. unfold binary_round_aux. rewrite (shr_fexp_fits _ _ Hc).
  cbn [shr_m loc_of_shr_record round_nearest_even]. rewrite (shr_fexp_fits _ _ Hc).
  cbn [shr_m]. change (emax - prec) with 971.
  destruct (Z.leb_spec e 971); [reflexivity | lia].
Qed.

(** Rounding twice a full mantissa drops the last bit, which is zero. *)
Lemma binary_round_aux_twice (s : bool) (m : positive) (e : Z) :
  Zpos (digits2_pos m) = 53 -> -1075 <= e -> e + 1 <= 971 ->
  binary_round_aux prec emax s (Zpos (xO m)) e loc_Exact = S754_finite s m (e + 1).
Proof.
  intros Hd Hlo He.
  assert (Hs : shr_fexp prec emax (Zpos (xO m)) e loc_Exact
               = (Build_shr_record (Zpos m) false false, e + 1)).
  { unfold shr_fexp. cbn [Zdigits2 shr_record_of_loc digits2_pos].
    rewrite Pos2Z.inj_succ, Hd, fexp_eq.
    replace (Z.max (Z.succ 53 + e - 53) (-1074) - e) with 1 by lia. reflexivity. }
  assert (Hc : fexp prec emax (Zpos (digits2_pos m) + (e + 1)) = e + 1).
  { rewrite Hd, fexp_eq. lia. }
  unfold binary_round_aux. rewrite Hs.
  cbn [shr_m loc_of_shr_record round_nearest_even]. rewrite (shr_fexp_fits _ _ Hc).
  cbn [shr_m]. change (emax - prec) with 971.
  destruct (Z.leb_spec (e + 1) 971); [reflexivity | lia].
Qed.

Lemma two_eq : float_of_int 2 = S754_finite false 4503599627370496 (-51).
Proof. reflexivity. Qed.

(** A float added to itself: the exponent goes up by one, or, for a
    subnormal, the mantissa doubles. *)
Lemma fadd_self (s : bool) (m : positive) (e : Z) :
  bounded prec emax m e = true -> e < 971 ->
  fadd (S754_finite s m e) (S754_finite s m e) =
    if Zpos (digits2_pos m) =? 53 then S754_finite s m (e + 1)
    else S754_finite s (xO m) e.
Proof.
  intros Hb He. apply bounded_cases in Hb as [_ Hb].
  unfold fadd, SFadd. rewrite Z.min_id.
  unfold shl_align at 1 2. rewrite Z.sub_diag. cbn [fst].
  assert (Hn : binary_normalize prec emax
                 (cond_Zopp s (Zpos m) + cond_Zopp s (Zpos m)) e false
               = binary_round prec emax s (xO m) e).
  { destruct s; cbn [cond_Zopp].
    - replace (- Z.pos m + - Z.pos m) with (Z.neg (xO m)) by lia. reflexivity.
    - replace (Z.pos m + Z.pos m) with (Z.pos (xO m)) by lia. reflexivity. }
  rewrite Hn. unfold binary_round.
  assert (Ha : shl_align (xO m) e (fexp prec emax (Zpos (digits2_pos (xO m)) + e))
               = (xO m, e)).
  { unfold shl_align. cbn [digits2_pos]. rewrite Pos2Z.inj_succ, fexp_eq.
    destruct (Z.max (Z.succ (Zpos (digits2_pos m)) + e - 53) (-1074) - e) eqn:E;
      try reflexivity. lia. }
  rewrite Ha.
  destruct Hb as [[Hd Hlo] | [Hd Hlo]].
  - rewrite Hd. cbn [Z.eqb Pos.eqb]. apply binary_round_aux_twice; lia.
  - destruct (Z.eqb_spec (Zpos (digits2_pos m)) 53); [lia|].
    apply binary_round_aux_fits; [|lia].
    cbn [digits2_pos]. rewrite Pos2Z.inj_succ, fexp_eq. lia.
Qed.

Lemma div_eucl_exact (a b : Z) : 0 < b -> Z.div_eucl (a * b) b = (a, 0).
Proof.
  intros Hb.
  pose proof (Z.div_mul a b ltac:(lia)) as Hq.
  pose proof (Z.mod_mul a b ltac:(lia)) as Hr.
  unfold Z.div, Z.modulo in Hq, Hr.
  destruct (Z.div_eucl (a * b) b) as [q r]. congruence.
Qed.

(** The quotient the division computes when the divisor is two and the
    dividend, once shifted, is a multiple of the mantissa of two. *)
Lemma SFdiv_core_by_two (m q : positive) (e1 e' : Z) :
  Z.min (fexp prec emax (Zpos (digits2_pos m) + e1 - 2)) (e1 + 51) = e' ->
  0 <= e1 + 51 - e' ->
  Zpos m * 2 ^ (e1 + 51 - e') = Zpos q * 4503599627370496 ->
  SFdiv_core_binary prec emax (Zpos m) e1 4503599627370496 (-51)
  = (Zpos q, e', loc_Exact).
Proof.
  intros He' Hs Hq. unfold SFdiv_core_binary. cbn [Zdigits2].
  change (Zpos (digits2_pos 4503599627370496) + -51) with 2.
  replace (e1 - -51) with (e1 + 51) by lia. rewrite He'.
  set (sh := e1 + 51 - e') in *.
  assert (Hm : match sh with
               | 0 => Zpos m
               | Zpos _ => Z.shiftl (Zpos m) sh
               | Zneg _ => 0
               end = Zpos q * 4503599627370496).
  { rewrite <- Hq. destruct sh eqn:E; [cbn; lia | | lia].
    rewrite Z.shiftl_mul_pow2 by lia. reflexivity. }
  rewrite Hm.
  change IntDef.Z.div_eucl with Z.div_eucl.
  rewrite div_eucl_exact by lia. reflexivity.
Qed.

(** Halving a normal float is exact. *)
Lemma fdiv_two_normal (s : bool) (m : positive) (e : Z) :
  Zpos (digits2_pos m) = 53 -> -1074 <= e -> e < 971 ->
  fdiv (S754_finite s m (e + 1)) (float_of_int 2) = S754_finite s m e.
Proof.
  intros Hd Hlo He. rewrite two_eq. unfold fdiv, SFdiv. rewrite xorb_false_r.
  destruct (Z.eq_dec e (-1074)) as [-> | Hne].
  - rewrite (SFdiv_core_by_two m m (-1074 + 1) (-1074)).
    + apply binary_round_aux_fits; [|lia]. rewrite Hd. reflexivity.
    + rewrite Hd. reflexivity.
    + lia.
    + reflexivity.
  - rewrite (SFdiv_core_by_two m (xO m) (e + 1) (e - 1)).
    + replace e with (e - 1 + 1) at 2 by lia. apply binary_round_aux_twice; lia.
    + rewrite Hd, fexp_eq. lia.
    + lia.
    + replace (e + 1 + 51 - (e - 1)) with 53 by lia. lia.
Qed.

(** Halving the double of a subnormal float is exact. *)
Lemma fdiv_two_subnormal (s : bool) (m : positive) :
  Zpos (digits2_pos m) < 53 ->
  fdiv (S754_finite s (xO m) (-1074)) (float_of_int 2) = S754_finite s m (-1074).
Proof.
  intros Hd. rewrite two_eq. unfold fdiv, SFdiv. rewrite xorb_false_r.
  rewrite (SFdiv_core_by_two (xO m) m (-1074) (-1074)).
  - apply binary_round_aux_fits; [|lia]. rewrite fexp_eq. lia.
  - cbn [digits2_pos]. rewrite Pos2Z.inj_succ, fexp_eq. lia.
  - lia.
  - change (-1074 + 51 - -1074) with 51. lia.
Qed.

(** The midpoint of a float with itself is that float, unless the sum
    overflows. *)
Lemma midpoint_self (v : float) :
  is_float v -> doubles_exactly v = true ->
  fdiv (fadd v v) (float_of_int 2) = v.
Proof.
  destruct v as [s | s | | s m e]; intros Hv Hd.
  - destruct s; reflexivity.
  - destruct s; reflexivity.
  - reflexivity.
  - unfold is_float in Hv. cbn [valid_binary doubles_exactly] in Hv, Hd.
    apply Z.ltb_lt in Hd. rewrite (fadd_self _ _ _ Hv Hd).
    apply bounded_cases in Hv as [_ [[Hm Hlo] | [Hm ->]]].
    + rewrite Hm. cbn [Z.eqb Pos.eqb]. apply fdiv_two_normal; assumption.
    + destruct (Z.eqb_spec (Zpos (digits2_pos m)) 53); [lia|].
      apply fdiv_two_subnormal; assumption.
Qed.

(** ** Binary64: rounding yields canonical numbers *)

Lemma digits2_size (p : positive) : digits2_pos p = Pos.size p.
Proof. induction p as [p IH | p IH |]; cbn; congruence. Qed.

Lemma Zdigits2_bounds (m : Z) :
  0 < m -> 2 ^ (Zdigits2 m - 1) <= m < 2 ^ Zdigits2 m.
Proof.
  destruct m as [|p|p]; try lia. intros _. cbn [Zdigits2]. rewrite digits2_size.
  pose proof (Pos.size_gt p) as Hgt. pose proof (Pos.size_le p) as Hle.
  apply Pos2Z.pos_lt_pos in Hgt. apply Pos2Z.pos_le_pos in Hle.
  rewrite Pos2Z.inj_pow in Hgt, Hle.
  replace (Z.pos (Pos.size p)) with (Z.succ (Z.pos (Pos.size p) - 1)) in Hle at 1 by lia.
  rewrite Z.pow_succ_r in Hle by lia. lia.
Qed.

Lemma Zdigits2_nonneg (m : Z) : 0 <= Zdigits2 m.
Proof. destruct m; cbn; lia. Qed.

Lemma Zdigits2_pos (m : Z) : 0 < m -> 1 <= Zdigits2 m.
Proof. destruct m; cbn; lia. Qed.

(** A number that reaches [2 ^ k] has more than [k] digits. *)
Lemma Zdigits2_reach (m k : Z) : 0 <= k -> 2 ^ k <= m -> k + 1 <= Zdigits2 m.
Proof.
  intros Hk Hm. assert (Hpos : 0 < m) by (pose proof (Z.pow_pos_nonneg 2 k); lia).
  destruct (Zdigits2_bounds m Hpos) as [_ Hhi].
  pose proof (Zdigits2_nonneg m).
  destruct (Z_lt_le_dec k (Zdigits2 m)); [lia|].
  pose proof (Z.pow_le_mono_r 2 (Zdigits2 m) k). lia.
Qed.

(** A number below [2 ^ k] has at most [k] digits. *)
Lemma Zdigits2_below (m k : Z) : 0 <= k -> 0 <= m < 2 ^ k -> Zdigits2 m <= k.
Proof.
  intros Hk [Hlo Hhi]. destruct (Z.eq_dec m 0) as [-> | Hne]; [cbn; lia|].
  destruct (Zdigits2_bounds m ltac:(lia)) as [Hd _].
  pose proof (Zdigits2_pos m ltac:(lia)).
  destruct (Z_le_gt_dec (Zdigits2 m) k); [assumption|].
  pose proof (Z.pow_le_mono_r 2 k (Zdigits2 m - 1)). lia.
Qed.

Lemma Zdigits2_mono (a b : Z) : 0 <= a <= b -> Zdigits2 a <= Zdigits2 b.
Proof.
  intros [Ha Hab]. destruct (Z.eq_dec b 0) as [-> | Hb].
  - replace a with 0 by lia. lia.
  - apply Zdigits2_below; [apply Zdigits2_nonneg|].
    destruct (Zdigits2_bounds b ltac:(lia)). lia.
Qed.

(** The digits that remain after dropping [n] of them. *)
Lemma Zdigits2_shift (m n : Z) :
  0 < m -> 0 <= n -> 0 < m / 2 ^ n -> Zdigits2 (m / 2 ^ n) = Zdigits2 m - n.
Proof.
  intros Hm Hn Hq.
  assert (Hp : 0 < 2 ^ n) by (apply Z.pow_pos_nonneg; lia).
  destruct (Zdigits2_bounds m Hm) as [Hlo Hhi].
  pose proof (Zdigits2_pos m Hm) as Hd.
  assert (Hge : 2 ^ n <= m).
  { destruct (Z_le_gt_dec (2 ^ n) m); [assumption|].
    rewrite Z.div_small in Hq by lia. lia. }
  assert (Hnd : n + 1 <= Zdigits2 m) by (apply Zdigits2_reach; assumption).
  apply Z.le_antisymm.
  - apply Zdigits2_below; [lia|]. split; [lia|].
    apply Z.div_lt_upper_bound; [lia|].
    rewrite <- Z.pow_add_r by lia. now replace (n + (Zdigits2 m - n)) with (Zdigits2 m) by lia.
  - assert (H : Zdigits2 m - n - 1 + 1 <= Zdigits2 (m / 2 ^ n)); [|lia].
    apply Zdigits2_reach; [lia|].
    apply Z.div_le_lower_bound; [lia|].
    rewrite <- Z.pow_add_r by lia. now replace (n + (Zdigits2 m - n - 1)) with (Zdigits2 m - 1) by lia.
Qed.

Lemma fexp_mono (a b : Z) : a <= b -> fexp prec emax a <= fexp prec emax b.
Proof. rewrite !fexp_eq. lia. Qed.

Lemma fexp_emin (k : Z) : -1074 <= fexp prec emax k.
Proof. rewrite fexp_eq. lia. Qed.

(** An exponent at or above the digits leaves the smallest exponent. *)
Lemma fexp_from_above (k e : Z) : k <= e -> e <= fexp prec emax k -> e <= -1074.
Proof. rewrite fexp_eq. lia. Qed.

Lemma shr_m_of_loc (m : Z) (l : location) : shr_m (shr_record_of_loc m l) = m.
Proof. destruct l as [|[]]; reflexivity. Qed.

Lemma shr_m_shr_1 (r : shr_record) :
  0 <= shr_m r -> shr_m (shr_1 r) = shr_m r / 2.
Proof.
  destruct r as [m rb sb]. cbn [shr_m]. intros Hm.
  destruct m as [|[p|p|]|p]; cbn [shr_1 shr_m]; try lia.
  all: try reflexivity.
  - rewrite Pos2Z.inj_xI. rewrite (Z.mul_comm 2), Z.div_add_l by lia.
    now rewrite Z.div_small by lia.
  - rewrite Pos2Z.inj_xO. now rewrite (Z.mul_comm 2), Z.div_mul by lia.
Qed.

Lemma shr_m_iter (n : positive) (r : shr_record) :
  0 <= shr_m r -> shr_m (SpecFloat.iter_pos shr_1 n r) = shr_m r / 2 ^ Zpos n.
Proof.
  revert r. induction n as [n IH | n IH |]; intros r Hr; cbn [SpecFloat.iter_pos].
  - assert (Hp : 0 < 2 ^ Z.pos n) by (apply Z.pow_pos_nonneg; lia).
    assert (H1 : 0 <= shr_m (shr_1 r)).
    { rewrite shr_m_shr_1 by assumption. apply Z.div_pos; lia. }
    assert (H2 : 0 <= shr_m (SpecFloat.iter_pos shr_1 n (shr_1 r))).
    { rewrite IH by assumption. apply Z.div_pos; assumption. }
    rewrite IH, IH, shr_m_shr_1 by assumption.
    rewrite !Z.div_div by lia.
    f_equal. rewrite (Pos2Z.inj_xI n).
    replace (2 * Z.pos n + 1) with (1 + Z.pos n + Z.pos n) by lia.
    rewrite !Z.pow_add_r by lia. lia.
  - assert (Hp : 0 < 2 ^ Z.pos n) by (apply Z.pow_pos_nonneg; lia).
    assert (H2 : 0 <= shr_m (SpecFloat.iter_pos shr_1 n r)).
    { rewrite IH by assumption. apply Z.div_pos; assumption. }
    rewrite IH, IH by assumption.
    rewrite Z.div_div by lia.
    f_equal. rewrite (Pos2Z.inj_xO n).
    replace (2 * Z.pos n) with (Z.pos n + Z.pos n) by lia.
    now rewrite Z.pow_add_r by lia.
  - now rewrite shr_m_shr_1.
Qed.

(** What the shift to the target exponent returns, for a mantissa that is
    not below it. *)
Lemma shr_fexp_spec (m e : Z) (l : location) :
  0 <= m -> e <= fexp prec emax (Zdigits2 m + e) ->
  exists r : shr_record,
    shr_fexp prec emax m e l = (r, fexp prec emax (Zdigits2 m + e)) /\
    shr_m r = m / 2 ^ (fexp prec emax (Zdigits2 m + e) - e).
Proof.
  intros Hm He. unfold shr_fexp, shr.
  destruct (fexp prec emax (Zdigits2 m + e) - e) as [|n|n] eqn:E; [| |lia].
  - exists (shr_record_of_loc m l). split; [f_equal; lia|].
    rewrite shr_m_of_loc. now rewrite Z.div_1_r.
  - exists (SpecFloat.iter_pos shr_1 n (shr_record_of_loc m l)). split; [f_equal; lia|].
    rewrite shr_m_iter by (rewrite shr_m_of_loc; assumption).
    now rewrite shr_m_of_loc.
Qed.

Lemma round_nearest_even_cases (m : Z) (l : location) :
  round_nearest_even m l = m \/ round_nearest_even m l = m + 1.
Proof. destruct l as [|[]]; cbn; try tauto. destruct (Z.even m); tauto. Qed.

(** Rounding a mantissa that is not below its target exponent yields a
    binary64 number. *)
Lemma binary_round_aux_valid (s : bool) (m e : Z) (l : location) :
  0 <= m -> e <= fexp prec emax (Zdigits2 m + e) ->
  is_float (binary_round_aux prec emax s m e l).
Proof.
  intros Hm He. unfold is_float, binary_round_aux.
  destruct (shr_fexp_spec m e l Hm He) as (r1 & -> & Hr1).
  set (e1 := fexp prec emax (Zdigits2 m + e)) in *.
  set (m1 := round_nearest_even (shr_m r1) (loc_of_shr_record r1)).
  assert (Hp : 0 < 2 ^ (e1 - e)) by (apply Z.pow_pos_nonneg; lia).
  assert (Hq : 0 <= shr_m r1) by (rewrite Hr1; apply Z.div_pos; lia).
  assert (Hm1 : 0 <= m1 /\ shr_m r1 <= m1).
  { subst m1. destruct (round_nearest_even_cases (shr_m r1) (loc_of_shr_record r1)) as [-> | ->]; lia. }
  assert (He1 : e1 <= fexp prec emax (Zdigits2 m1 + e1)).
  { destruct (Z.eq_dec (shr_m r1) 0) as [Hz | Hnz].
    - assert (Hsmall : Zdigits2 m + e <= e1).
      { assert (Hlt : 0 <= m < 2 ^ (e1 - e)).
        { split; [assumption|]. rewrite Hz in Hr1. symmetry in Hr1.
          apply Z.div_small_iff in Hr1; lia. }
        pose proof (Zdigits2_below m (e1 - e) ltac:(lia) Hlt). lia. }
      pose proof (fexp_from_above _ _ Hsmall ltac:(subst e1; lia)).
      pose proof (fexp_emin (Zdigits2 m1 + e1)). lia.
    - assert (Hmpos : 0 < m).
      { destruct (Z.eq_dec m 0) as [-> | ?]; [|lia]. rewrite Z.div_0_l in Hr1 by lia. lia. }
      assert (Hd : Zdigits2 (shr_m r1) = Zdigits2 m - (e1 - e)).
      { rewrite Hr1. apply Zdigits2_shift; [assumption | lia | lia]. }
      pose proof (Zdigits2_mono (shr_m r1) m1 ltac:(lia)) as Hmono.
      apply Z.le_trans with (fexp prec emax (Zdigits2 (shr_m r1) + e1)).
      + rewrite Hd. replace (Zdigits2 m - (e1 - e) + e1) with (Zdigits2 m + e) by lia. lia.
      + apply fexp_mono. lia. }
  destruct (shr_fexp_spec m1 e1 loc_Exact (proj1 Hm1) He1) as (r2 & -> & Hr2).
  set (e2 := fexp prec emax (Zdigits2 m1 + e1)) in *.
  destruct (shr_m r2) as [|p|p] eqn:Ep; [reflexivity | | reflexivity].
  change (emax - prec) with 971.
  destruct (Z.leb_spec e2 971) as [Hle | Hgt]; [|reflexivity].
  cbn [valid_binary]. unfold bounded, canonical_mantissa.
  change (emax - prec) with 971.
  apply andb_true_intro. split; [|now apply Z.leb_le].
  apply Z.eqb_eq.
  assert (Hm1pos : 0 < m1).
  { destruct (Z.eq_dec m1 0) as [Hz | ?]; [|lia].
    rewrite Hz, Z.div_0_l in Hr2; [lia|].
    assert (0 < 2 ^ (e2 - e1)) by (apply Z.pow_pos_nonneg; lia). lia. }
  assert (Hd2 : Zdigits2 (Z.pos p) = Zdigits2 m1 - (e2 - e1)).
  { rewrite Hr2. apply Zdigits2_shift; [assumption | lia | lia]. }
  cbn [Zdigits2] in Hd2. rewrite Hd2.
  replace (Zdigits2 m1 - (e2 - e1) + e2) with (Zdigits2 m1 + e1) by lia. reflexivity.
Qed.

Lemma digits2_iter_xO (d m : positive) :
  Zpos (digits2_pos (Pos.iter xO m d)) = Zpos (digits2_pos m) + Zpos d.
Proof.
  induction d as [|d IH] using Pos.peano_ind.
  - cbn. lia.
  - rewrite Pos.iter_succ. cbn [digits2_pos]. lia.
Qed.

Lemma binary_round_valid (s : bool) (m : positive) (e : Z) :
  is_float (binary_round prec emax s m e).
Proof.
  unfold binary_round, shl_align.
  destruct (fexp prec emax (Zpos (digits2_pos m) + e) - e) as [|d|d] eqn:E.
  - apply binary_round_aux_valid; [lia|]. cbn [Zdigits2]. lia.
  - apply binary_round_aux_valid; [lia|]. cbn [Zdigits2]. lia.
  - apply binary_round_aux_valid; [lia|]. cbn [Zdigits2].
    rewrite digits2_iter_xO.
    replace (Z.pos (digits2_pos m) + Z.pos d + fexp prec emax (Z.pos (digits2_pos m) + e))
      with (Z.pos (digits2_pos m) + e) by lia.
    lia.
Qed.

Lemma binary_normalize_valid (m e : Z) (s : bool) :
  is_float (binary_normalize prec emax m e s).
Proof.
  destruct m as [|p|p]; cbn [binary_normalize]; [reflexivity | |]; apply binary_round_valid.
Qed.

(** The quotient of two finite numbers, whatever their mantissas, is rounded
    to a binary64 number. *)
Lemma fdiv_finite_valid (s1 s2 : bool) (m1 m2 : positive) (e1 e2 : Z) :
  is_float (fdiv (S754_finite s1 m1 e1) (S754_finite s2 m2 e2)).
Proof.
  unfold fdiv, SFdiv, SFdiv_core_binary. cbn [Zdigits2].
  set (d1 := Zpos (digits2_pos m1)). set (d2 := Zpos (digits2_pos m2)).
  set (e' := Z.min (fexp prec emax (d1 + e1 - (d2 + e2))) (e1 - e2)).
  set (sh := e1 - e2 - e').
  assert (Hsh : 0 <= sh) by (subst sh e'; lia).
  set (a := match sh with
            | 0 => Z.pos m1
            | Z.pos _ => Z.shiftl (Z.pos m1) sh
            | Z.neg _ => 0
            end).
  assert (Ha : a = Zpos m1 * 2 ^ sh).
  { subst a. destruct sh as [|p|p] eqn:E; [lia | | lia].
    now rewrite Z.shiftl_mul_pow2 by lia. }
  change IntDef.Z.div_eucl with Z.div_eucl.
  pose proof (Z.div_mod a (Zpos m2) ltac:(lia)) as Hdm.
  pose proof (Z.mod_pos_bound a (Zpos m2) ltac:(lia)) as Hmod.
  unfold Z.div, Z.modulo in Hdm, Hmod.
  destruct (Z.div_eucl a (Z.pos m2)) as [q r]. clearbody a. subst a.
  assert (Hp : 0 < 2 ^ sh) by (apply Z.pow_pos_nonneg; lia).
  assert (Hq : 0 <= q) by nia.
  apply binary_round_aux_valid; [assumption|].
  destruct (Zdigits2_bounds (Zpos m1) ltac:(lia)) as [Hlo1 _].
  destruct (Zdigits2_bounds (Zpos m2) ltac:(lia)) as [_ Hhi2].
  cbn [Zdigits2] in Hlo1, Hhi2. fold d1 in Hlo1. fold d2 in Hhi2.
  assert (Hd1 : 1 <= d1) by (subst d1; lia).
  assert (Hd2 : 1 <= d2) by (subst d2; lia).
  set (k := d1 - d2 + sh - 1).
  destruct (Z_lt_le_dec k 0) as [Hk | Hk].
  - assert (Hbelow : d1 + e1 - (d2 + e2) <= e') by (subst k sh; lia).
    assert (Hfe : e' <= fexp prec emax (d1 + e1 - (d2 + e2))) by (subst e'; lia).
    pose proof (fexp_from_above _ _ Hbelow Hfe).
    pose proof (fexp_emin (Zdigits2 q + e')). lia.
  - assert (Hreach : 2 ^ k <= q).
    { assert (H1 : 2 ^ (k + d2) <= Zpos m1 * 2 ^ sh).
      { replace (k + d2) with ((d1 - 1) + sh) by (subst k; lia).
        rewrite Z.pow_add_r by lia. nia. }
      rewrite Z.pow_add_r in H1 by lia.
      assert (0 < 2 ^ k) by (apply Z.pow_pos_nonneg; lia).
      nia. }
    pose proof (Zdigits2_reach q k Hk Hreach) as Hdq.
    apply Z.le_trans with (fexp prec emax (d1 + e1 - (d2 + e2))); [subst e'; lia|].
    apply fexp_mono. subst k sh. lia.
Qed.

Lemma of_decimal_valid (s : bool) (d e : Z) : is_float (of_decimal s d e).
Proof.
  unfold of_decimal. destruct d as [|p|p]; [reflexivity | | reflexivity].
  destruct (0 <=? e); [apply binary_normalize_valid | apply fdiv_finite_valid].
Qed.

(** Every float read from a text is a binary64 number. *)
Lemma py_float_valid (t : string) (v : float) : py_float t = Some v -> is_float v.
Proof.
  unfold py_float, float_of_token. destruct (take_sign (strip t)) as [neg body].
  destruct (_ || _); [intros [= <-]; reflexivity|].
  destruct (String.eqb _ _); [intros [= <-]; reflexivity|].
  destruct (number _) as [[i f]|]; [|discriminate].
  destruct (match drop_while _ body with EmptyString => _ | String _ et => _ end) as [ex|];
    [|discriminate].
  intros [= <-]. apply of_decimal_valid.
Qed.

(** ** The aggregate of two or more readings *)

(** The quotient rounded to the nearest integer, ties to even: it differs
    from the exact quotient by one half at most, and by one half only when it
    is even. *)
Lemma div_half_even_nearest (a b : Z) :
  0 <= a -> 0 < b ->
  0 <= div_half_even a b /\
  Z.abs (2 * a - 2 * div_half_even a b * b) <= b /\
  (Z.abs (2 * a - 2 * div_half_even a b * b) = b -> Z.even (div_half_even a b) = true).
Proof.
  intros Ha Hb. unfold div_half_even.
  pose proof (Z.div_mod a b ltac:(lia)) as Hdiv.
  pose proof (Z.mod_pos_bound a b Hb) as Hmod.
  pose proof (Z.div_pos a b Ha Hb) as Hq.
  set (q := a / b) in *. set (r := a mod b) in *.
  assert (E0 : 2 * a - 2 * q * b = 2 * r) by lia.
  assert (E1 : 2 * a - 2 * (q + 1) * b = 2 * r - 2 * b) by lia.
  destruct (Z.compare_spec (2 * r) b) as [Heq|Hlt|Hgt].
  - destruct (Z.even q) eqn:Eq.
    + rewrite E0. split; [lia|]. split; [lia|]. intros _. exact Eq.
    + rewrite E1. split; [lia|]. split; [lia|]. intros _.
      replace (q + 1) with (Z.succ q) by lia.
      now rewrite Z.even_succ, <- Z.negb_even, Eq.
  - rewrite E0. split; [lia|]. split; lia.
  - rewrite E1. split; [lia|]. split; lia.
Qed.

(** [round2] rounds to two decimal places. *)
Lemma round2_rounds (x : float) : rounded_to_hundredths x (round2 x).
Proof.
  destruct x as [s|s| |s m e]; try reflexivity.
  unfold rounded_to_hundredths, round2.
  destruct (Z.leb_spec 0 e) as [He|He]; [reflexivity|].
  assert (Hb : 0 < 2 ^ (- e)) by (apply Z.pow_pos_nonneg; lia).
  destruct (div_half_even_nearest (Zpos m * 100) (2 ^ (- e)) ltac:(lia) Hb)
    as (Hk & Hnear & Htie).
  exists (div_half_even (Zpos m * 100) (2 ^ (- e))). repeat split; assumption.
Qed.

(** C1. When two or more readings are selected, the pairs sorted by hour are
    ascending and the result is the trapezoidal time-weighted mean of the
    specification: over the adjacent pairs, the segments of positive width
    add [(v_i + v_{i+1}) / 2 * width] to the integral and their width to the
    total width; the result is absent when the total width is not positive,
    and is otherwise the integral over the width rounded to two decimals,
    that is the float of the decimal with two places nearest to the quotient.
    Readings 30.0, 35.0 and 40.0 at 6, 9 and 12 o'clock, a wake hour of 6 and
    no next bedtime give 35.00; readings 30.0, 31.0 and 31.0 at 6, 7 and 9
    o'clock, whose quotient 92.5 / 3 is not a decimal with two places, give
    30.83. *)
Theorem trapezoidal_mean_of_two_or_more :
  (forall (hrv_data : readings) (wake : datetime) (next : option datetime),
      (2 <= length (daytime_data_of hrv_data wake next))%nat ->
      hours_ascending (daytime_data_of hrv_data wake next) /\
      calculate_daytime_hrv_integral hrv_data (Some wake) next
      = trapezoid_mean (daytime_data_of hrv_data wake next) /\
      (snd (trapezoid_totals (daytime_data_of hrv_data wake next)) <= 0 ->
       calculate_daytime_hrv_integral hrv_data (Some wake) next = None) /\
      (0 < snd (trapezoid_totals (daytime_data_of hrv_data wake next)) ->
       exists r : float,
         calculate_daytime_hrv_integral hrv_data (Some wake) next = Some r /\
         rounded_to_hundredths
           (fdiv (fst (trapezoid_totals (daytime_data_of hrv_data wake next)))
              (float_of_int (snd (trapezoid_totals (daytime_data_of hrv_data wake next)))))
           r)) /\
  calculate_daytime_hrv_integral Examples.three_readings (Some (Examples.morning 6)) None
  = Some (of_decimal false 3500 (-2)) /\
  trapezoid_totals (daytime_data_of Examples.readings_of_a_third (Examples.morning 6) None)
  = (of_decimal false 925 (-1), 3) /\
  fdiv (of_decimal false 925 (-1)) (float_of_int 3) <> of_decimal false 3083 (-2) /\
  calculate_daytime_hrv_integral Examples.readings_of_a_third (Some (Examples.morning 6)) None
  = Some (of_decimal false 3083 (-2)).
Proof.
  split; [|repeat split; try (vm_compute; reflexivity); vm_compute; discriminate].
  intros hrv_data wake next Hlen. split; [apply sort_ascending|].
  assert (E : calculate_daytime_hrv_integral hrv_data (Some wake) next
              = trapezoid_mean (daytime_data_of hrv_data wake next)).
  { destruct hrv_data as [|item r]; [cbn in Hlen; lia|].
    rewrite calculate_unfold by discriminate. cbv zeta.
    destruct (daytime_data_of (item :: r) wake next) as [|a [|b d]];
      cbn in Hlen; try lia. reflexivity. }
  split; [exact E|]. rewrite E. unfold trapezoid_mean. split.
  - intros Hw.
    destruct (Z.ltb_spec 0 (snd (trapezoid_totals (daytime_data_of hrv_data wake next))));
      [lia | reflexivity].
  - intros Hw.
    destruct (Z.ltb_spec 0 (snd (trapezoid_totals (daytime_data_of hrv_data wake next))));
      [|lia].
    eexists. split; [reflexivity | apply round2_rounds].
Qed.

Lemma trapezoidal_mean_example :
  exists r : float,
    calculate_daytime_hrv_integral Examples.readings_of_a_third
      (Some (Examples.morning 6)) None = Some r /\
    rounded_to_hundredths
      (fdiv (fst (trapezoid_totals
                    (daytime_data_of Examples.readings_of_a_third (Examples.morning 6) None)))
         (float_of_int
            (snd (trapezoid_totals
                    (daytime_data_of Examples.readings_of_a_third (Examples.morning 6) None)))))
      r.
Proof.
  exact (proj2 (proj2 (proj2 (proj1 trapezoidal_mean_of_two_or_more
                  Examples.readings_of_a_third (Examples.morning 6) None
                  ltac:(vm_compute; lia))))
           ltac:(vm_compute; reflexivity)).
Defined.


(** ** The default upper bound *)

(** C2. Without a next bedtime the upper hour is 23 and the comparison is
    strict: no pair of hour 23 (or later) is selected.  With readings 40.0 and
    50.0 in buckets 22 and 23 and a wake hour of 6, only the first is kept and
    the result is 40.0. *)
Theorem bucket_23_excluded_without_next_bedtime :
  (forall (hrv_data : readings) (wake : datetime) (h : Z) (v : float),
      In (h, v) (daytime_data_of hrv_data wake None) -> h < 23) /\
  convert_time_slot_to_hour "11 PM - 12 AM" = 23 /\
  daytime_data_of Examples.evening_readings (Examples.morning 6) None
  = [(22, of_decimal false 400 (-1))] /\
  calculate_daytime_hrv_integral Examples.evening_readings (Some (Examples.morning 6)) None
  = Some (of_decimal false 400 (-1)).
Proof.
  split; [|repeat split; vm_compute; reflexivity].
  intros hrv_data wake h v Hin. unfold daytime_data_of in Hin.
  apply in_sort_by_hour, in_select_daytime in Hin as (slot & _ & _ & _ & _ & Hu).
  exact Hu.
Qed.

(** ** The bounds of the window *)

Lemma valid_hour (d : datetime) : valid_datetime d = true -> 0 <= hour d <= 23.
Proof.
  unfold valid_datetime. intros H.
  repeat (apply andb_prop in H as [H ?]). lia.
Qed.

(** C3, as stated, fails: a reading at the wake hour 8 is not selected when
    the next bedtime is at 1 o'clock. *)
Lemma wake_hour_reading_excluded :
  In ("8 AM - 9 AM"%string, of_decimal false 500 (-1)) Examples.reading_at_8 /\
  convert_time_slot_to_hour "8 AM - 9 AM" = hour (Examples.morning 8) /\
  daytime_data_of Examples.reading_at_8 (Examples.morning 8) (Some (Examples.night 1)) = [] /\
  calculate_daytime_hrv_integral Examples.reading_at_8 (Some (Examples.morning 8))
    (Some (Examples.night 1)) = None.
Proof. repeat split; [left; reflexivity | vm_compute; reflexivity ..]. Qed.

(** C3, amended. The window is half-open: a reading whose bucket hour equals
    the wake hour is selected whenever the wake hour is below the upper hour,
    and no selected pair has the upper hour. *)
Theorem window_is_half_open (hrv_data : readings) (wake : datetime)
    (next : option datetime) (slot : string) (v : float) :
  valid_datetime wake = true ->
  In (slot, v) hrv_data ->
  (convert_time_slot_to_hour slot = hour wake ->
   hour wake < next_bedtime_hour_of next ->
   In (hour wake, v) (daytime_data_of hrv_data wake next)) /\
  (forall v' : float,
      ~ In (next_bedtime_hour_of next, v') (daytime_data_of hrv_data wake next)).
Proof.
  intros Hvalid Hin. unfold daytime_data_of. split.
  - intros Hslot Hlt. apply in_sort_by_hour, in_select_daytime.
    exists slot. apply valid_hour in Hvalid. repeat split; try assumption; lia.
  - intros v' H. apply in_sort_by_hour, in_select_daytime in H as (? & _ & _ & _ & _ & Hu).
    lia.
Qed.

Lemma window_is_half_open_example :
  In (8, of_decimal false 500 (-1))
    (daytime_data_of Examples.reading_at_8 (Examples.morning 8) (Some (Examples.night 9))) /\
  ~ In (9, of_decimal false 500 (-1))
    (daytime_data_of Examples.reading_at_8 (Examples.morning 8) (Some (Examples.night 9))).
Proof.
  pose proof (window_is_half_open Examples.reading_at_8 (Examples.morning 8)
                (Some (Examples.night 9)) "8 AM - 9 AM" (of_decimal false 500 (-1))
                ltac:(vm_compute; reflexivity) ltac:(left; reflexivity)) as [Hin Hout].
  split.
  - apply Hin; [vm_compute; reflexivity | vm_compute; reflexivity].
  - apply Hout.
Defined.

(** ** One reading, no reading *)

(** C4. When exactly one reading qualifies the result is its value as it is;
    when none qualifies the result is absent, which is the case when every
    bucket hour is below the wake hour and when the upper hour is at most the
    wake hour. *)
Theorem single_reading_and_no_reading (hrv_data : readings) (wake : datetime)
    (next : option datetime) :
  (forall (h : Z) (v : float),
      select_daytime hrv_data (hour wake) (next_bedtime_hour_of next) = [(h, v)] ->
      calculate_daytime_hrv_integral hrv_data (Some wake) next = Some v) /\
  (select_daytime hrv_data (hour wake) (next_bedtime_hour_of next) = [] ->
   calculate_daytime_hrv_integral hrv_data (Some wake) next = None) /\
  ((forall (slot : string) (v : float),
       In (slot, v) hrv_data -> convert_time_slot_to_hour slot < hour wake) ->
   select_daytime hrv_data (hour wake) (next_bedtime_hour_of next) = []) /\
  (next_bedtime_hour_of next <= hour wake ->
   select_daytime hrv_data (hour wake) (next_bedtime_hour_of next) = []).
Proof.
  assert (Hempty : forall w u,
             (forall h v, ~ In (h, v) (select_daytime hrv_data w u)) ->
             select_daytime hrv_data w u = []).
  { intros w u H. destruct (select_daytime hrv_data w u) as [|[h v] l]; [reflexivity|].
    exfalso. apply (H h v). now left. }
  repeat split.
  - intros h v Hsel. destruct hrv_data as [|item r]; [discriminate|].
    rewrite calculate_unfold by discriminate. unfold daytime_data_of.
    rewrite Hsel. reflexivity.
  - intros Hsel. destruct hrv_data as [|item r]; [reflexivity|].
    rewrite calculate_unfold by discriminate. unfold daytime_data_of.
    rewrite Hsel. reflexivity.
  - intros Hall. apply Hempty. intros h v Hin.
    apply in_select_daytime in Hin as (slot & Hin & <- & _ & Hw & _).
    specialize (Hall slot v Hin). lia.
  - intros Hle. apply Hempty. intros h v Hin.
    apply in_select_daytime in Hin as (slot & _ & _ & _ & Hw & Hu). lia.
Qed.

Lemma single_reading_and_no_reading_example :
  calculate_daytime_hrv_integral Examples.reading_at_14 (Some (Examples.morning 10))
    (Some (Examples.night 22)) = Some (of_decimal false 200 (-1)) /\
  calculate_daytime_hrv_integral Examples.reading_at_5 (Some (Examples.morning 8)) None = None.
Proof.
  split.
  - apply (proj1 (single_reading_and_no_reading Examples.reading_at_14
                    (Examples.morning 10) (Some (Examples.night 22))) 14).
    vm_compute. reflexivity.
  - apply (proj1 (proj2 (single_reading_and_no_reading Examples.reading_at_5
                           (Examples.morning 8) None))).
    vm_compute. reflexivity.
Defined.

(** ** The hour of a bucket label *)

(** C6. The conversion returns hours above 23 for labels such as ["13 PM"]
    and ["24 AM"], against its documentation; a label that does not parse
    gives -1, and only hours from 0 to 22 are ever selected. *)
Theorem time_slot_hour_above_23 :
  convert_time_slot_to_hour "13 PM" = 25 /\
  convert_time_slot_to_hour "24 AM" = 24 /\
  convert_time_slot_to_hour "noon" = -1 /\
  (forall (hrv_data : readings) (wake : datetime) (next : option datetime)
          (h : Z) (v : float),
      valid_datetime wake = true ->
      match next with Some n => valid_datetime n = true | None => True end ->
      In (h, v) (daytime_data_of hrv_data wake next) -> 0 <= h <= 22).
Proof.
  split; [reflexivity|]. split; [reflexivity|]. split; [reflexivity|].
  intros hrv_data wake next h v Hwake Hnext Hin. unfold daytime_data_of in Hin.
  apply in_sort_by_hour, in_select_daytime in Hin as (slot & _ & _ & H0 & _ & Hu).
  split; [exact H0|].
  destruct next as [n|]; cbn [next_bedtime_hour_of] in Hu; [|lia].
  apply valid_hour in Hnext. lia.
Qed.

(** ** The columns of timestamps *)

Lemma lookup_map {A B : Type} (f : A -> B) (l : list A) (i : nat) :
  map f l !! i = option_map f (l !! i).
Proof.
  revert i. induction l as [|x l IH]; intros [|i]; try reflexivity. apply IH.
Qed.

Lemma infer_datetimelike_holds (values : list (option datetime)) (i : nat)
    (held : option timestamp) :
  infer_datetimelike values !! i = Some held ->
  exists v : option datetime,
    values !! i = Some v /\
    match held with
    | Some (Datetime d) => v = Some d
    | _ => v = None
    end.
Proof.
  unfold infer_datetimelike.
  destruct (existsb is_datetime values && forallb fits values);
    rewrite lookup_map; destruct (values !! i) as [[d|]|]; try discriminate;
    intros [= <-]; eexists; split; reflexivity.
Qed.

Lemma length_infer_datetimelike (values : list (option datetime)) :
  length (infer_datetimelike values) = length values.
Proof.
  unfold infer_datetimelike.
  destruct (existsb is_datetime values && forallb fits values); apply List.length_map.
Qed.

(** A failed parse is held as [NaT] when some value is a datetime and every
    datetime is within the bounds. *)
Lemma infer_datetimelike_nat (values : list (option datetime)) (i : nat) :
  existsb is_datetime values = true ->
  forallb fits values = true ->
  values !! i = Some None ->
  infer_datetimelike values !! i = Some (Some NaT).
Proof.
  intros He Hf Hi. unfold infer_datetimelike. rewrite He, Hf. cbn [andb].
  rewrite lookup_map, Hi. reflexivity.
Qed.

(** In a column that holds a [None], no value is a datetime, or some
    datetime is out of the bounds. *)
Lemma infer_datetimelike_none (values : list (option datetime)) (i : nat) :
  infer_datetimelike values !! i = Some None ->
  existsb is_datetime values = false \/ forallb fits values = false.
Proof.
  unfold infer_datetimelike.
  destruct (existsb is_datetime values); [|now left].
  destruct (forallb fits values); [|now right].
  cbn [andb]. rewrite lookup_map. destruct (values !! i); discriminate.
Qed.

Lemma series_apply_ok {A B : Type} (f : A -> result B) (values : list A) (ys : list B) :
  series_apply f values = Ok ys -> Forall2 (fun v y => f v = Ok y) values ys.
Proof.
  revert ys. induction values as [|v values IH]; intros ys; cbn [series_apply].
  - intros [= <-]. constructor.
  - destruct (f v) as [y|] eqn:Ev; cbn [bind]; [|discriminate].
    destruct (series_apply f values) as [ys'|]; cbn [bind]; [|discriminate].
    intros [= <-]. constructor; [exact Ev | now apply IH].
Qed.

Lemma series_apply_raise {A B : Type} (f : A -> result B) (values : list A)
    (e : py_error) :
  series_apply f values = Raise e -> exists v, In v values /\ f v = Raise e.
Proof.
  induction values as [|v values IH]; cbn [series_apply]; [discriminate|].
  destruct (f v) as [y|e'] eqn:Ev; cbn [bind].
  - destruct (series_apply f values) as [ys'|e'']; cbn [bind]; [discriminate|].
    intros [= <-]. destruct (IH eq_refl) as (v' & Hin & Hv').
    exists v'. split; [now right | exact Hv'].
  - intros [= <-]. exists v. split; [now left | exact Ev].
Qed.

Lemma series_apply_all_ok {A B : Type} (f : A -> result B) (values : list A) :
  (forall v, In v values -> exists y, f v = Ok y) ->
  exists ys, series_apply f values = Ok ys.
Proof.
  induction values as [|v values IH]; intros H; cbn [series_apply]; [now eexists|].
  destruct (H v (or_introl eq_refl)) as [y ->]. cbn [bind].
  destruct IH as [ys ->]; [intros v' Hv'; apply H; now right|].
  cbn [bind]. now eexists.
Qed.

Lemma lookup_frame_lines {A : Type}
    (line : list cell -> option timestamp -> option timestamp -> string -> A)
    (rows : list (list cell)) (bs ws : list (option timestamp)) (ds : list string)
    (i : nat) (x : A) :
  frame_lines line rows bs ws ds !! i = Some x ->
  exists row b w d,
    rows !! i = Some row /\ bs !! i = Some b /\ ws !! i = Some w /\ ds !! i = Some d /\
    x = line row b w d.
Proof.
  revert bs ws ds i.
  induction rows as [|row rows IH]; intros [|b bs] [|w ws] [|d ds] i; try discriminate.
  destruct i as [|i]; cbn [frame_lines].
  - intros [= <-]. now exists row, b, w, d.
  - intros H. apply (IH bs ws ds i H).
Qed.

Lemma length_frame_lines {A : Type}
    (line : list cell -> option timestamp -> option timestamp -> string -> A)
    (rows : list (list cell)) (bs ws : list (option timestamp)) (ds : list string) :
  length bs = length rows -> length ws = length rows -> length ds = length rows ->
  length (frame_lines line rows bs ws ds) = length rows.
Proof.
  revert bs ws ds.
  induction rows as [|row rows IH]; intros [|b bs] [|w ws] [|d ds]; cbn [length];
    try discriminate; try reflexivity.
  intros Hb Hw Hd. cbn [frame_lines length]. f_equal. apply IH; lia.
Qed.

(** ** The records of the sleep file *)

Lemma parsed_cell_is_text (c : cell) (d : datetime) :
  parse_japanese_datetime c = Some d -> exists s, c = Str s.
Proof. destruct c as [s|x]; [eauto | discriminate]. Qed.

(** What the reader returns, when it returns: the columns and the lines. *)
Lemma read_autosleep_data_unfold (df : csv_frame) (sleep_data : list sleep_record) :
  read_autosleep_data df = Ok sleep_data ->
  exists date : list string,
    series_apply get_date_string
      (infer_datetimelike
         (map (fun row => parse_japanese_datetime (cell_at (columns df) row col_wakeup))
            (rows df))) = Ok date /\
    forall (i : nat) (r : sleep_record),
      sleep_data !! i = Some r ->
      exists (row : list cell) (d : string),
        rows df !! i = Some row /\
        Bedtime r = cell_at (columns df) row col_bedtime /\
        Wakeup r = cell_at (columns df) row col_wakeup /\
        infer_datetimelike
          (map (fun row => parse_japanese_datetime (cell_at (columns df) row col_bedtime))
             (rows df)) !! i = Some (Bedtime_dt r) /\
        infer_datetimelike
          (map (fun row => parse_japanese_datetime (cell_at (columns df) row col_wakeup))
             (rows df)) !! i = Some (Wakeup_dt r) /\
        date !! i = Some (Date r).
Proof.
  unfold read_autosleep_data.
  destruct (negb _ || negb _); [discriminate|].
  destruct (series_apply get_date_string _) as [date|] eqn:Ed; cbn [bind]; [|discriminate].
  intros [= <-]. exists date. split; [reflexivity|].
  intros i r Hi. apply lookup_frame_lines in Hi as (row & b & w & d & Hrow & Hb & Hw & Hd & ->).
  exists row, d. cbn. repeat split; assumption.
Qed.

Lemma read_autosleep_data_length (df : csv_frame) (sleep_data : list sleep_record) :
  read_autosleep_data df = Ok sleep_data -> length sleep_data = length (rows df).
Proof.
  unfold read_autosleep_data.
  destruct (negb _ || negb _); [discriminate|].
  destruct (series_apply get_date_string _) as [date|] eqn:Ed; cbn [bind]; [|discriminate].
  intros [= <-]. apply series_apply_ok, Forall2_length in Ed.
  rewrite length_infer_datetimelike, List.length_map in Ed.
  apply length_frame_lines; rewrite ?length_infer_datetimelike, ?List.length_map; congruence.
Qed.

Lemma record_of_file (df : csv_frame) (sleep_data : list sleep_record) (i : nat)
    (r : sleep_record) :
  read_autosleep_data df = Ok sleep_data -> sleep_data !! i = Some r -> from_reader r.
Proof.
  intros Hread Hi.
  destruct (read_autosleep_data_unfold _ _ Hread) as (date & Hdate & Hlines).
  destruct (Hlines i r Hi) as (row & d & Hrow & Hb & Hw & Hbdt & Hwdt & Hd).
  apply infer_datetimelike_holds in Hbdt as (vb & Hvb & Hheld_b).
  pose proof Hwdt as Hwdt'.
  apply infer_datetimelike_holds in Hwdt as (vw & Hvw & Hheld_w).
  rewrite lookup_map, Hrow in Hvb, Hvw. cbn [option_map] in Hvb, Hvw.
  injection Hvb as <-. injection Hvw as <-.
  unfold from_reader, holds_parse. rewrite Hb, Hw.
  split; [|split].
  - destruct (Bedtime_dt r) as [[b|]|]; exact Hheld_b.
  - destruct (Wakeup_dt r) as [[w|]|]; exact Hheld_w.
  - apply series_apply_ok in Hdate.
    exact (Forall2_lookup_lr _ _ _ _ _ _ Hdate Hwdt' Hd).
Qed.

Lemma read_autosleep_data_records (df : csv_frame) (sleep_data : list sleep_record) :
  read_autosleep_data df = Ok sleep_data -> Forall from_reader sleep_data.
Proof.
  intros Hread. apply List.Forall_forall. intros r Hin.
  apply list_elem_of_In, list_elem_of_lookup_1 in Hin as [i Hi].
  exact (record_of_file _ _ _ _ Hread Hi).
Qed.

(** The reader raises nothing but [ValueError]. *)
Lemma read_autosleep_data_raises (df : csv_frame) (e : py_error) :
  read_autosleep_data df = Raise e -> e = ValueError.
Proof.
  unfold read_autosleep_data.
  destruct (negb _ || negb _); [now intros [= <-]|].
  destruct (series_apply get_date_string _) as [date|e'] eqn:Ed; cbn [bind]; [discriminate|].
  intros [= <-]. apply series_apply_raise in Ed as ([[w|]|] & _ & Hv); cbn in Hv; congruence.
Qed.

Lemma from_reader_wake (r : sleep_record) :
  from_reader r ->
  match Wakeup_dt r with
  | Some (Datetime w) => Date r = strftime_ymd w /\ exists wakeup, Wakeup r = Str wakeup
  | Some NaT => False
  | None => Date r = EmptyString
  end.
Proof.
  intros (_ & Hw & Hd). unfold holds_parse in Hw.
  destruct (Wakeup_dt r) as [[w|]|]; cbn [get_date_string] in Hd; try congruence.
  split; [congruence|]. exact (parsed_cell_is_text _ _ Hw).
Qed.

Lemma in_enumerate_from {A : Type} (k i : nat) (x : A) (l : list A) :
  In (i, x) (enumerate_from k l) <-> (k <= i)%nat /\ l !! (i - k)%nat = Some x.
Proof.
  revert k. induction l as [|y l IH]; intros k; cbn [enumerate_from In].
  - split; [tauto | intros [_ H]; discriminate].
  - rewrite IH. split.
    + intros [E | [Hk Hl]].
      * inversion E; subst. split; [lia|]. now rewrite Nat.sub_diag.
      * split; [lia|]. replace (i - k)%nat with (S (i - S k)) by lia. exact Hl.
    + intros [Hk Hl]. destruct (Nat.eq_dec i k) as [-> | Hne].
      * left. rewrite Nat.sub_diag in Hl. cbn in Hl. congruence.
      * right. split; [lia|].
        replace (i - k)%nat with (S (i - S k)) in Hl by lia. exact Hl.
Qed.

Lemma in_enumerate {A : Type} (i : nat) (x : A) (l : list A) :
  In (i, x) (enumerate l) <-> l !! i = Some x.
Proof.
  unfold enumerate. rewrite in_enumerate_from, Nat.sub_0_r.
  split; [tauto | intros H; split; [lia | exact H]].
Qed.

Lemma length_enumerate_from {A : Type} (k : nat) (l : list A) :
  length (enumerate_from k l) = length l.
Proof. revert k. induction l as [|x l IH]; intros k; cbn; [reflexivity | now rewrite IH]. Qed.

(** ** One turn of the loop over the records *)

Lemma process_record_skipped (hrv_data : gmap string readings)
    (sleep_data : list sleep_record) (i : nat) (r : sleep_record) :
  Bedtime_dt r = None \/ Wakeup_dt r = None ->
  process_record hrv_data sleep_data i r = Ok None.
Proof.
  unfold process_record. intros [H | H]; rewrite H; [reflexivity|].
  destruct (Bedtime_dt r); reflexivity.
Qed.

(** A turn that is not skipped, for a record of the reader: the line is
    built unless the bedtime cell is not a text. *)
Lemma process_record_reached (hrv_data : gmap string readings)
    (sleep_data : list sleep_record) (i : nat) (r : sleep_record) (bt : timestamp)
    (w : datetime) :
  from_reader r -> Bedtime_dt r = Some bt -> Wakeup_dt r = Some (Datetime w) ->
  exists wakeup,
    Wakeup r = Str wakeup /\
    process_record hrv_data sleep_data i r =
      let* bedtime := format_time_part_of (Bedtime r) in
      Ok (Some {| row_Date := strftime_ymd w;
                  row_Bedtime := bedtime;
                  row_Wakeup := format_time_part wakeup;
                  row_Daytime_HRV_Avg :=
                    daytime_hrv_of (default [] (hrv_data !! strftime_ymd w)) w
                      (next_bedtime_of sleep_data i);
                  row_Avg_Breathing_Rate :=
                    default not_available (Avg_Breathing_Rate r);
                  row_Sleep_Duration :=
                    default not_available (Sleep_Duration r) |}).
Proof.
  intros Hr Eb Ew. pose proof (from_reader_wake r Hr) as Hwake.
  rewrite Ew in Hwake. destruct Hwake as (Hd & wakeup & Hw).
  exists wakeup. split; [exact Hw|].
  unfold process_record. rewrite Eb, Ew, Hw, Hd.
  destruct (format_time_part_of (Bedtime r)); reflexivity.
Qed.

Lemma process_record_parsed (hrv_data : gmap string readings)
    (sleep_data : list sleep_record) (i : nat) (r : sleep_record) (b w : datetime) :
  from_reader r -> Bedtime_dt r = Some (Datetime b) -> Wakeup_dt r = Some (Datetime w) ->
  exists bedtime wakeup,
    Bedtime r = Str bedtime /\ Wakeup r = Str wakeup /\
    process_record hrv_data sleep_data i r =
      Ok (Some {| row_Date := strftime_ymd w;
                  row_Bedtime := format_time_part bedtime;
                  row_Wakeup := format_time_part wakeup;
                  row_Daytime_HRV_Avg :=
                    daytime_hrv_of (default [] (hrv_data !! strftime_ymd w)) w
                      (next_bedtime_of sleep_data i);
                  row_Avg_Breathing_Rate :=
                    default not_available (Avg_Breathing_Rate r);
                  row_Sleep_Duration :=
                    default not_available (Sleep_Duration r) |}).
Proof.
  intros Hr Eb Ew.
  destruct (process_record_reached hrv_data sleep_data i r _ w Hr Eb Ew)
    as (wakeup & Hw & Hrow).
  destruct Hr as (Hb & _ & _). unfold holds_parse in Hb. rewrite Eb in Hb.
  apply parsed_cell_is_text in Hb as [bedtime Hb].
  exists bedtime, wakeup. split; [exact Hb|]. split; [exact Hw|].
  rewrite Hrow, Hb. reflexivity.
Qed.

(** A record of the reader is skipped exactly when one of its timestamps
    is [None]. *)
Lemma process_record_none (hrv_data : gmap string readings)
    (sleep_data : list sleep_record) (i : nat) (r : sleep_record) :
  from_reader r ->
  (process_record hrv_data sleep_data i r = Ok None <->
   Bedtime_dt r = None \/ Wakeup_dt r = None).
Proof.
  intros Hr. split; [|apply process_record_skipped].
  destruct (Bedtime_dt r) as [bt|] eqn:Eb; [|now left].
  destruct (Wakeup_dt r) as [[w|]|] eqn:Ew; [| |now right].
  - destruct (process_record_reached hrv_data sleep_data i r bt w Hr Eb Ew)
      as (wakeup & _ & ->).
    destruct (format_time_part_of (Bedtime r)); discriminate.
  - pose proof (from_reader_wake r Hr) as H. rewrite Ew in H. destruct H.
Qed.

Lemma process_step_raise (hrv_data : gmap string readings)
    (sleep_data : list sleep_record) (l : list (nat * sleep_record)) (e : py_error) :
  fold_left (process_step hrv_data sleep_data) l (Raise e) = Raise e.
Proof. induction l as [|ir l IH]; [reflexivity | exact IH]. Qed.

(** The loop, when it returns, returns the lines of the turns in their
    order, and no turn raised. *)
Lemma process_fold (hrv_data : gmap string readings) (sleep_data : list sleep_record)
    (l : list (nat * sleep_record)) (acc out : list result_row) :
  fold_left (process_step hrv_data sleep_data) l (Ok acc) = Ok out ->
  out = acc ++ omap (line_of hrv_data sleep_data) l /\
  forall ir, In ir l ->
    exists o, process_record hrv_data sleep_data (fst ir) (snd ir) = Ok o.
Proof.
  revert acc. induction l as [|[i r] l IH]; intros acc.
  - cbn. intros [= <-]. split; [now rewrite app_nil_r | intros ir []].
  - cbn [fold_left omap list_omap]. unfold process_step at 2, line_of at 1. cbn [fst snd bind].
    destruct (process_record hrv_data sleep_data i r) as [o|e] eqn:Eo; cbn [bind].
    + destruct o as [row|]; intros H; apply IH in H as [-> Hall].
      * split; [now rewrite <- app_assoc|].
        intros ir [<-|Hin]; [cbn [fst snd]; eexists; exact Eo | now apply Hall].
      * split; [reflexivity|].
        intros ir [<-|Hin]; [cbn [fst snd]; eexists; exact Eo | now apply Hall].
    + rewrite process_step_raise. discriminate.
Qed.

(** When no turn raises, the loop returns. *)
Lemma process_fold_ok (hrv_data : gmap string readings) (sleep_data : list sleep_record)
    (l : list (nat * sleep_record)) (acc : list result_row) :
  (forall ir, In ir l ->
     exists o, process_record hrv_data sleep_data (fst ir) (snd ir) = Ok o) ->
  fold_left (process_step hrv_data sleep_data) l (Ok acc)
  = Ok (acc ++ omap (line_of hrv_data sleep_data) l).
Proof.
  revert acc. induction l as [|[i r] l IH]; intros acc Hall.
  - cbn. now rewrite app_nil_r.
  - cbn [fold_left omap list_omap]. unfold process_step at 2, line_of at 1. cbn [fst snd bind].
    destruct (Hall (i, r) (or_introl eq_refl)) as [o Ho]. cbn [fst snd] in Ho.
    rewrite Ho. cbn [bind].
    destruct o as [row|]; rewrite IH by (intros ir Hin; apply Hall; now right);
      [now rewrite <- app_assoc | reflexivity].
Qed.

(** What a run returns with its lines: the records of the reader, the data
    of the HRV file, and the lines of the loop. *)
Lemma process_sleep_hrv_data_unfold (sleep_file : csv_frame) (hrv_file : list string)
    (result_df : list result_row) (sleep_data : list sleep_record)
    (hrv_data : gmap string readings) :
  process_sleep_hrv_data sleep_file hrv_file = Ok (result_df, sleep_data, hrv_data) ->
  read_autosleep_data sleep_file = Ok sleep_data /\
  parse_hrv_file hrv_file = Ok hrv_data /\
  result_df = omap (line_of hrv_data sleep_data) (enumerate sleep_data) /\
  forall (i : nat) (r : sleep_record),
    sleep_data !! i = Some r ->
    exists o, process_record hrv_data sleep_data i r = Ok o.
Proof.
  unfold process_sleep_hrv_data.
  destruct (read_autosleep_data sleep_file) as [recs|] eqn:Er; cbn [bind]; [|discriminate].
  destruct (parse_hrv_file hrv_file) as [data|] eqn:Eh; cbn [bind]; [|discriminate].
  destruct (process_records data recs) as [lines|] eqn:Ep; cbn [bind]; [|discriminate].
  intros [= <- <- <-]. split; [reflexivity|]. split; [reflexivity|].
  unfold process_records in Ep. apply process_fold in Ep as [-> Hall].
  split; [reflexivity|]. intros i r Hi.
  apply (Hall (i, r)). now apply in_enumerate.
Qed.

(** ** Alignment of a session with its readings *)

(** C5. For a session of the sleep file that reaches the aggregation, that
    is one whose wake timestamp is a datetime and whose bedtime timestamp is
    not [None], the date of the record and of its line is the date of the
    wake timestamp, the readings passed to the aggregation are those stored
    under that date (none when the date is absent), and the turn does not
    depend on what the HRV data hold under any other date: in particular,
    when the session began on another day, on the readings of the bedtime
    date.  When the bedtime was parsed the turn yields a line. *)
Theorem readings_looked_up_by_wake_date (df : csv_frame) (sleep_data : list sleep_record)
    (hrv_data : gmap string readings) (i : nat) (r : sleep_record) (bt : timestamp)
    (w : datetime) :
  read_autosleep_data df = Ok sleep_data ->
  sleep_data !! i = Some r ->
  Bedtime_dt r = Some bt ->
  Wakeup_dt r = Some (Datetime w) ->
  Date r = strftime_ymd w /\
  (forall row : result_row,
      process_record hrv_data sleep_data i r = Ok (Some row) ->
      row_Date row = strftime_ymd w /\
      row_Daytime_HRV_Avg row
      = daytime_hrv_of (default [] (hrv_data !! strftime_ymd w)) w
          (next_bedtime_of sleep_data i)) /\
  (forall hrv_data' : gmap string readings,
      hrv_data' !! strftime_ymd w = hrv_data !! strftime_ymd w ->
      process_record hrv_data' sleep_data i r = process_record hrv_data sleep_data i r) /\
  (forall b : datetime,
      bt = Datetime b ->
      (exists row : result_row, process_record hrv_data sleep_data i r = Ok (Some row)) /\
      (strftime_ymd b <> strftime_ymd w ->
       forall bedtime_hrv : readings,
         process_record (<[strftime_ymd b := bedtime_hrv]> hrv_data) sleep_data i r
         = process_record hrv_data sleep_data i r)).
Proof.
  intros Hread Hi Eb Ew.
  pose proof (record_of_file _ _ _ _ Hread Hi) as Hr.
  assert (Hframe : forall hrv_data' : gmap string readings,
             hrv_data' !! strftime_ymd w = hrv_data !! strftime_ymd w ->
             process_record hrv_data' sleep_data i r
             = process_record hrv_data sleep_data i r).
  { intros hrv_data' Hsame.
    destruct (process_record_reached hrv_data' sleep_data i r bt w Hr Eb Ew)
      as (wakeup' & Hw' & ->).
    destruct (process_record_reached hrv_data sleep_data i r bt w Hr Eb Ew)
      as (wakeup & Hw & ->).
    unfold readings in *. rewrite Hsame.
    assert (wakeup' = wakeup) as -> by congruence. reflexivity. }
  split.
  { pose proof (from_reader_wake r Hr) as H. rewrite Ew in H. exact (proj1 H). }
  split; [|split; [exact Hframe|]].
  - intros row Hrow.
    destruct (process_record_reached hrv_data sleep_data i r bt w Hr Eb Ew)
      as (wakeup & _ & E).
    rewrite E in Hrow. destruct (format_time_part_of (Bedtime r)); cbn [bind] in Hrow;
      [|discriminate].
    injection Hrow as <-. split; reflexivity.
  - intros b ->. split.
    + destruct (process_record_parsed hrv_data sleep_data i r b w Hr Eb Ew)
        as (bedtime & wakeup & _ & _ & ->). now eexists.
    + intros Hother bedtime_hrv. apply Hframe.
      unfold readings. now rewrite lookup_insert_ne.
Qed.

Lemma readings_looked_up_by_wake_date_example :
  Date Examples.third_record = strftime_ymd Examples.morning_of_march_4 /\
  exists row : result_row,
    process_record Examples.hrv_data Examples.sleep_data 2 Examples.third_record
    = Ok (Some row) /\
    row_Date row = "2025/03/04"%string /\
    row_Daytime_HRV_Avg row = Some (of_decimal false 250 (-1)).
Proof.
  destruct (readings_looked_up_by_wake_date Examples.sleep_frame Examples.sleep_data
              Examples.hrv_data 2 Examples.third_record
              (Datetime {| year := 2025; month := 3; day := 3;
                           hour := 22; minute := 0; second := 0 |})
              Examples.morning_of_march_4
              ltac:(vm_compute; reflexivity) ltac:(vm_compute; reflexivity)
              ltac:(reflexivity) ltac:(reflexivity))
    as (Hdate & Hline & _ & Hparsed).
  split; [exact Hdate|].
  destruct (proj1 (Hparsed _ eq_refl)) as [row Hrow].
  exists row. split; [exact Hrow|].
  destruct (Hline row Hrow) as [Hd Havg]. split.
  - rewrite Hd. vm_compute. reflexivity.
  - rewrite Havg. vm_compute. reflexivity.
Defined.

(** ** Sessions whose timestamps were not parsed *)

(** The parses of the cells of a column, from the records. *)
Lemma column_of_records (df : csv_frame) (sleep_data : list sleep_record)
    (cell_of : sleep_record -> cell) (col : string) :
  read_autosleep_data df = Ok sleep_data ->
  (forall i r row, sleep_data !! i = Some r -> rows df !! i = Some row ->
     cell_of r = cell_at (columns df) row col) ->
  forall (i : nat) (v : option datetime),
    map (fun row => parse_japanese_datetime (cell_at (columns df) row col)) (rows df) !! i
    = Some v ->
    exists r, sleep_data !! i = Some r /\ parse_japanese_datetime (cell_of r) = v.
Proof.
  intros Hread Hcell i v Hv. rewrite lookup_map in Hv.
  destruct (rows df !! i) as [row|] eqn:Hrow; [|discriminate].
  injection Hv as <-.
  destruct (lookup_lt_is_Some_2 sleep_data i) as [r Hr].
  { rewrite (read_autosleep_data_length _ _ Hread). eapply lookup_lt_Some. exact Hrow. }
  exists r. split; [exact Hr|]. now rewrite (Hcell i r row Hr Hrow).
Qed.

Lemma bedtime_cell_of_record (df : csv_frame) (sleep_data : list sleep_record) :
  read_autosleep_data df = Ok sleep_data ->
  forall i r row, sleep_data !! i = Some r -> rows df !! i = Some row ->
    Bedtime r = cell_at (columns df) row col_bedtime.
Proof.
  intros Hread i r row Hr Hrow.
  destruct (read_autosleep_data_unfold _ _ Hread) as (date & _ & Hlines).
  destruct (Hlines i r Hr) as (row' & _ & Hrow' & Hb & _). congruence.
Qed.

Lemma wakeup_cell_of_record (df : csv_frame) (sleep_data : list sleep_record) :
  read_autosleep_data df = Ok sleep_data ->
  forall i r row, sleep_data !! i = Some r -> rows df !! i = Some row ->
    Wakeup r = cell_at (columns df) row col_wakeup.
Proof.
  intros Hread i r row Hr Hrow.
  destruct (read_autosleep_data_unfold _ _ Hread) as (date & _ & Hlines).
  destruct (Hlines i r Hr) as (row' & _ & Hrow' & _ & Hw & _). congruence.
Qed.

(** A column that holds a [None]: no cell of the column was parsed, or some
    parsed timestamp is out of the bounds. *)
Lemma column_with_none (df : csv_frame) (sleep_data : list sleep_record)
    (cell_of : sleep_record -> cell) (col : string) (i : nat) :
  read_autosleep_data df = Ok sleep_data ->
  (forall i r row, sleep_data !! i = Some r -> rows df !! i = Some row ->
     cell_of r = cell_at (columns df) row col) ->
  infer_datetimelike
    (map (fun row => parse_japanese_datetime (cell_at (columns df) row col)) (rows df)) !! i
  = Some None ->
  (forall j r', sleep_data !! j = Some r' -> parse_japanese_datetime (cell_of r') = None) \/
  (exists j r' d, sleep_data !! j = Some r' /\
                  parse_japanese_datetime (cell_of r') = Some d /\ in_bounds d = false).
Proof.
  intros Hread Hcell Hnone.
  destruct (infer_datetimelike_none _ _ Hnone) as [He|Hf].
  - left. intros j r' Hr'.
    destruct (lookup_lt_is_Some_2 (rows df) j) as [row Hrow].
    { rewrite <- (read_autosleep_data_length _ _ Hread). eapply lookup_lt_Some. exact Hr'. }
    rewrite (Hcell j r' row Hr' Hrow).
    destruct (parse_japanese_datetime (cell_at (columns df) row col)) as [d|] eqn:E;
      [|reflexivity].
    assert (Hex : existsb is_datetime
                    (map (fun row => parse_japanese_datetime (cell_at (columns df) row col))
                       (rows df)) = true).
    { apply existsb_exists. exists (Some d). split; [|reflexivity].
      apply in_map_iff. exists row. split; [exact E|].
      apply list_elem_of_In. eapply list_elem_of_lookup_2. exact Hrow. }
    congruence.
  - right.
    assert (Hex : exists v,
               In v (map (fun row => parse_japanese_datetime (cell_at (columns df) row col))
                       (rows df)) /\ fits v = false).
    { clear -Hf. induction (map _ (rows df)) as [|v l IH]; [discriminate|].
      cbn [forallb] in Hf. destruct (fits v) eqn:Ev.
      - destruct (IH Hf) as (v' & Hin & Hv'). exists v'. split; [now right | exact Hv'].
      - exists v. split; [now left | exact Ev]. }
    destruct Hex as (v & Hin & Hv).
    apply list_elem_of_In, list_elem_of_lookup_1 in Hin as [j Hj].
    destruct (column_of_records _ _ cell_of col Hread Hcell j v Hj) as (r' & Hr' & Hp).
    destruct v as [d|]; [|discriminate]. now exists j, r', d.
Qed.

(** A failed parse is held as [NaT] when some cell of the column was parsed
    and every parsed timestamp is within the bounds. *)
Lemma column_with_nat (df : csv_frame) (sleep_data : list sleep_record)
    (cell_of : sleep_record -> cell) (col : string) (i : nat) (r : sleep_record) :
  read_autosleep_data df = Ok sleep_data ->
  (forall i r row, sleep_data !! i = Some r -> rows df !! i = Some row ->
     cell_of r = cell_at (columns df) row col) ->
  sleep_data !! i = Some r ->
  parse_japanese_datetime (cell_of r) = None ->
  (exists j r' d, sleep_data !! j = Some r' /\ parse_japanese_datetime (cell_of r') = Some d) ->
  (forall j r' d, sleep_data !! j = Some r' ->
     parse_japanese_datetime (cell_of r') = Some d -> in_bounds d = true) ->
  infer_datetimelike
    (map (fun row => parse_japanese_datetime (cell_at (columns df) row col)) (rows df)) !! i
  = Some (Some NaT).
Proof.
  intros Hread Hcell Hr Hfail (j & r' & d & Hr' & Hd) Hbounds.
  assert (Hrow_of : forall k rk, sleep_data !! k = Some rk ->
             exists row, rows df !! k = Some row /\
                         cell_of rk = cell_at (columns df) row col).
  { intros k rk Hk.
    destruct (lookup_lt_is_Some_2 (rows df) k) as [row Hrow].
    { rewrite <- (read_autosleep_data_length _ _ Hread). eapply lookup_lt_Some. exact Hk. }
    exists row. split; [exact Hrow | exact (Hcell k rk row Hk Hrow)]. }
  apply infer_datetimelike_nat.
  - apply existsb_exists. exists (Some d). split; [|reflexivity].
    destruct (Hrow_of j r' Hr') as (row & Hrow & E).
    apply in_map_iff. exists row. split; [congruence|].
    apply list_elem_of_In. eapply list_elem_of_lookup_2. exact Hrow.
  - apply forallb_forall. intros v Hv.
    apply list_elem_of_In, list_elem_of_lookup_1 in Hv as [k Hk].
    destruct (column_of_records _ _ cell_of col Hread Hcell k v Hk) as (rk & Hrk & Hp).
    destruct v as [dk|]; [|reflexivity]. exact (Hbounds k rk dk Hrk Hp).
  - rewrite lookup_map. destruct (Hrow_of i r Hr) as (row & -> & E).
    cbn [option_map]. congruence.
Qed.

(** C8. The failing input and what holds in general.  On the sleep file of
    three nights, whose second bedtime does not parse, the run returns three
    lines: the session is not skipped, its line carries the text after the
    space as the bedtime and no daily value.  On the sleep file whose second
    wake time does not parse, the reader raises and so does the run; on the
    one whose second bedtime cell is empty, the run raises
    [AttributeError].  In general the lines of a run are those of the turns, in the order of the
    file; a session yields no line exactly when a timestamp of it is [None];
    and a bedtime or wake timestamp is [None] only in a file where no cell
    of that column was parsed, or where a parsed timestamp of that column is
    out of the bounds of [Timestamp]. *)
Theorem unparsed_session_not_skipped :
  (parse_japanese_datetime (Str "2025-03-02 late") = None /\
   process_sleep_hrv_data Examples.sleep_frame Examples.hrv_lines
   = Ok Examples.run_three_nights /\
   map row_Bedtime (fst (fst Examples.run_three_nights))
   = ["午後11:15:00"; "late"; "午後10:00:00"]%string /\
   map row_Date (fst (fst Examples.run_three_nights))
   = ["2025/03/02"; "2025/03/03"; "2025/03/04"]%string /\
   map row_Daytime_HRV_Avg (fst (fst Examples.run_three_nights))
   = [None; None; Some (of_decimal false 250 (-1))]) /\
  (parse_japanese_datetime (Str "7:30") = None /\
   read_autosleep_data Examples.frame_unparsed_wake = Raise ValueError /\
   forall hrv_file : list string,
     process_sleep_hrv_data Examples.frame_unparsed_wake hrv_file = Raise ValueError) /\
  process_sleep_hrv_data Examples.frame_empty_bedtime Examples.hrv_lines
  = Raise AttributeError /\
  (forall (sleep_file : csv_frame) (hrv_file : list string) (result_df : list result_row)
          (sleep_data : list sleep_record) (hrv_data : gmap string readings),
      process_sleep_hrv_data sleep_file hrv_file = Ok (result_df, sleep_data, hrv_data) ->
      result_df = omap (line_of hrv_data sleep_data) (enumerate sleep_data) /\
      forall (i : nat) (r : sleep_record),
        sleep_data !! i = Some r ->
        (line_of hrv_data sleep_data (i, r) = None <->
         Bedtime_dt r = None \/ Wakeup_dt r = None) /\
        (Bedtime_dt r = None ->
         (forall j r', sleep_data !! j = Some r' ->
            parse_japanese_datetime (Bedtime r') = None) \/
         (exists j r' d, sleep_data !! j = Some r' /\
            parse_japanese_datetime (Bedtime r') = Some d /\ in_bounds d = false)) /\
        (Wakeup_dt r = None ->
         (forall j r', sleep_data !! j = Some r' ->
            parse_japanese_datetime (Wakeup r') = None) \/
         (exists j r' d, sleep_data !! j = Some r' /\
            parse_japanese_datetime (Wakeup r') = Some d /\ in_bounds d = false))).
Proof.
  split; [repeat split; vm_compute; reflexivity|].
  split.
  { split; [reflexivity|].
    assert (Hraise : read_autosleep_data Examples.frame_unparsed_wake = Raise ValueError)
      by (vm_compute; reflexivity).
    split; [exact Hraise|]. intros hrv_file.
    unfold process_sleep_hrv_data. rewrite Hraise. reflexivity. }
  split; [vm_compute; reflexivity|].
  intros sleep_file hrv_file result_df sleep_data hrv_data Hrun.
  destruct (process_sleep_hrv_data_unfold _ _ _ _ _ Hrun) as (Hread & _ & Hlines & Hturns).
  split; [exact Hlines|]. intros i r Hi.
  pose proof (record_of_file _ _ _ _ Hread Hi) as Hr.
  destruct (read_autosleep_data_unfold _ _ Hread) as (date & _ & Hcols).
  destruct (Hcols i r Hi) as (row & _ & _ & _ & _ & Hbdt & Hwdt & _).
  split; [|split].
  - unfold line_of. cbn [fst snd]. rewrite <- (process_record_none hrv_data sleep_data i r Hr).
    destruct (Hturns i r Hi) as [[row'|] ->]; split; congruence.
  - intros Hnone. rewrite Hnone in Hbdt.
    exact (column_with_none _ _ Bedtime col_bedtime i Hread
             (bedtime_cell_of_record _ _ Hread) Hbdt).
  - intros Hnone. rewrite Hnone in Hwdt.
    exact (column_with_none _ _ Wakeup col_wakeup i Hread
             (wakeup_cell_of_record _ _ Hread) Hwdt).
Qed.

(** ** Files that cannot be read *)

(** C9. A sleep file without the bedtime column or without the wake-time
    column makes [read_autosleep_data] raise, an HRV file of fewer than two
    lines makes [parse_hrv_file] raise, and in both cases the run raises: it
    returns no line. *)
Theorem unreadable_files_raise :
  (forall df : csv_frame,
      mem col_bedtime (columns df) = false \/ mem col_wakeup (columns df) = false ->
      read_autosleep_data df = Raise ValueError /\
      forall hrv_file : list string,
        process_sleep_hrv_data df hrv_file = Raise ValueError) /\
  (forall hrv_file : list string,
      (length hrv_file < 2)%nat ->
      parse_hrv_file hrv_file = Raise ValueError /\
      forall df : csv_frame,
        process_sleep_hrv_data df hrv_file = Raise ValueError).
Proof.
  split.
  - intros df Hmissing.
    assert (Hraise : read_autosleep_data df = Raise ValueError).
    { unfold read_autosleep_data, required_columns. cbn [List.filter].
      destruct Hmissing as [H | H]; rewrite H.
      - destruct (mem col_wakeup (columns df)), (mem col_breathing (columns df)),
          (mem col_sleep (columns df)); reflexivity.
      - destruct (mem col_bedtime (columns df)), (mem col_breathing (columns df)),
          (mem col_sleep (columns df)); reflexivity. }
    split; [exact Hraise|]. intros hrv_file.
    unfold process_sleep_hrv_data. rewrite Hraise. reflexivity.
  - intros hrv_file Hshort.
    assert (Hraise : parse_hrv_file hrv_file = Raise ValueError).
    { unfold parse_hrv_file. destruct (Nat.ltb_spec (length hrv_file) 2); [reflexivity | lia]. }
    split; [exact Hraise|]. intros df.
    unfold process_sleep_hrv_data. rewrite Hraise.
    destruct (read_autosleep_data df) as [records | e] eqn:E; [reflexivity|].
    cbn [bind]. now rewrite (read_autosleep_data_raises _ _ E).
Qed.

Lemma unreadable_files_example :
  process_sleep_hrv_data Examples.frame_without_wakeup Examples.hrv_lines = Raise ValueError /\
  process_sleep_hrv_data Examples.sleep_frame ["Heart Rate Variability"%string]
  = Raise ValueError.
Proof.
  split.
  - apply (proj1 unreadable_files_raise Examples.frame_without_wakeup).
    right. vm_compute. reflexivity.
  - apply (proj2 unreadable_files_raise ["Heart Rate Variability"%string]).
    cbn. lia.
Defined.

(** ** A next session whose bedtime was not parsed *)

(** C10. The failing input and what holds in general.  When the bedtime
    timestamp of the next session is [NaT], the next bedtime given to the
    aggregation is [NaT] and the line has no daily value, whatever the
    readings.  The bedtime of a session that fails to parse is held as [NaT]
    in every file in which some bedtime was parsed and the parsed bedtimes
    are within the bounds of [Timestamp].  On the sleep file of three nights
    the first session, whose readings give 35.00 up to hour 23, has no daily
    value. *)
Theorem unparsed_next_bedtime_gives_no_value :
  (forall (hrv_data : gmap string readings) (sleep_data : list sleep_record) (i : nat)
          (r next_record : sleep_record) (row : result_row),
      sleep_data !! (i + 1)%nat = Some next_record ->
      Bedtime_dt next_record = Some NaT ->
      process_record hrv_data sleep_data i r = Ok (Some row) ->
      next_bedtime_of sleep_data i = Some NaT /\ row_Daytime_HRV_Avg row = None) /\
  (forall (df : csv_frame) (sleep_data : list sleep_record) (i : nat)
          (next_record : sleep_record),
      read_autosleep_data df = Ok sleep_data ->
      sleep_data !! i = Some next_record ->
      parse_japanese_datetime (Bedtime next_record) = None ->
      (exists j r' d, sleep_data !! j = Some r' /\
                      parse_japanese_datetime (Bedtime r') = Some d) ->
      (forall j r' d, sleep_data !! j = Some r' ->
         parse_japanese_datetime (Bedtime r') = Some d -> in_bounds d = true) ->
      Bedtime_dt next_record = Some NaT) /\
  (read_autosleep_data Examples.sleep_frame = Ok Examples.sleep_data /\
   Examples.sleep_data !! 0%nat = Some Examples.first_record /\
   next_bedtime_of Examples.sleep_data 0 = Some NaT /\
   (exists row : result_row,
      process_record Examples.hrv_data Examples.sleep_data 0 Examples.first_record
      = Ok (Some row) /\
      row_Daytime_HRV_Avg row = None) /\
   calculate_daytime_hrv_integral (default [] (Examples.hrv_data !! "2025/03/02"%string))
     (Some (Examples.morning 6)) None
   = Some (of_decimal false 3500 (-2))).
Proof.
  split; [|split].
  - intros hrv_data sleep_data i r next_record row Hnext Hnat Hrow.
    assert (H : next_bedtime_of sleep_data i = Some NaT).
    { unfold next_bedtime_of. rewrite Hnext, Hnat.
      destruct (Nat.ltb_spec (i + 1) (length sleep_data)) as [_|Hge]; [reflexivity|].
      apply lookup_lt_Some in Hnext. lia. }
    split; [exact H|].
    unfold process_record in Hrow. rewrite H in Hrow.
    destruct (Bedtime_dt r); [|discriminate].
    destruct (Wakeup_dt r) as [[w|]|]; try discriminate.
    destruct (format_time_part_of (Bedtime r)); cbn [bind] in Hrow; [|discriminate].
    destruct (format_time_part_of (Wakeup r)); cbn [bind] in Hrow; [|discriminate].
    injection Hrow as <-. reflexivity.
  - intros df sleep_data i next_record Hread Hi Hfail Hsome Hbounds.
    pose proof (column_with_nat _ _ Bedtime col_bedtime i next_record Hread
                  (bedtime_cell_of_record _ _ Hread) Hi Hfail Hsome Hbounds) as Hnat.
    destruct (read_autosleep_data_unfold _ _ Hread) as (date & _ & Hcols).
    destruct (Hcols i next_record Hi) as (row & _ & _ & _ & _ & Hbdt & _).
    congruence.
  - split; [vm_compute; reflexivity|]. split; [vm_compute; reflexivity|].
    split; [vm_compute; reflexivity|]. split; [|vm_compute; reflexivity].
    eexists. split; [vm_compute; reflexivity | reflexivity].
Qed.


(** ** Texts: concatenation, reversal, stripping *)

Lemma append_empty_r (s : string) : s +:+ EmptyString = s.
Proof.
  induction s as [|c s IH]; [reflexivity|].
  change (String c (s +:+ EmptyString) = String c s). now rewrite IH.
Qed.

Lemma append_cons_r (s t : string) (c : ascii) :
  (s +:+ String c EmptyString) +:+ t = s +:+ String c t.
Proof.
  induction s as [|d s IH]; [reflexivity|].
  change (String d ((s +:+ String c EmptyString) +:+ t) = String d (s +:+ String c t)).
  now rewrite IH.
Qed.

Lemma append_empty_l (s : string) : EmptyString +:+ s = s.
Proof. reflexivity. Qed.

Lemma append_cons (c : ascii) (s t : string) : String c s +:+ t = String c (s +:+ t).
Proof. reflexivity. Qed.

Lemma append_assoc (x y z : string) : (x +:+ y) +:+ z = x +:+ (y +:+ z).
Proof.
  induction x as [|c x IH]; [reflexivity|]. rewrite !append_cons. now rewrite IH.
Qed.

Lemma take_drop_while (p : ascii -> bool) (s : string) :
  take_while p s +:+ drop_while p s = s.
Proof.
  induction s as [|c s IH]; [reflexivity|]. cbn [take_while drop_while].
  destruct (p c); [|reflexivity]. rewrite append_cons. now rewrite IH.
Qed.

Lemma drop_while_head (p : ascii -> bool) (s r : string) (c : ascii) :
  drop_while p s = String c r -> p c = false.
Proof.
  induction s as [|d s IH]; [discriminate|]. cbn [drop_while].
  destruct (p d) eqn:E; [exact IH|]. intros H. injection H as <- _. exact E.
Qed.

Lemma all_chars_take_while (p : ascii -> bool) (s : string) :
  all_chars p (take_while p s) = true.
Proof.
  induction s as [|c s IH]; [reflexivity|]. cbn [take_while].
  destruct (p c) eqn:E; [|reflexivity]. cbn [all_chars]. now rewrite E.
Qed.

Lemma all_chars_app (p : ascii -> bool) (x y : string) :
  all_chars p (x +:+ y) = all_chars p x && all_chars p y.
Proof.
  induction x as [|c x IH]; [reflexivity|]. rewrite append_cons. cbn [all_chars].
  now rewrite IH, andb_assoc.
Qed.

Lemma all_chars_impl (p q : ascii -> bool) (s : string) :
  (forall c, p c = true -> q c = true) -> all_chars p s = true -> all_chars q s = true.
Proof.
  intros Hpq. induction s as [|c s IH]; [reflexivity|]. cbn [all_chars].
  intros H. apply andb_prop in H as [Hc Hs]. now rewrite (Hpq _ Hc), (IH Hs).
Qed.

Lemma last_is_impl (p q : ascii -> bool) (s : string) :
  (forall c, p c = true -> q c = true) -> last_is p s = true -> last_is q s = true.
Proof.
  intros Hpq. induction s as [|c s IH]; [discriminate|]. cbn [last_is].
  destruct s as [|d s]; [apply Hpq | exact IH].
Qed.

Lemma last_is_cons (p : ascii -> bool) (c : ascii) (s : string) :
  last_is p s = true -> last_is p (String c s) = true.
Proof. intros H. destruct s; [discriminate | exact H]. Qed.

Lemma last_is_app (p : ascii -> bool) (x y : string) :
  last_is p y = true -> last_is p (x +:+ y) = true.
Proof.
  intros Hy. induction x as [|c x IH]; [exact Hy|].
  rewrite append_cons. now apply last_is_cons.
Qed.

Lemma all_chars_list (p : ascii -> bool) (s : string) :
  all_chars p s = forallb p (list_ascii_of_string s).
Proof. induction s as [|c s IH]; [reflexivity|]. cbn. now rewrite IH. Qed.

Lemma list_of_append (x y : string) :
  list_ascii_of_string (x +:+ y) = list_ascii_of_string x ++ list_ascii_of_string y.
Proof.
  induction x as [|c x IH]; [reflexivity|]. rewrite append_cons. cbn. now rewrite IH.
Qed.

Lemma string_of_app (l1 l2 : list ascii) :
  string_of_list_ascii (l1 ++ l2) = string_of_list_ascii l1 +:+ string_of_list_ascii l2.
Proof.
  induction l1 as [|c l1 IH]; [reflexivity|]. cbn [app string_of_list_ascii].
  rewrite append_cons. now rewrite IH.
Qed.

Lemma reverse_append (x y : string) : reverse (x +:+ y) = reverse y +:+ reverse x.
Proof. unfold reverse. now rewrite list_of_append, rev_app_distr, string_of_app. Qed.

Lemma reverse_involutive (s : string) : reverse (reverse s) = s.
Proof.
  unfold reverse. rewrite list_ascii_of_string_of_list_ascii, rev_involutive.
  apply string_of_list_ascii_of_string.
Qed.

Lemma all_chars_reverse (p : ascii -> bool) (s : string) :
  all_chars p (reverse s) = all_chars p s.
Proof.
  rewrite !all_chars_list. unfold reverse. rewrite list_ascii_of_string_of_list_ascii.
  apply eq_true_iff_eq. rewrite !forallb_forall.
  split; intros H c Hc; apply H; [now apply in_rev in Hc | now apply in_rev].
Qed.

(** A text without the separator is a single field. *)
Lemma split_without_separator (sep s cur : string) :
  contains sep s = false -> split_go sep s O cur = [cur +:+ s].
Proof.
  revert cur. induction s as [|c s IH]; intros cur H.
  - cbn. now rewrite append_empty_r.
  - cbn [contains] in H. apply orb_false_elim in H as [Hp Hc].
    cbn [split_go]. rewrite Hp, (IH _ Hc). now rewrite append_cons_r.
Qed.

(** A text is its stripped text between two runs of white space. *)
Lemma strip_between (s : string) :
  exists l r : string,
    s = l +:+ strip s +:+ r /\ all_chars isspace l = true /\ all_chars isspace r = true.
Proof.
  exists (take_while isspace s),
         (reverse (take_while isspace (reverse (drop_while isspace s)))).
  split; [|split].
  - unfold strip, rstrip, lstrip.
    rewrite <- reverse_append, take_drop_while, reverse_involutive.
    now rewrite take_drop_while.
  - apply all_chars_take_while.
  - rewrite all_chars_reverse. apply all_chars_take_while.
Qed.

(** ** Texts that denote a number hold no separator *)

(** Facts about one character are checked on the 256 characters. *)
Ltac each_char c :=
  destruct c as [[] [] [] [] [] [] [] []]; vm_compute; intuition congruence.

Lemma space_is_not_dash (c : ascii) : isspace c = true -> Ascii.eqb c "-" = false.
Proof. each_char c. Qed.

Lemma not_space_not_blank (c : ascii) : not_space c = true -> Ascii.eqb c " " = false.
Proof. each_char c. Qed.

Lemma dash_ok_spaces (r : string) : all_chars isspace r = true -> dash_ok r = true.
Proof.
  induction r as [|c r IH]; [reflexivity|]. cbn [all_chars dash_ok].
  intros H. apply andb_prop in H as [Hc Hr].
  now rewrite (space_is_not_dash _ Hc), (IH Hr).
Qed.

Lemma dash_ok_lead (l x : string) :
  all_chars isspace l = true -> dash_ok x = true -> dash_ok (l +:+ x) = true.
Proof.
  intros Hl Hx. induction l as [|c l IH]; [exact Hx|].
  cbn [all_chars] in Hl. apply andb_prop in Hl as [Hc Hl].
  rewrite append_cons. cbn [dash_ok]. now rewrite (space_is_not_dash _ Hc), (IH Hl).
Qed.

Lemma dash_ok_token (t r : string) :
  all_chars not_space t = true -> last_is not_dash t = true ->
  all_chars isspace r = true -> dash_ok (t +:+ r) = true.
Proof.
  intros Ht Hlast Hr. induction t as [|c t IH]; [discriminate|].
  cbn [all_chars] in Ht. apply andb_prop in Ht as [Hc Ht].
  rewrite append_cons. cbn [dash_ok]. destruct t as [|d t].
  - cbn [last_is] in Hlast. unfold not_dash in Hlast.
    apply negb_true_iff in Hlast. rewrite Hlast. cbn [String.append andb].
    now apply dash_ok_spaces.
  - rewrite (IH Ht Hlast). rewrite append_cons.
    cbn [all_chars] in Ht. apply andb_prop in Ht as [Hd _].
    rewrite (not_space_not_blank _ Hd). now destruct (Ascii.eqb c "-").
Qed.

(** A character that is neither white space nor a minus sign. *)
Lemma digit_is_plain (c : ascii) :
  isdigit c = true -> not_space c = true /\ not_dash c = true.
Proof. each_char c. Qed.

Lemma mark_is_plain (c : ascii) :
  Ascii.eqb c "_" || is_dot c || is_e c = true -> not_space c = true /\ not_dash c = true.
Proof. each_char c. Qed.

Lemma letter_is_plain (c : ascii) :
  (97 <=? code (lower c)) && (code (lower c) <=? 122) = true ->
  not_space c = true /\ not_dash c = true.
Proof. each_char c. Qed.

Lemma sign_is_not_space (c : ascii) :
  Ascii.eqb c "-" || Ascii.eqb c "+" = true -> not_space c = true.
Proof. each_char c. Qed.

Lemma digitpart_go_chars (after_digit : bool) (s ds : string) :
  digitpart_go after_digit s = Some ds ->
  all_chars not_space s = true /\
  (s = EmptyString -> after_digit = true) /\
  (s <> EmptyString -> last_is not_dash s = true).
Proof.
  revert after_digit ds. induction s as [|c s IH]; intros after_digit ds H.
  - cbn in H. destruct after_digit; [|discriminate]. repeat split; congruence.
  - cbn [digitpart_go] in H. destruct (isdigit c) eqn:Ed.
    + destruct (digitpart_go true s) as [ds'|] eqn:E; [|discriminate].
      destruct (IH _ _ E) as (Ha & _ & Hl). destruct (digit_is_plain _ Ed) as [Hs Hd].
      cbn [all_chars]. rewrite Hs, Ha. repeat split; [discriminate|].
      intros _. destruct s as [|d s]; [exact Hd|]. apply last_is_cons, Hl. discriminate.
    + destruct (Ascii.eqb c "_" && after_digit) eqn:Eu; [|discriminate].
      apply andb_prop in Eu as [Eu _].
      destruct (IH _ _ H) as (Ha & He & Hl).
      assert (Hne : s <> EmptyString) by (intros ->; now specialize (He eq_refl)).
      destruct (mark_is_plain c) as [Hs _]; [now rewrite Eu|].
      cbn [all_chars]. rewrite Hs, Ha. repeat split; [discriminate|].
      intros _. apply last_is_cons, Hl, Hne.
Qed.

Lemma digitpart_chars (s ds : string) :
  digitpart s = Some ds ->
  all_chars not_space s = true /\ last_is not_dash s = true.
Proof.
  intros H. destruct (digitpart_go_chars _ _ _ H) as (Ha & He & Hl).
  split; [exact Ha|]. apply Hl. intros ->. now specialize (He eq_refl).
Qed.

Lemma opt_digitpart_chars (s ds : string) :
  opt_digitpart s = Some ds ->
  all_chars not_space s = true /\ (s <> EmptyString -> last_is not_dash s = true).
Proof.
  destruct s as [|c s]; [intros _; split; [reflexivity | congruence]|].
  intros H. destruct (digitpart_chars _ _ H). tauto.
Qed.

Lemma number_chars (mant i f : string) :
  number mant = Some (i, f) ->
  all_chars not_space mant = true /\ last_is not_dash mant = true.
Proof.
  unfold number.
  pose proof (take_drop_while (fun c => negb (is_dot c)) mant) as Hm.
  remember (take_while (fun c => negb (is_dot c)) mant) as ip eqn:Hip.
  remember (drop_while (fun c => negb (is_dot c)) mant) as rest eqn:Hrest.
  rewrite <- Hm. clear Hm. destruct rest as [|c fp].
  - destruct (digitpart ip) as [ds|] eqn:Ed; [|discriminate].
    intros _. rewrite append_empty_r. exact (digitpart_chars _ _ Ed).
  - symmetry in Hrest. apply drop_while_head in Hrest. apply negb_false_iff in Hrest.
    destruct (mark_is_plain c) as [Hs Hd]; [now rewrite Hrest, orb_true_r|].
    destruct (opt_digitpart ip) as [i'|] eqn:Ei; [|discriminate].
    destruct (opt_digitpart fp) as [f'|] eqn:Ef; [|discriminate].
    intros _. destruct (opt_digitpart_chars _ _ Ei) as [Hai _].
    destruct (opt_digitpart_chars _ _ Ef) as [Haf Hlf].
    split.
    + rewrite all_chars_app. cbn [all_chars]. now rewrite Hai, Hs, Haf.
    + apply last_is_app. destruct fp as [|d fp]; [exact Hd|].
      apply last_is_cons, Hlf. discriminate.
Qed.

Lemma take_sign_chars (s body : string) (neg : bool) :
  take_sign s = (neg, body) ->
  all_chars not_space body = true -> last_is not_dash body = true ->
  all_chars not_space s = true /\ last_is not_dash s = true.
Proof.
  unfold take_sign. destruct s as [|c s]; [intros [= _ <-]; tauto|].
  destruct (Ascii.eqb c "-") eqn:Em; [|destruct (Ascii.eqb c "+") eqn:Ep].
  - intros [= _ <-] Ha Hl. cbn [all_chars].
    rewrite (sign_is_not_space c) by now rewrite Em.
    split; [exact Ha | now apply last_is_cons].
  - intros [= _ <-] Ha Hl. cbn [all_chars].
    rewrite (sign_is_not_space c) by now rewrite Ep, orb_true_r.
    split; [exact Ha | now apply last_is_cons].
  - intros [= _ <-]. tauto.
Qed.

Lemma exponent_chars (et : string) (e : Z) :
  exponent et = Some e ->
  all_chars not_space et = true /\ last_is not_dash et = true.
Proof.
  unfold exponent. destruct (take_sign et) as [neg body] eqn:Es.
  destruct (digitpart body) as [ds|] eqn:Ed; [|discriminate]. intros _.
  destruct (digitpart_chars _ _ Ed) as [Ha Hl].
  exact (take_sign_chars _ _ _ Es Ha Hl).
Qed.

Lemma word_chars (body : string) :
  all_chars (fun c => (97 <=? code c) && (code c <=? 122)) (lowercase body) = true ->
  body <> EmptyString ->
  all_chars not_space body = true /\ last_is not_dash body = true.
Proof.
  induction body as [|c body IH]; [congruence|]. cbn [lowercase all_chars].
  intros H _. apply andb_prop in H as [Hc Hb].
  destruct (letter_is_plain _ Hc) as [Hs Hd]. rewrite Hs.
  destruct body as [|d body]; [now split|].
  destruct (IH Hb ltac:(discriminate)) as [Ha Hl]. now split.
Qed.

Lemma lowercase_nonempty (body w : string) :
  lowercase body = w -> w <> EmptyString -> body <> EmptyString.
Proof. intros <- H ->. now apply H. Qed.

(** A text that denotes a float has no white space and does not end with a
    minus sign. *)
Lemma float_of_token_chars (t : string) (v : float) :
  float_of_token t = Some v ->
  all_chars not_space t = true /\ last_is not_dash t = true.
Proof.
  unfold float_of_token. destruct (take_sign t) as [neg body] eqn:Es.
  intros H.
  assert (Hbody : all_chars not_space body = true /\ last_is not_dash body = true).
  { destruct (String.eqb (lowercase body) "inf") eqn:E1.
    { apply String.eqb_eq in E1. apply word_chars; [now rewrite E1|].
      apply (lowercase_nonempty _ _ E1). discriminate. }
    destruct (String.eqb (lowercase body) "infinity") eqn:E2.
    { apply String.eqb_eq in E2. apply word_chars; [now rewrite E2|].
      apply (lowercase_nonempty _ _ E2). discriminate. }
    destruct (String.eqb (lowercase body) "nan") eqn:E3.
    { apply String.eqb_eq in E3. apply word_chars; [now rewrite E3|].
      apply (lowercase_nonempty _ _ E3). discriminate. }
    cbn [orb] in H.
    pose proof (take_drop_while (fun c => negb (is_e c)) body) as Hm.
    remember (take_while (fun c => negb (is_e c)) body) as mant eqn:Hmant.
    remember (drop_while (fun c => negb (is_e c)) body) as rest eqn:Hrest.
    rewrite <- Hm. clear Hm.
    destruct (number mant) as [[i f]|] eqn:En; [|discriminate].
    destruct (number_chars _ _ _ En) as [Ha Hl].
    destruct rest as [|c et].
    - rewrite append_empty_r. now split.
    - destruct (exponent et) as [e|] eqn:Ex; [|discriminate].
      destruct (exponent_chars _ _ Ex) as [Hae Hle].
      symmetry in Hrest. apply drop_while_head in Hrest. apply negb_false_iff in Hrest.
      destruct (mark_is_plain c) as [Hs _]; [now rewrite Hrest, orb_true_r|].
      split.
      + rewrite all_chars_app. cbn [all_chars]. now rewrite Ha, Hs, Hae.
      + now apply last_is_app, last_is_cons. }
  destruct Hbody as [Ha Hl]. exact (take_sign_chars _ _ _ Es Ha Hl).
Qed.

(** A text that denotes a float has no place where the separator could end. *)
Lemma py_float_dash_ok (s : string) (v : float) :
  py_float s = Some v -> dash_ok s = true.
Proof.
  unfold py_float. intros H. destruct (float_of_token_chars _ _ H) as [Ha Hl].
  destruct (strip_between s) as (l & r & Hs & Hl' & Hr).
  rewrite Hs. apply dash_ok_lead; [exact Hl'|]. now apply dash_ok_token.
Qed.

Lemma prefix_separator (c : ascii) (s : string) :
  String.prefix range_separator (String c s) = true ->
  c = " "%char /\ exists s', s = String "-" (String " " s').
Proof.
  unfold range_separator. cbn [String.prefix].
  destruct (ascii_dec " " c) as [<-|_]; [|discriminate].
  destruct s as [|d s]; cbn [String.prefix]; [discriminate|].
  destruct (ascii_dec "-" d) as [<-|_]; [|discriminate].
  destruct s as [|e s]; cbn [String.prefix]; [discriminate|].
  destruct (ascii_dec " " e) as [<-|_]; [|discriminate].
  intros _. split; [reflexivity | now exists s].
Qed.

Lemma dash_ok_no_separator (s : string) :
  dash_ok s = true -> contains range_separator s = false.
Proof.
  induction s as [|c s IH]; [reflexivity|]. cbn [dash_ok contains].
  intros H. apply andb_prop in H as [_ Hs]. rewrite (IH Hs), orb_false_r.
  destruct (String.prefix range_separator (String c s)) eqn:E; [|reflexivity].
  apply prefix_separator in E as [_ [s' ->]]. cbn in Hs. discriminate.
Qed.

Lemma dash_ok_open_separator (s : string) :
  dash_ok s = true -> contains range_separator (s +:+ " -") = false.
Proof.
  induction s as [|c s IH]; [reflexivity|]. cbn [dash_ok].
  intros H. apply andb_prop in H as [_ Hs]. rewrite append_cons. cbn [contains].
  rewrite (IH Hs), orb_false_r.
  destruct (String.prefix range_separator (String c (s +:+ " -"))) eqn:E; [|reflexivity].
  apply prefix_separator in E as [_ [s' E]].
  destruct s as [|d [|e s]].
  - rewrite append_empty_l in E. discriminate.
  - rewrite append_cons, append_empty_l in E. injection E as -> _.
    cbn in Hs. discriminate.
  - rewrite !append_cons in E. injection E as -> -> _. cbn in Hs. discriminate.
Qed.

Lemma prefix_separator_self (b : string) :
  String.prefix range_separator (String " " (String "-" (String " " b))) = true.
Proof. destruct b; reflexivity. Qed.

(** Two texts free of the separator, joined by it, split back into the two. *)
Lemma split_joined (a b cur : string) :
  contains range_separator (a +:+ " -") = false ->
  contains range_separator b = false ->
  split_go range_separator (a +:+ range_separator +:+ b) O cur = [cur +:+ a; b].
Proof.
  revert cur. induction a as [|c a IH]; intros cur Ha Hb.
  - rewrite append_empty_l, append_empty_r.
    pose proof (split_without_separator range_separator b EmptyString Hb) as Hsplit.
    rewrite append_empty_l in Hsplit.
    change (range_separator +:+ b) with (String " " (String "-" (String " " b))).
    cbn [split_go]. rewrite prefix_separator_self.
    change (cur :: split_go range_separator b O EmptyString = [cur; b]).
    now rewrite Hsplit.
  - rewrite append_cons in Ha. cbn [contains] in Ha.
    apply orb_false_elim in Ha as [Hp Ha].
    rewrite append_cons. cbn [split_go].
    assert (Hp' : String.prefix range_separator (String c (a +:+ range_separator +:+ b))
                  = false).
    { destruct (String.prefix range_separator (String c (a +:+ range_separator +:+ b)))
        eqn:E; [|reflexivity].
      apply prefix_separator in E as [-> [s' E]]. rewrite <- Hp.
      destruct a as [|d [|e a]].
      - rewrite append_empty_l in E. discriminate.
      - rewrite append_cons, append_empty_l in E. injection E as -> _.
        reflexivity.
      - rewrite !append_cons in E. injection E as -> -> _. rewrite !append_cons.
        symmetry. apply prefix_separator_self. }
    rewrite Hp', (IH _ Ha Hb). now rewrite append_cons_r.
Qed.

(** A range of two numeric texts splits into the two texts. *)
Lemma numeric_range_splits (a b : string) (x y : float) :
  py_float a = Some x -> py_float b = Some y ->
  split range_separator (a +:+ range_separator +:+ b) = [a; b].
Proof.
  intros Ha Hb. unfold split.
  rewrite split_joined.
  - reflexivity.
  - apply dash_ok_open_separator. exact (py_float_dash_ok _ _ Ha).
  - apply dash_ok_no_separator. exact (py_float_dash_ok _ _ Hb).
Qed.

(** ** Cells written as a range *)

Lemma split_two_contains (sep s a b : string) :
  split sep s = [a; b] -> contains sep s = true.
Proof.
  intros H. destruct (contains sep s) eqn:E; [reflexivity|].
  unfold split in H. rewrite (split_without_separator _ _ _ E) in H. discriminate.
Qed.

Lemma has_text_drop_while (s : string) :
  has_text (drop_while isspace s) = has_text s.
Proof.
  unfold has_text. induction s as [|c s IH]; [reflexivity|].
  cbn [drop_while]. destruct (isspace c) eqn:E; [|reflexivity].
  rewrite IH. cbn [list_ascii_of_string existsb]. now rewrite E.
Qed.

Lemma has_text_reverse (s : string) : has_text (reverse s) = has_text s.
Proof.
  unfold has_text, reverse. rewrite list_ascii_of_string_of_list_ascii.
  apply eq_true_iff_eq. rewrite !existsb_exists.
  split; intros (c & Hin & Hc); exists c; split; try assumption.
  - now apply in_rev.
  - now apply in_rev in Hin.
Qed.

Lemma has_text_strip (s : string) : has_text (strip s) = has_text s.
Proof.
  unfold strip, rstrip, lstrip.
  now rewrite has_text_reverse, has_text_drop_while, has_text_reverse, has_text_drop_while.
Qed.

Lemma has_text_truthy (s : string) : has_text s = true -> truthy s = true.
Proof. destruct s; [discriminate | reflexivity]. Qed.

Lemma contains_separator_has_text (s : string) :
  contains range_separator s = true -> has_text s = true.
Proof.
  unfold has_text. induction s as [|c s IH]; [discriminate|].
  cbn [contains]. intros H. apply orb_prop in H as [Hp | Hc].
  - unfold range_separator in Hp. cbn [String.prefix] in Hp.
    destruct (ascii_dec " " c); [|discriminate].
    destruct s as [|d s]; cbn [String.prefix] in Hp; [discriminate|].
    destruct (ascii_dec "-" d) as [<- |]; [|discriminate].
    cbn [list_ascii_of_string existsb]. apply orb_true_iff. right. reflexivity.
  - cbn [list_ascii_of_string existsb]. rewrite (IH Hc). apply orb_true_r.
Qed.

Lemma py_float_blank (s : string) : truthy (strip s) = false -> py_float s = None.
Proof.
  intros H. unfold py_float. destruct (strip s); [reflexivity | discriminate].
Qed.

Lemma store_cell_range (time_slots : list string) (date_hrv : readings) (j : nat)
    (slot value part0 part1 : string) (min_val max_val : float) :
  time_slots !! j = Some slot ->
  split range_separator value = [part0; part1] ->
  py_float part0 = Some min_val -> py_float part1 = Some max_val ->
  store_cell time_slots date_hrv j value
  = dict_set slot (fdiv (fadd min_val max_val) (float_of_int 2)) date_hrv.
Proof.
  intros Hslot Hsplit H0 H1. unfold store_cell.
  pose proof (split_two_contains _ _ _ _ Hsplit) as Hc.
  rewrite Hslot, Hc, Hsplit, H0, H1.
  now rewrite (has_text_truthy _ (eq_trans (has_text_strip _) (contains_separator_has_text _ Hc))).
Qed.

Lemma store_cell_bare (time_slots : list string) (date_hrv : readings) (j : nat)
    (slot value : string) (v : float) :
  time_slots !! j = Some slot ->
  contains range_separator value = false ->
  py_float value = Some v ->
  store_cell time_slots date_hrv j value = dict_set slot v date_hrv.
Proof.
  intros Hslot Hc Hv. unfold store_cell. rewrite Hslot, Hc, Hv.
  destruct (truthy (strip value)) eqn:E; [reflexivity|].
  rewrite (py_float_blank _ E) in Hv. discriminate.
Qed.

Lemma dict_get_set (k : string) (v : float) (d : readings) :
  dict_get k (dict_set k v d) = Some v.
Proof.
  induction d as [|[k' v'] d IH]; cbn.
  - now rewrite String.eqb_refl.
  - destruct (String.eqb k' k) eqn:E; cbn.
    + now rewrite String.eqb_refl.
    + now rewrite E.
Qed.

Lemma fold_cells_replace (time_slots : list string) (x y : string) :
  (forall (d : readings) (j : nat), store_cell time_slots d j x = store_cell time_slots d j y) ->
  forall (before after : list string) (k : nat) (acc : readings),
    fold_left (fun date_hrv jv => store_cell time_slots date_hrv (fst jv) (snd jv))
      (enumerate_from k (before ++ x :: after)) acc
    = fold_left (fun date_hrv jv => store_cell time_slots date_hrv (fst jv) (snd jv))
        (enumerate_from k (before ++ y :: after)) acc.
Proof.
  intros Hxy before after. induction before as [|c before IH]; intros k acc.
  - cbn. now rewrite Hxy.
  - cbn. apply IH.
Qed.

(** C7, as stated, fails: the reading 1e308 is stored as it is when written
    bare, and as an infinity when written as the range of itself, and the
    daily value follows. *)
Lemma range_of_large_reading_overflows :
  py_float "1e308" = Some Examples.float_1e308 /\
  split range_separator "1e308 - 1e308" = ["1e308"; "1e308"]%string /\
  parse_values ["8 AM - 9 AM"%string] ["2025/03/02"; "1e308"]%string
  = [("8 AM - 9 AM"%string, Examples.float_1e308)] /\
  parse_values ["8 AM - 9 AM"%string] ["2025/03/02"; "1e308 - 1e308"]%string
  = [("8 AM - 9 AM"%string, S754_infinity false)] /\
  match parse_hrv_file Examples.hrv_lines_bare with
  | Ok data => calculate_daytime_hrv_integral (default [] (data !! "2025/03/02"%string))
                 (Some (Examples.morning 8)) None
  | Raise _ => None
  end = Some Examples.float_1e308 /\
  match parse_hrv_file Examples.hrv_lines_range with
  | Ok data => calculate_daytime_hrv_integral (default [] (data !! "2025/03/02"%string))
                 (Some (Examples.morning 8)) None
  | Raise _ => None
  end = Some (S754_infinity false).
Proof. repeat split; vm_compute; reflexivity. Qed.

(** C7, amended. A cell of the form [A - B], both sides parsing as numbers,
    stores for its bucket the midpoint of the two, computed in floating
    point as [(A + B) / 2].  When both sides denote a reading [v] whose
    double does not overflow (a magnitude below 2^1023), what is stored, the
    readings of the line and the daily value are those of a cell that holds
    [v] bare. *)
Theorem range_cell_stores_midpoint (time_slots : list string)
    (part0 part1 : string) (min_val max_val : float) :
  py_float part0 = Some min_val ->
  py_float part1 = Some max_val ->
  (forall (date_hrv : readings) (j : nat) (slot : string),
      time_slots !! j = Some slot ->
      store_cell time_slots date_hrv j (part0 +:+ range_separator +:+ part1)
      = dict_set slot (fdiv (fadd min_val max_val) (float_of_int 2)) date_hrv /\
      dict_get slot
        (store_cell time_slots date_hrv j (part0 +:+ range_separator +:+ part1))
      = Some (fdiv (fadd min_val max_val) (float_of_int 2))) /\
  (forall (bare : string) (v : float),
      min_val = v -> max_val = v ->
      py_float bare = Some v ->
      doubles_exactly v = true ->
      (forall (date_hrv : readings) (j : nat),
          store_cell time_slots date_hrv j (part0 +:+ range_separator +:+ part1)
          = store_cell time_slots date_hrv j bare) /\
      (forall (date : string) (before after : list string)
              (wake next : option datetime),
          parse_values time_slots
            (date :: before ++ (part0 +:+ range_separator +:+ part1) :: after)
          = parse_values time_slots (date :: before ++ bare :: after) /\
          calculate_daytime_hrv_integral
            (parse_values time_slots
               (date :: before ++ (part0 +:+ range_separator +:+ part1) :: after))
            wake next
          = calculate_daytime_hrv_integral
              (parse_values time_slots (date :: before ++ bare :: after)) wake next)).
Proof.
  intros H0 H1.
  pose proof (numeric_range_splits _ _ _ _ H0 H1) as Hsplit.
  set (value := part0 +:+ range_separator +:+ part1) in *.
  split.
  - intros date_hrv j slot Hslot.
    rewrite (store_cell_range _ _ _ _ _ _ _ _ _ Hslot Hsplit H0 H1).
    split; [reflexivity | apply dict_get_set].
  - intros bare v -> -> Hbare Hd.
    pose proof (py_float_valid _ _ Hbare) as Hv.
    pose proof (dash_ok_no_separator _ (py_float_dash_ok _ _ Hbare)) as Hc.
    assert (Hcell : forall (date_hrv : readings) (j : nat),
               store_cell time_slots date_hrv j value
               = store_cell time_slots date_hrv j bare).
    { intros date_hrv j. destruct (time_slots !! j) as [slot|] eqn:Hslot.
      - rewrite (store_cell_range _ _ _ _ _ _ _ _ _ Hslot Hsplit H0 H1).
        rewrite (store_cell_bare _ _ _ _ _ _ Hslot Hc Hbare).
        now rewrite (midpoint_self v Hv Hd).
      - unfold store_cell. now rewrite Hslot. }
    split; [exact Hcell|].
    intros date before after wake next.
    assert (Hvalues : parse_values time_slots (date :: before ++ value :: after)
                      = parse_values time_slots (date :: before ++ bare :: after)).
    { unfold parse_values, enumerate. cbn [tail].
      apply fold_cells_replace. exact Hcell. }
    split; [exact Hvalues | now rewrite Hvalues].
Qed.

Lemma range_cell_stores_midpoint_example :
  parse_values ["6 AM - 7 AM"; "9 AM - 10 AM"]%string
    ["2025/03/04"; "20 - 30"; "35.0 - 35.0"]%string
  = [("6 AM - 7 AM"%string, of_decimal false 250 (-1));
     ("9 AM - 10 AM"%string, of_decimal false 350 (-1))] /\
  parse_values ["6 AM - 7 AM"; "9 AM - 10 AM"]%string
    ["2025/03/04"; "20 - 30"; "35.0 - 35.0"]%string
  = parse_values ["6 AM - 7 AM"; "9 AM - 10 AM"]%string
      ["2025/03/04"; "20 - 30"; "35.0"]%string.
Proof.
  split; [vm_compute; reflexivity|].
  exact (proj1 (proj2 (proj2 (range_cell_stores_midpoint
           ["6 AM - 7 AM"; "9 AM - 10 AM"]%string "35.0" "35.0"
           (of_decimal false 350 (-1)) (of_decimal false 350 (-1))
           ltac:(vm_compute; reflexivity) ltac:(vm_compute; reflexivity))
         "35.0"%string (of_decimal false 350 (-1)) eq_refl eq_refl
         ltac:(vm_compute; reflexivity) ltac:(vm_compute; reflexivity))
         "2025/03/04"%string ["20 - 30"%string] [] None None)).
Defined.

(** * Further properties of the code *)

Import SpecMore PdfGenerator.

(** ** The aggregate as a function of the selection *)

Lemma calculate_by_daytime (hrv_data : readings) (wake : datetime)
    (next : option datetime) :
  calculate_daytime_hrv_integral hrv_data (Some wake) next
  = aggregate (daytime_data_of hrv_data wake next).
Proof.
  destruct hrv_data as [|item r]; [reflexivity|].
  rewrite calculate_unfold by discriminate. cbv zeta.
  destruct (daytime_data_of (item :: r) wake next) as [|a [|b d]]; reflexivity.
Qed.

Lemma qualifying_app (l1 l2 : readings) (w u : Z) :
  qualifying (l1 ++ l2) w u = qualifying l1 w u ++ qualifying l2 w u.
Proof. unfold qualifying. now rewrite List.filter_app, map_app. Qed.

Lemma last_cons_default {A : Type} (x y : A) (l : list A) :
  List.last (y :: l) x = List.last l y.
Proof.
  revert x y. induction l as [|z l IH]; intros x y; [reflexivity|].
  change (List.last (y :: z :: l) x) with (List.last (z :: l) x).
  rewrite (IH x z). symmetry. apply (IH y z).
Qed.

(** The width summed over an ascending sequence is the span of its hours. *)
Lemma total_width_fold (x : Z * float) (l : list (Z * float)) (st : float * Z) :
  hours_ascending (x :: l) ->
  snd (fold_left add_segment (adjacent (x :: l)) st) = snd st + (fst (List.last l x) - fst x).
Proof.
  revert x st. induction l as [|y l IH]; intros x st Hasc.
  - cbn. lia.
  - destruct Hasc as [Hxy Hasc]. cbn [adjacent fold_left].
    rewrite (IH y _ Hasc).
    rewrite (last_cons_default x y l).
    unfold add_segment. cbn [fst snd].
    destruct (Z.leb_spec (fst y - fst x) 0); cbn [snd]; lia.
Qed.

(** X1. With two or more selected readings, the divisor of the mean is the
    span between the earliest and the latest selected hour, and the result is
    absent exactly when that span is zero, that is when all the selected
    readings fall in the same hour. *)
Theorem total_time_is_the_span (hrv_data : readings) (wake : datetime)
    (next : option datetime) (first : Z * float) (rest : list (Z * float)) :
  daytime_data_of hrv_data wake next = first :: rest ->
  rest <> [] ->
  snd (integrate (first :: rest)) = fst (List.last rest first) - fst first /\
  0 <= fst (List.last rest first) - fst first /\
  (calculate_daytime_hrv_integral hrv_data (Some wake) next = None <->
   fst (List.last rest first) = fst first).
Proof.
  intros Hdata Hrest.
  assert (Hasc : hours_ascending (first :: rest)).
  { rewrite <- Hdata. apply sort_ascending. }
  assert (Hw : snd (trapezoid_totals (first :: rest)) = fst (List.last rest first) - fst first).
  { unfold trapezoid_totals. rewrite (total_width_fold _ _ _ Hasc). cbn [snd]. lia. }
  assert (Hspan : 0 <= fst (List.last rest first) - fst first).
  { clear -Hasc. revert first Hasc. induction rest as [|y l IH]; intros x Hasc; [cbn; lia|].
    destruct Hasc as [Hxy Hasc]. specialize (IH y Hasc).
    rewrite (last_cons_default x y l). lia. }
  rewrite integrate_trapezoid. split; [exact Hw|]. split; [exact Hspan|].
  rewrite calculate_by_daytime, Hdata.
  destruct rest as [|second rest]; [congruence|].
  cbn [aggregate]. unfold trapezoid_mean. rewrite Hw.
  destruct (Z.ltb_spec 0 (fst (List.last (second :: rest) first) - fst first)).
  - split; [discriminate | lia].
  - split; [lia | reflexivity].
Qed.

Lemma total_time_is_the_span_example :
  calculate_daytime_hrv_integral Examples.same_hour_readings (Some (Examples.morning 7)) None
  = None.
Proof.
  apply (proj2 (proj2 (total_time_is_the_span Examples.same_hour_readings
                         (Examples.morning 7) None
                         (13, of_decimal false 400 (-1)) [(13, of_decimal false 500 (-1))]
                         ltac:(vm_compute; reflexivity) ltac:(discriminate)))).
  reflexivity.
Defined.

(** ** Readings outside the window *)

Lemma qualifying_outside (item : string * float) (l : readings) (w u : Z) :
  in_window w u (convert_time_slot_to_hour (fst item)) = false ->
  qualifying (item :: l) w u = qualifying l w u.
Proof. intros H. unfold qualifying. cbn [List.filter]. now rewrite H. Qed.

(** X2. A reading whose label gives an hour outside the window, as every
    label that is not recognised does, has no effect on the result: the set
    with it and the set without it give the same value, wherever it stands. *)
Theorem reading_outside_window_ignored (before after : readings) (item : string * float)
    (wake : datetime) (next : option datetime) :
  in_window (hour wake) (next_bedtime_hour_of next)
    (convert_time_slot_to_hour (fst item)) = false ->
  calculate_daytime_hrv_integral (before ++ item :: after) (Some wake) next
  = calculate_daytime_hrv_integral (before ++ after) (Some wake) next.
Proof.
  intros H. rewrite !calculate_by_daytime. f_equal.
  unfold daytime_data_of. rewrite !select_daytime_qualifying, !qualifying_app.
  now rewrite (qualifying_outside _ _ _ _ H).
Qed.

Lemma reading_outside_window_ignored_example :
  calculate_daytime_hrv_integral
    ([("6 AM - 7 AM", of_decimal false 300 (-1))]
     ++ Examples.reading_at_noon :: [("9 AM - 10 AM", of_decimal false 350 (-1))])
    (Some (Examples.morning 6)) None
  = calculate_daytime_hrv_integral
      ([("6 AM - 7 AM", of_decimal false 300 (-1))]
       ++ [("9 AM - 10 AM", of_decimal false 350 (-1))])
      (Some (Examples.morning 6)) None.
Proof.
  apply (reading_outside_window_ignored
           [("6 AM - 7 AM", of_decimal false 300 (-1))]
           [("9 AM - 10 AM", of_decimal false 350 (-1))]
           Examples.reading_at_noon (Examples.morning 6) None).
  vm_compute. reflexivity.
Defined.

(** ** The order of the readings *)

Lemma insert_by_hour_comm (x y : Z * float) (s : list (Z * float)) :
  fst x <> fst y ->
  insert_by_hour x (insert_by_hour y s) = insert_by_hour y (insert_by_hour x s).
Proof.
  intros Hxy. induction s as [|z s IH].
  - cbn [insert_by_hour].
    destruct (Z.leb_spec (fst x) (fst y)), (Z.leb_spec (fst y) (fst x));
      try lia; reflexivity.
  - cbn [insert_by_hour].
    destruct (Z.leb_spec (fst x) (fst z)) as [Hxz|Hxz],
             (Z.leb_spec (fst y) (fst z)) as [Hyz|Hyz];
      cbn [insert_by_hour].
    + destruct (Z.leb_spec (fst x) (fst y)), (Z.leb_spec (fst y) (fst x)); try lia.
      * destruct (Z.leb_spec (fst y) (fst z)); [reflexivity | lia].
      * destruct (Z.leb_spec (fst x) (fst z)); [reflexivity | lia].
    + destruct (Z.leb_spec (fst y) (fst x)); [lia|].
      destruct (Z.leb_spec (fst x) (fst z)); [|lia].
      destruct (Z.leb_spec (fst y) (fst z)); [lia | reflexivity].
    + destruct (Z.leb_spec (fst x) (fst y)); [lia|].
      destruct (Z.leb_spec (fst x) (fst z)); [lia|].
      destruct (Z.leb_spec (fst y) (fst z)); [reflexivity | lia].
    + destruct (Z.leb_spec (fst x) (fst z)); [lia|].
      destruct (Z.leb_spec (fst y) (fst z)); [lia|].
      now rewrite IH.
Qed.

Lemma sort_by_hour_permutation (l l' : list (Z * float)) :
  Permutation l l' -> List.NoDup (map fst l) -> sort_by_hour l = sort_by_hour l'.
Proof.
  induction 1 as [|x l l' HP IH|x y l|l l' l'' HP1 IH1 HP2 IH2]; intros Hnd.
  - reflexivity.
  - cbn [sort_by_hour]. cbn [map] in Hnd. apply List.NoDup_cons_iff in Hnd.
    now rewrite IH.
  - cbn [sort_by_hour]. cbn [map] in Hnd.
    apply List.NoDup_cons_iff in Hnd. destruct Hnd as [Hin _].
    apply insert_by_hour_comm. intros E. apply Hin. left. symmetry. exact E.
  - rewrite IH1 by exact Hnd. apply IH2.
    apply (Permutation_NoDup (Permutation_map fst HP1) Hnd).
Qed.

Lemma qualifying_permutation (d d' : readings) (w u : Z) :
  Permutation d d' -> Permutation (qualifying d w u) (qualifying d' w u).
Proof.
  intros HP. unfold qualifying. apply Permutation_map.
  induction HP as [|x l l' HP IH|x y l|l l' l'' HP1 IH1 HP2 IH2].
  - constructor.
  - cbn [List.filter]. destruct (in_window _ _ _); [now constructor | exact IH].
  - cbn [List.filter].
    destruct (in_window w u (convert_time_slot_to_hour (fst x))),
             (in_window w u (convert_time_slot_to_hour (fst y)));
      try reflexivity. apply perm_swap.
  - now transitivity (List.filter
        (fun item => in_window w u (convert_time_slot_to_hour (fst item))) l').
Qed.

(** X3. When the readings selected for the window fall in distinct hours,
    the result does not depend on the order in which the set holds its
    readings. *)
Theorem result_independent_of_order (hrv_data hrv_data' : readings) (wake : datetime)
    (next : option datetime) :
  Permutation hrv_data hrv_data' ->
  List.NoDup (map fst (qualifying hrv_data (hour wake) (next_bedtime_hour_of next))) ->
  calculate_daytime_hrv_integral hrv_data (Some wake) next
  = calculate_daytime_hrv_integral hrv_data' (Some wake) next.
Proof.
  intros HP Hnd. rewrite !calculate_by_daytime. f_equal.
  unfold daytime_data_of. rewrite !select_daytime_qualifying.
  apply sort_by_hour_permutation; [|exact Hnd].
  now apply qualifying_permutation.
Qed.

Lemma result_independent_of_order_example :
  calculate_daytime_hrv_integral Examples.three_readings (Some (Examples.morning 6)) None
  = calculate_daytime_hrv_integral Examples.three_readings_reversed
      (Some (Examples.morning 6)) None.
Proof.
  apply (result_independent_of_order Examples.three_readings
           Examples.three_readings_reversed (Examples.morning 6) None).
  - unfold Examples.three_readings, Examples.three_readings_reversed.
    eapply perm_trans; [apply perm_skip, perm_swap|].
    eapply perm_trans; [apply perm_swap|].
    apply perm_skip, perm_swap.
  - vm_compute. repeat constructor; cbn; intuition discriminate.
Defined.

Lemma filter_insert_by_hour (h : Z) (x : Z * float) (l : list (Z * float)) :
  List.filter (fun p => fst p =? h) (insert_by_hour x l)
  = List.filter (fun p => fst p =? h) (x :: l).
Proof.
  induction l as [|y l IH]; [reflexivity|].
  cbn [insert_by_hour]. destruct (Z.leb_spec (fst x) (fst y)) as [Hle|Hlt]; [reflexivity|].
  cbn [List.filter] in *. rewrite IH.
  destruct (Z.eqb_spec (fst x) h), (Z.eqb_spec (fst y) h); try reflexivity. lia.
Qed.

(** X4. The sort is stable: the selected readings of one hour stand in the
    sorted sequence in the order in which the set holds them. *)
Theorem readings_of_one_hour_keep_order (hrv_data : readings) (wake : datetime)
    (next : option datetime) (h : Z) :
  List.filter (fun p => fst p =? h) (daytime_data_of hrv_data wake next)
  = List.filter (fun p => fst p =? h)
      (qualifying hrv_data (hour wake) (next_bedtime_hour_of next)).
Proof.
  unfold daytime_data_of. rewrite select_daytime_qualifying.
  induction (qualifying hrv_data (hour wake) (next_bedtime_hour_of next)) as [|x l IH];
    [reflexivity|].
  cbn [sort_by_hour]. rewrite filter_insert_by_hour.
  cbn [List.filter]. now rewrite IH.
Qed.

(** ** Texts: prefixes, runs and one-character separators *)

Lemma prefix_empty (s : string) : String.prefix EmptyString s = true.
Proof. destruct s; reflexivity. Qed.

Lemma prefix_cons (a b : ascii) (p s : string) :
  String.prefix (String a p) (String b s) = Ascii.eqb a b && String.prefix p s.
Proof.
  cbn [String.prefix]. destruct (ascii_dec a b) as [->|N].
  - now rewrite Ascii.eqb_refl.
  - apply Ascii.eqb_neq in N. now rewrite N.
Qed.

Lemma prefix_true_app (p s : string) :
  String.prefix p s = true -> exists r, s = p +:+ r.
Proof.
  revert s. induction p as [|a p IH]; intros s H.
  - exists s. reflexivity.
  - destruct s as [|b s]; [discriminate H|].
    rewrite prefix_cons in H. apply andb_prop in H as [Hab Hp].
    apply Ascii.eqb_eq in Hab. subst b.
    destruct (IH _ Hp) as [r ->]. exists r. reflexivity.
Qed.

Lemma prefix_app (p r : string) : String.prefix p (p +:+ r) = true.
Proof.
  induction p as [|a p IH]; [apply prefix_empty|].
  now rewrite append_cons, prefix_cons, Ascii.eqb_refl, IH.
Qed.

Lemma prefix_app_r (p s t : string) :
  String.prefix p s = true -> String.prefix p (s +:+ t) = true.
Proof.
  intros H. destruct (prefix_true_app _ _ H) as [r ->].
  rewrite append_assoc. apply prefix_app.
Qed.

Lemma drop_while_app (p : ascii -> bool) (s t : string) :
  drop_while p s <> EmptyString -> drop_while p (s +:+ t) = drop_while p s +:+ t.
Proof.
  induction s as [|c s IH]; cbn [drop_while]; [congruence|].
  rewrite append_cons. cbn [drop_while]. destruct (p c); [exact IH | reflexivity].
Qed.

Lemma take_while_app (p : ascii -> bool) (s t : string) :
  drop_while p s <> EmptyString -> take_while p (s +:+ t) = take_while p s.
Proof.
  induction s as [|c s IH]; cbn [drop_while]; [congruence|].
  rewrite append_cons. cbn [take_while]. destruct (p c); [|reflexivity].
  intros H. now rewrite IH.
Qed.

Lemma digits_value_nonneg (s : string) (acc : Z) :
  all_chars isdigit s = true -> 0 <= acc -> 0 <= digits_value acc s.
Proof.
  revert acc. induction s as [|c s IH]; intros acc Hs Hacc; [exact Hacc|].
  cbn [all_chars] in Hs. apply andb_prop in Hs as [Hc Hs].
  cbn [digits_value]. apply IH; [exact Hs|].
  unfold isdigit in Hc. unfold digit_value. lia.
Qed.

Lemma contains_char_cons (c x : ascii) (s : string) :
  contains (String c EmptyString) (String x s)
  = Ascii.eqb c x || contains (String c EmptyString) s.
Proof. cbn [contains]. now rewrite prefix_cons, prefix_empty, andb_true_r. Qed.

Lemma contains_char_app (c : ascii) (a b : string) :
  contains (String c EmptyString) (a +:+ b)
  = contains (String c EmptyString) a || contains (String c EmptyString) b.
Proof.
  induction a as [|x a IH]; [reflexivity|].
  now rewrite append_cons, !contains_char_cons, IH, orb_assoc.
Qed.

(** A field free of the separator, then the separator: the field is closed
    and the scan goes on after it. *)
Lemma split_char_joined (c : ascii) (a b cur : string) :
  contains (String c EmptyString) a = false ->
  split_go (String c EmptyString) (a +:+ String c b) O cur
  = (cur +:+ a) :: split_go (String c EmptyString) b O EmptyString.
Proof.
  revert cur. induction a as [|x a IH]; intros cur H.
  - rewrite append_empty_l, append_empty_r. cbn [split_go].
    now rewrite prefix_cons, Ascii.eqb_refl, prefix_empty.
  - rewrite contains_char_cons in H. apply orb_false_elim in H as [Hx Ha].
    rewrite append_cons. cbn [split_go]. rewrite prefix_cons, Hx. cbn [andb].
    rewrite (IH _ Ha). now rewrite append_cons_r.
Qed.

(** ** The hour of a bucket label, continued *)

Lemma match_time_slot_nonneg (time_slot : string) (n : Z) (ap : am_pm) :
  match_time_slot time_slot = Some (n, ap) -> 0 <= n.
Proof.
  unfold match_time_slot.
  pose proof (all_chars_take_while isdigit time_slot) as Hd.
  destruct (take_while isdigit time_slot) as [|c ds]; [discriminate|].
  assert (Hn : 0 <= digits_value 0 (String c ds)) by (apply digits_value_nonneg; [exact Hd | lia]).
  destruct (String.prefix "AM" _); [intros [= <- _]; exact Hn|].
  destruct (String.prefix "PM" _); [intros [= <- _]; exact Hn | discriminate].
Qed.

Lemma take_while_until (p : ascii -> bool) (ds r : string) (c : ascii) :
  all_chars p ds = true -> p c = false -> take_while p (ds +:+ String c r) = ds.
Proof.
  intros Hds Hc. induction ds as [|x ds IH].
  - rewrite append_empty_l. cbn [take_while]. now rewrite Hc.
  - cbn [all_chars] in Hds. apply andb_prop in Hds as [Hx Hds].
    rewrite append_cons. cbn [take_while]. now rewrite Hx, (IH Hds).
Qed.

Lemma drop_while_until (p : ascii -> bool) (ds r : string) (c : ascii) :
  all_chars p ds = true -> p c = false -> drop_while p (ds +:+ String c r) = String c r.
Proof.
  intros Hds Hc. induction ds as [|x ds IH].
  - rewrite append_empty_l. cbn [drop_while]. now rewrite Hc.
  - cbn [all_chars] in Hds. apply andb_prop in Hds as [Hx Hds].
    rewrite append_cons. cbn [drop_while]. now rewrite Hx, (IH Hds).
Qed.

Lemma space_is_not_digit (c : ascii) : isspace c = true -> isdigit c = false.
Proof. each_char c. Qed.

(** A label of the shape reads as its number and its half of the day. *)
Lemma match_time_slot_label (ds ws rest : string) (ap : am_pm) :
  truthy ds = true -> all_chars isdigit ds = true -> all_chars isspace ws = true ->
  match_time_slot (ds +:+ ws +:+ half_text ap +:+ rest) = Some (digits_value 0 ds, ap).
Proof.
  intros Hne Hds Hws.
  assert (Hhalf : exists c t, half_text ap +:+ rest = String c t /\
                              isdigit c = false /\ isspace c = false /\
                              String.prefix "AM" (String c t)
                              = match ap with AM => true | PM => false end /\
                              String.prefix "PM" (String c t)
                              = match ap with AM => false | PM => true end).
  { destruct ap; cbn [half_text]; rewrite !append_cons, append_empty_l;
      eexists _, _; (split; [reflexivity|]);
      rewrite !prefix_cons, !prefix_empty; repeat split. }
  destruct Hhalf as (c & t & -> & Hcd & Hcs & Ham & Hpm).
  assert (Hafter : exists c' t', ws +:+ String c t = String c' t' /\ isdigit c' = false).
  { destruct ws as [|x ws]; [now exists c, t|].
    exists x, (ws +:+ String c t). split; [reflexivity|].
    cbn [all_chars] in Hws. apply andb_prop in Hws as [Hx _].
    now apply space_is_not_digit. }
  destruct Hafter as (c' & t' & E & Hc').
  unfold match_time_slot. rewrite E.
  rewrite (take_while_until isdigit ds t' c' Hds Hc'),
    (drop_while_until isdigit ds t' c' Hds Hc'), <- E.
  rewrite (drop_while_until isspace ws t c Hws Hcs), Ham, Hpm.
  destruct ds; [discriminate Hne|]. now destruct ap.
Qed.

(** What is read as a number and a half of the day is a label of the
    shape. *)
Lemma match_time_slot_shape (time_slot : string) (n : Z) (ap : am_pm) :
  match_time_slot time_slot = Some (n, ap) ->
  exists ds ws rest : string,
    truthy ds = true /\ all_chars isdigit ds = true /\ all_chars isspace ws = true /\
    time_slot = ds +:+ ws +:+ half_text ap +:+ rest /\ n = digits_value 0 ds.
Proof.
  unfold match_time_slot. intros H.
  pose proof (take_drop_while isdigit time_slot) as Hsplit.
  pose proof (all_chars_take_while isdigit time_slot) as Hds.
  pose proof (take_drop_while isspace (drop_while isdigit time_slot)) as Hsplit'.
  pose proof (all_chars_take_while isspace (drop_while isdigit time_slot)) as Hws.
  destruct (take_while isdigit time_slot) as [|c ds] eqn:Ed; [discriminate|].
  exists (String c ds), (take_while isspace (drop_while isdigit time_slot)).
  destruct (String.prefix "AM" (drop_while isspace (drop_while isdigit time_slot))) eqn:Ea.
  - injection H as <- <-. destruct (prefix_true_app _ _ Ea) as [rest Hrest].
    exists rest. repeat split; try assumption.
    cbn [half_text]. rewrite <- Hrest, Hsplit'. now symmetry.
  - destruct (String.prefix "PM" (drop_while isspace (drop_while isdigit time_slot))) eqn:Ep;
      [|discriminate].
    injection H as <- <-. destruct (prefix_true_app _ _ Ep) as [rest Hrest].
    exists rest. repeat split; try assumption.
    cbn [half_text]. rewrite <- Hrest, Hsplit'. now symmetry.
Qed.

(** X5. For a label of ASCII characters.  The hour is never below -1, and
    it is -1 exactly when the label is not of the shape: digits, white space
    or none, AM or PM, and any text.  A label of that shape gives the hour of
    its number: with AM the number, and 0 for 12; with PM the number plus 12,
    and 12 for 12; so that a number from 1 to 12 gives an hour of the day,
    below 12 exactly for AM. *)
Theorem time_slot_hour_range (time_slot : string) :
  all_chars is_ascii time_slot = true ->
  -1 <= convert_time_slot_to_hour time_slot /\
  (convert_time_slot_to_hour time_slot = -1 <-> ~ is_hour_label time_slot) /\
  (forall (ds ws rest : string) (ap : am_pm),
      truthy ds = true -> all_chars isdigit ds = true -> all_chars isspace ws = true ->
      time_slot = ds +:+ ws +:+ half_text ap +:+ rest ->
      convert_time_slot_to_hour time_slot
      = match ap with
        | AM => if digits_value 0 ds =? 12 then 0 else digits_value 0 ds
        | PM => if digits_value 0 ds =? 12 then 12 else digits_value 0 ds + 12
        end /\
      (1 <= digits_value 0 ds <= 12 ->
       0 <= convert_time_slot_to_hour time_slot <= 23 /\
       (ap = AM <-> convert_time_slot_to_hour time_slot < 12))).
Proof.
  intros _.
  assert (Hlabel : forall (ds ws rest : string) (ap : am_pm),
             truthy ds = true -> all_chars isdigit ds = true ->
             all_chars isspace ws = true ->
             time_slot = ds +:+ ws +:+ half_text ap +:+ rest ->
             convert_time_slot_to_hour time_slot
             = match ap with
               | AM => if digits_value 0 ds =? 12 then 0 else digits_value 0 ds
               | PM => if digits_value 0 ds =? 12 then 12 else digits_value 0 ds + 12
               end).
  { intros ds ws rest ap Hne Hds Hws ->. unfold convert_time_slot_to_hour.
    rewrite (match_time_slot_label ds ws rest ap Hne Hds Hws).
    destruct ap; [reflexivity|].
    destruct (Z.eqb_spec (digits_value 0 ds) 12) as [E|E]; cbn [negb]; [exact E | reflexivity]. }
  split; [|split].
  - unfold convert_time_slot_to_hour.
    destruct (match_time_slot time_slot) as [[n ap]|] eqn:E; [|lia].
    pose proof (match_time_slot_nonneg _ _ _ E).
    destruct ap, (Z.eqb_spec n 12); cbn [negb]; lia.
  - split.
    + intros Hconv (ds & ws & rest & ap & Hne & Hds & Hws & Hshape).
      rewrite (Hlabel ds ws rest ap Hne Hds Hws Hshape) in Hconv.
      pose proof (digits_value_nonneg ds 0 Hds ltac:(lia)).
      destruct ap, (Z.eqb_spec (digits_value 0 ds) 12); lia.
    + intros Hshape. unfold convert_time_slot_to_hour.
      destruct (match_time_slot time_slot) as [[n ap]|] eqn:E; [|reflexivity].
      exfalso. apply Hshape.
      destruct (match_time_slot_shape _ _ _ E) as (ds & ws & rest & Hne & Hds & Hws & Hs & _).
      now exists ds, ws, rest, ap.
  - intros ds ws rest ap Hne Hds Hws Hshape.
    rewrite (Hlabel ds ws rest ap Hne Hds Hws Hshape). split; [reflexivity|].
    intros Hn. destruct ap, (Z.eqb_spec (digits_value 0 ds) 12);
      (split; [lia | split; [intros; lia || discriminate | intros; reflexivity || lia]]).
Qed.

Lemma time_slot_hour_range_example :
  -1 <= convert_time_slot_to_hour "9 AM - 10 AM" /\
  (convert_time_slot_to_hour "9 AM - 10 AM" = -1 <-> ~ is_hour_label "9 AM - 10 AM") /\
  (forall (ds ws rest : string) (ap : am_pm),
      truthy ds = true -> all_chars isdigit ds = true -> all_chars isspace ws = true ->
      "9 AM - 10 AM"%string = ds +:+ ws +:+ half_text ap +:+ rest ->
      convert_time_slot_to_hour "9 AM - 10 AM"
      = match ap with
        | AM => if digits_value 0 ds =? 12 then 0 else digits_value 0 ds
        | PM => if digits_value 0 ds =? 12 then 12 else digits_value 0 ds + 12
        end /\
      (1 <= digits_value 0 ds <= 12 ->
       0 <= convert_time_slot_to_hour "9 AM - 10 AM" <= 23 /\
       (ap = AM <-> convert_time_slot_to_hour "9 AM - 10 AM" < 12))).
Proof. apply (time_slot_hour_range "9 AM - 10 AM"). reflexivity. Defined.

Lemma match_time_slot_app (time_slot rest : string) (r : Z * am_pm) :
  match_time_slot time_slot = Some r -> match_time_slot (time_slot +:+ rest) = Some r.
Proof.
  unfold match_time_slot. intros H.
  destruct (take_while isdigit time_slot) as [|c ds] eqn:Ed; [discriminate|].
  assert (Hrest : drop_while isspace (drop_while isdigit time_slot) <> EmptyString).
  { intros E. rewrite E in H. discriminate. }
  assert (Hdigits : drop_while isdigit time_slot <> EmptyString).
  { intros E. rewrite E in Hrest. now apply Hrest. }
  rewrite (take_while_app _ _ _ Hdigits), (drop_while_app _ _ _ Hdigits),
    (drop_while_app _ _ _ Hrest), Ed.
  destruct (String.prefix "AM" (drop_while isspace (drop_while isdigit time_slot))) eqn:Ea.
  - now rewrite (prefix_app_r _ _ _ Ea).
  - destruct (String.prefix "PM" (drop_while isspace (drop_while isdigit time_slot))) eqn:Ep;
      [|discriminate].
    rewrite (prefix_app_r _ _ _ Ep).
    destruct (prefix_true_app _ _ Ep) as [t ->].
    rewrite append_assoc, !append_cons, prefix_cons. exact H.
Qed.

(** X6. The hour is read from the start of the label: whatever follows a
    label that gives an hour, the end of the range for one, changes
    nothing. *)
Theorem time_slot_end_not_read (time_slot rest : string) :
  0 <= convert_time_slot_to_hour time_slot ->
  convert_time_slot_to_hour (time_slot +:+ rest) = convert_time_slot_to_hour time_slot.
Proof.
  unfold convert_time_slot_to_hour. intros H.
  destruct (match_time_slot time_slot) as [r|] eqn:E; [|lia].
  now rewrite (match_time_slot_app _ rest _ E).
Qed.

Lemma time_slot_end_not_read_example :
  convert_time_slot_to_hour ("9 AM" +:+ " - 10 PM") = convert_time_slot_to_hour "9 AM".
Proof. apply (time_slot_end_not_read "9 AM" " - 10 PM"). vm_compute. discriminate. Defined.

(** ** Timestamps *)

Lemma digits_then_colon_digits (s ds rest : string) :
  digits_then_colon s = Some (ds, rest) -> all_chars isdigit ds = true.
Proof.
  unfold digits_then_colon. pose proof (all_chars_take_while isdigit s) as Hd.
  destruct (take_while isdigit s) as [|c t]; [discriminate|].
  destruct (drop_while isdigit s) as [|c' r]; [discriminate|].
  destruct (Ascii.eqb c' ":"); [|discriminate]. now intros [= <- _].
Qed.

Lemma gozen_is_not_gogo (time_part : string) :
  String.prefix text_gozen time_part = true -> String.prefix text_gogo time_part = false.
Proof.
  intros H. destruct (prefix_true_app _ _ H) as [r ->].
  unfold text_gozen, text_gogo. rewrite !append_cons, !prefix_cons. reflexivity.
Qed.

Lemma match_time_part_marker (time_part : string) (ap : am_pm_ja) (h m sec : Z) :
  match_time_part time_part = Some (ap, h, m, sec) ->
  0 <= h /\
  String.prefix (match ap with Gozen => text_gozen | Gogo => text_gogo end) time_part = true.
Proof.
  unfold match_time_part.
  destruct (String.prefix text_gozen time_part) eqn:Ez;
    [|destruct (String.prefix text_gogo time_part) eqn:Eg; [|discriminate]].
  all: match goal with
       | |- context [digits_then_colon ?r0] =>
           destruct (digits_then_colon r0) as [[hs r1]|] eqn:E1; [|discriminate]
       end;
       destruct (digits_then_colon r1) as [[ms r2]|]; [|discriminate];
       destruct (take_while isdigit r2); [discriminate|];
       intros [= <- <- _ _];
       (split; [apply digits_value_nonneg;
                [exact (digits_then_colon_digits _ _ _ E1) | lia]
               | assumption]).
Qed.

(** X7. A timestamp that is parsed is a date and time the calendar has.
    Its text has exactly one space; the part after it, which is the time
    shown on the line of the result, opens with one of the two markers, and
    the marker decides the half of the day: with the afternoon marker the hour
    is from 12 to 23, with the morning marker it is never 12. *)
Theorem parsed_timestamp_hour (s : string) (d : datetime) :
  parse_japanese_datetime (Str s) = Some d ->
  valid_datetime d = true /\
  exists date_part time_part : string,
    split " " s = [date_part; time_part] /\
    format_time_part s = time_part /\
    (String.prefix text_gozen time_part = true \/ String.prefix text_gogo time_part = true) /\
    (String.prefix text_gogo time_part = true -> 12 <= hour d <= 23) /\
    (String.prefix text_gozen time_part = true -> 0 <= hour d <= 23 /\ hour d <> 12).
Proof.
  unfold parse_japanese_datetime.
  destruct (negb (truthy s)); [discriminate|].
  unfold format_time_part.
  destruct (split " " s) as [|date_part [|time_part [|? ?]]]; try discriminate.
  destruct (map py_int (split "-" date_part)) as [|[y|] [|[m|] [|[dd|] [|? ?]]]];
    try discriminate.
  destruct (match_time_part time_part) as [[[[ap h] mi] se]|] eqn:Em; [|discriminate].
  destruct (match_time_part_marker _ _ _ _ _ Em) as [Hh Hap].
  unfold make_datetime.
  match goal with |- context [valid_datetime ?r] => destruct (valid_datetime r) eqn:Ev end;
    [|discriminate].
  intros [= <-]. split; [exact Ev|].
  pose proof (valid_hour _ Ev) as Hr. cbn [hour] in Hr |- *.
  exists date_part, time_part. split; [reflexivity|]. split; [reflexivity|].
  split; [destruct ap; [left | right]; exact Hap|].
  destruct ap.
  - split.
    + intros Hg. rewrite (gozen_is_not_gogo _ Hap) in Hg. discriminate.
    + intros _. split; [exact Hr|]. destruct (Z.eqb_spec h 12); lia.
  - split.
    + intros _. destruct (Z.eqb_spec h 12); cbn [negb] in *; lia.
    + intros Hz. rewrite (gozen_is_not_gogo _ Hz) in Hap. discriminate.
Qed.

Lemma parsed_timestamp_hour_example :
  valid_datetime
    {| year := 2025; month := 3; day := 2; hour := 13; minute := 5; second := 9 |} = true /\
  exists date_part time_part : string,
    split " " "2025-03-02 午後1:05:09" = [date_part; time_part] /\
    format_time_part "2025-03-02 午後1:05:09" = time_part /\
    (String.prefix text_gozen time_part = true \/ String.prefix text_gogo time_part = true) /\
    (String.prefix text_gogo time_part = true ->
     12 <= hour {| year := 2025; month := 3; day := 2;
                   hour := 13; minute := 5; second := 9 |} <= 23) /\
    (String.prefix text_gozen time_part = true ->
     0 <= hour {| year := 2025; month := 3; day := 2;
                  hour := 13; minute := 5; second := 9 |} <= 23 /\
     hour {| year := 2025; month := 3; day := 2;
             hour := 13; minute := 5; second := 9 |} <> 12).
Proof.
  exact (parsed_timestamp_hour "2025-03-02 午後1:05:09"
           {| year := 2025; month := 3; day := 2; hour := 13; minute := 5; second := 9 |}
           ltac:(vm_compute; reflexivity)).
Defined.

(** ** The key of a date *)

Lemma digit_char_inj (a b : Z) : digit_char a = digit_char b -> a mod 10 = b mod 10.
Proof.
  unfold digit_char. intros H. apply (f_equal nat_of_ascii) in H.
  pose proof (Z.mod_pos_bound a 10 ltac:(lia)).
  pose proof (Z.mod_pos_bound b 10 ltac:(lia)).
  rewrite !nat_ascii_embedding in H by lia. lia.
Qed.

Lemma valid_datetime_date (d : datetime) :
  valid_datetime d = true ->
  1 <= year d <= 9999 /\ 1 <= month d <= 12 /\ 1 <= day d <= 31.
Proof.
  unfold valid_datetime. intros H.
  repeat (apply andb_prop in H as [H ?]).
  assert (days_in_month (year d) (month d) <= 31).
  { unfold days_in_month.
    repeat match goal with |- context [if ?b then _ else _] => destruct b end; lia. }
  lia.
Qed.

Lemma string_of_uint_digits (u : Decimal.uint) :
  all_chars isdigit (NilEmpty.string_of_uint u) = true.
Proof. induction u; cbn [NilEmpty.string_of_uint all_chars]; [reflexivity | exact IHu ..]. Qed.

Lemma year_text_digits (y : Z) : all_chars isdigit (year_text y) = true.
Proof. apply string_of_uint_digits. Qed.

Lemma year_text_inj (y1 y2 : Z) :
  0 <= y1 -> 0 <= y2 -> year_text y1 = year_text y2 -> y1 = y2.
Proof.
  unfold year_text. intros H1 H2 E.
  apply (f_equal NilEmpty.uint_of_string) in E. rewrite !NilEmpty.usu in E.
  injection E as E. apply DecimalN.Unsigned.to_uint_inj in E. lia.
Qed.

(** From the year 1000 on the year has its four digits. *)
Lemma year_text_four_digits (y : Z) : 1000 <= y <= 9999 -> year_text y = four_digits y.
Proof.
  intros Hy.
  assert (Hall : forallb (fun n => String.eqb (year_text (1000 + Z.of_nat n))
                                     (four_digits (1000 + Z.of_nat n)))
                   (seq 0 (Z.to_nat 9000)) = true) by (vm_compute; reflexivity).
  rewrite forallb_forall in Hall.
  specialize (Hall (Z.to_nat (y - 1000))).
  replace (1000 + Z.of_nat (Z.to_nat (y - 1000))) with y in Hall by lia.
  apply String.eqb_eq, Hall, in_seq. lia.
Qed.

(** Two texts free of a character, each followed by it: the texts and what
    follows are equal when the whole is. *)
Lemma app_until_inj (c : ascii) (a a' r r' : string) :
  all_chars (fun x => negb (Ascii.eqb x c)) a = true ->
  all_chars (fun x => negb (Ascii.eqb x c)) a' = true ->
  a +:+ String c r = a' +:+ String c r' -> a = a' /\ r = r'.
Proof.
  revert a'. induction a as [|x a IH]; intros [|x' a'] Ha Ha' E.
  - rewrite !append_empty_l in E. now injection E as ->.
  - rewrite append_empty_l, append_cons in E. injection E as <- _.
    cbn [all_chars] in Ha'. now rewrite Ascii.eqb_refl in Ha'.
  - rewrite append_empty_l, append_cons in E. injection E as -> _.
    cbn [all_chars] in Ha. now rewrite Ascii.eqb_refl in Ha.
  - rewrite !append_cons in E. injection E as -> E.
    cbn [all_chars] in Ha, Ha'.
    apply andb_prop in Ha as [_ Ha]. apply andb_prop in Ha' as [_ Ha'].
    destruct (IH a' Ha Ha' E) as [-> ->]. now split.
Qed.

Lemma digit_is_not_slash (c : ascii) : isdigit c = true -> negb (Ascii.eqb c "/") = true.
Proof. each_char c. Qed.

(** X8. Two timestamps give the same key for the readings of a day only
    when they are of the same day: the readings of another day are never
    taken for it.  From the year 1000 on the key has ten characters. *)
Theorem date_key_identifies_the_day (d1 d2 : datetime) :
  valid_datetime d1 = true ->
  valid_datetime d2 = true ->
  strftime_ymd d1 = strftime_ymd d2 ->
  (year d1 = year d2 /\ month d1 = month d2 /\ day d1 = day d2) /\
  (1000 <= year d1 -> String.length (strftime_ymd d1) = 10%nat).
Proof.
  intros H1 H2 E.
  apply valid_datetime_date in H1. apply valid_datetime_date in H2.
  split.
  - unfold strftime_ymd in E.
    change (year_text (year d1)
            +:+ String "/" (two_digits (month d1) +:+ "/" +:+ two_digits (day d1))
            = year_text (year d2)
              +:+ String "/" (two_digits (month d2) +:+ "/" +:+ two_digits (day d2))) in E.
    apply app_until_inj in E as [Ey E];
      try (apply (all_chars_impl isdigit); [exact digit_is_not_slash | apply year_text_digits]).
    apply year_text_inj in Ey; [|lia..].
    unfold two_digits in E. rewrite !append_cons, !append_empty_l in E.
    injection E as Em1 Em0 Ed1 Ed0.
    apply digit_char_inj in Em1, Em0, Ed1, Ed0.
    repeat split; [exact Ey | Z.div_mod_to_equations; lia ..].
  - intros Hy. unfold strftime_ymd.
    rewrite year_text_four_digits by lia. reflexivity.
Qed.

Lemma date_key_identifies_the_day_example :
  (year (Examples.morning 6) = year (Examples.night 23) /\
   month (Examples.morning 6) = month (Examples.night 23) /\
   day (Examples.morning 6) = day (Examples.night 23)) /\
  (1000 <= year (Examples.morning 6) ->
   String.length (strftime_ymd (Examples.morning 6)) = 10%nat).
Proof.
  apply (date_key_identifies_the_day (Examples.morning 6) (Examples.night 23));
    vm_compute; reflexivity.
Defined.


(** ** The text kept for the report *)

Lemma keep_ascii_app (a b : string) : keep_ascii (a +:+ b) = keep_ascii a +:+ keep_ascii b.
Proof.
  induction a as [|c a IH]; [reflexivity|].
  rewrite append_cons. cbn [keep_ascii]. destruct (is_ascii c); [|exact IH].
  now rewrite append_cons, IH.
Qed.

Lemma keep_ascii_all (s : string) : all_chars is_ascii (keep_ascii s) = true.
Proof.
  induction s as [|c s IH]; [reflexivity|].
  cbn [keep_ascii]. destruct (is_ascii c) eqn:E; [|exact IH].
  cbn [all_chars]. now rewrite E, IH.
Qed.

Lemma keep_ascii_id (s : string) : all_chars is_ascii s = true -> keep_ascii s = s.
Proof.
  induction s as [|c s IH]; [reflexivity|].
  cbn [all_chars keep_ascii]. intros H. apply andb_prop in H as [Hc Hs].
  now rewrite Hc, (IH Hs).
Qed.

Lemma keep_ascii_length (s : string) :
  (String.length (keep_ascii s) <= String.length s)%nat.
Proof.
  induction s as [|c s IH]; [reflexivity|].
  cbn [keep_ascii]. destruct (is_ascii c); cbn [String.length]; lia.
Qed.

(** X9. What [filter_ascii_only] returns has only characters below 128 and
    is never longer than the text; filtering it again changes nothing; a text
    that has only such characters is returned as it is; and the filter of a
    concatenation is the concatenation of the filters. *)
Theorem filter_ascii_only_idempotent (str_of_float : float -> string) (text : cell) :
  all_chars is_ascii (filter_ascii_only str_of_float text) = true /\
  (String.length (filter_ascii_only str_of_float text)
   <= String.length (py_str str_of_float text))%nat /\
  filter_ascii_only str_of_float (Str (filter_ascii_only str_of_float text))
  = filter_ascii_only str_of_float text /\
  (all_chars is_ascii (py_str str_of_float text) = true <->
   filter_ascii_only str_of_float text = py_str str_of_float text) /\
  (forall a b : string,
      filter_ascii_only str_of_float (Str (a +:+ b))
      = filter_ascii_only str_of_float (Str a) +:+ filter_ascii_only str_of_float (Str b)).
Proof.
  unfold filter_ascii_only. cbn [py_str].
  split; [apply keep_ascii_all|]. split; [apply keep_ascii_length|].
  split; [apply keep_ascii_id, keep_ascii_all|].
  split; [|intros a b; apply keep_ascii_app].
  split; [apply keep_ascii_id|]. intros E. rewrite <- E. apply keep_ascii_all.
Qed.

(** X10. The time shown on a line is the part of the timestamp after its
    space, marker included; once filtered for the report the marker is gone,
    so that a morning and an afternoon timestamp with the same clock digits
    give the same text in the report. *)
Theorem report_time_drops_the_marker (str_of_float : float -> string)
    (date_part clock : string) :
  contains " " date_part = false ->
  contains " " clock = false ->
  format_time_part (date_part +:+ " " +:+ text_gozen +:+ clock) = text_gozen +:+ clock /\
  format_time_part (date_part +:+ " " +:+ text_gogo +:+ clock) = text_gogo +:+ clock /\
  filter_ascii_only str_of_float
    (Str (format_time_part (date_part +:+ " " +:+ text_gozen +:+ clock)))
  = filter_ascii_only str_of_float (Str clock) /\
  filter_ascii_only str_of_float
    (Str (format_time_part (date_part +:+ " " +:+ text_gogo +:+ clock)))
  = filter_ascii_only str_of_float (Str clock).
Proof.
  intros Hd Hc.
  assert (Hfmt : forall marker : string,
             contains " " marker = false ->
             format_time_part (date_part +:+ " " +:+ marker +:+ clock) = marker +:+ clock).
  { intros marker Hm. unfold format_time_part, split.
    change (date_part +:+ " " +:+ marker +:+ clock)
      with (date_part +:+ String " " (marker +:+ clock)).
    rewrite (split_char_joined " " date_part (marker +:+ clock) EmptyString Hd).
    rewrite split_without_separator; [reflexivity|].
    change (String " " EmptyString) with " "%string in *.
    pose proof (contains_char_app " " marker clock) as E.
    change (String " " EmptyString) with " "%string in E.
    now rewrite E, Hm, Hc. }
  rewrite !Hfmt by reflexivity.
  unfold filter_ascii_only. cbn [py_str]. rewrite !keep_ascii_app.
  repeat split; reflexivity.
Qed.

Lemma report_time_drops_the_marker_example :
  format_time_part ("2025-03-02" +:+ " " +:+ text_gozen +:+ "6:30:00")
  = text_gozen +:+ "6:30:00" /\
  format_time_part ("2025-03-02" +:+ " " +:+ text_gogo +:+ "6:30:00")
  = text_gogo +:+ "6:30:00" /\
  filter_ascii_only (fun _ => EmptyString)
    (Str (format_time_part ("2025-03-02" +:+ " " +:+ text_gozen +:+ "6:30:00")))
  = filter_ascii_only (fun _ => EmptyString) (Str "6:30:00") /\
  filter_ascii_only (fun _ => EmptyString)
    (Str (format_time_part ("2025-03-02" +:+ " " +:+ text_gogo +:+ "6:30:00")))
  = filter_ascii_only (fun _ => EmptyString) (Str "6:30:00").
Proof.
  apply (report_time_drops_the_marker (fun _ => EmptyString) "2025-03-02" "6:30:00");
    vm_compute; reflexivity.
Defined.

(** ** The readings of a line *)

Lemma dict_set_labels (k k' : string) (v : float) (d : readings) :
  In k' (labels (dict_set k v d)) <-> k' = k \/ In k' (labels d).
Proof.
  unfold labels. induction d as [|[k0 v0] d IH]; cbn [dict_set map In fst].
  - intuition.
  - destruct (String.eqb_spec k0 k) as [->|N]; cbn [map In fst]; [intuition|].
    rewrite IH. intuition.
Qed.

Lemma dict_set_nodup (k : string) (v : float) (d : readings) :
  List.NoDup (labels d) -> List.NoDup (labels (dict_set k v d)).
Proof.
  unfold labels. induction d as [|[k0 v0] d IH]; cbn [dict_set map fst]; intros H.
  - constructor; [intros [] | constructor].
  - apply List.NoDup_cons_iff in H as [Hin Hd].
    destruct (String.eqb_spec k0 k) as [->|N]; cbn [map fst].
    + apply List.NoDup_cons_iff. now split.
    + apply List.NoDup_cons_iff. split; [|now apply IH].
      intros Hk. apply (dict_set_labels k k0 v d) in Hk as [->|Hk]; [now apply N | now apply Hin].
Qed.

(** A cell either leaves the readings as they are, or sets the reading of
    the label at its position. *)
Lemma store_cell_cases (time_slots : list string) (d : readings) (j : nat) (value : string) :
  store_cell time_slots d j value = d \/
  exists (slot : string) (x : float),
    time_slots !! j = Some slot /\ store_cell time_slots d j value = dict_set slot x d.
Proof.
  unfold store_cell.
  destruct (time_slots !! j) as [slot|]; [|now left].
  destruct (truthy (strip value)); [|now left].
  destruct (contains range_separator value).
  - destruct (split range_separator value) as [|p0 [|p1 [|? ?]]]; try now left.
    destruct (py_float p0) as [a|]; [|now left].
    destruct (py_float p1) as [b|]; [|now left].
    right. now eexists _, _.
  - destruct (py_float value) as [x|]; [|now left].
    right. now eexists _, _.
Qed.

Lemma fold_cells_labels (time_slots : list string) (cells : list (nat * string))
    (acc : readings) :
  List.NoDup (labels acc) ->
  (forall k, In k (labels acc) -> In k time_slots) ->
  List.NoDup
    (labels (fold_left (fun date_hrv jv => store_cell time_slots date_hrv (fst jv) (snd jv))
               cells acc)) /\
  (forall k,
      In k (labels (fold_left (fun date_hrv jv => store_cell time_slots date_hrv (fst jv) (snd jv))
                      cells acc)) ->
      In k time_slots).
Proof.
  revert acc. induction cells as [|[j v] cells IH]; intros acc Hnd Hin; [now split|].
  cbn [fold_left fst snd]. apply IH.
  - destruct (store_cell_cases time_slots acc j v) as [->|(slot & x & _ & ->)];
      [exact Hnd | now apply dict_set_nodup].
  - intros k.
    destruct (store_cell_cases time_slots acc j v) as [->|(slot & x & Hslot & ->)];
      [apply Hin|].
    intros Hk. apply dict_set_labels in Hk as [->|Hk]; [|now apply Hin].
    apply list_elem_of_In. eapply list_elem_of_lookup_2. exact Hslot.
Qed.

(** X11. The readings of a line hold each label at most once, and every
    label they hold is a label of the header. *)
Theorem readings_labels_from_header (time_slots values : list string) :
  List.NoDup (labels (parse_values time_slots values)) /\
  (forall k : string, In k (labels (parse_values time_slots values)) -> In k time_slots).
Proof.
  unfold parse_values. apply fold_cells_labels; [constructor | intros k []].
Qed.

Lemma enumerate_from_app {A : Type} (k : nat) (a b : list A) :
  enumerate_from k (a ++ b) = enumerate_from k a ++ enumerate_from (k + length a) b.
Proof.
  revert k. induction a as [|x a IH]; intros k.
  - cbn. now rewrite Nat.add_0_r.
  - cbn [app enumerate_from length]. rewrite IH. do 3 f_equal. lia.
Qed.

Lemma fold_cells_beyond_header (time_slots : list string) (cells : list string) (k : nat)
    (acc : readings) :
  (length time_slots <= k)%nat ->
  fold_left (fun date_hrv jv => store_cell time_slots date_hrv (fst jv) (snd jv))
    (enumerate_from k cells) acc = acc.
Proof.
  revert k acc. induction cells as [|v cells IH]; intros k acc Hk; [reflexivity|].
  cbn [enumerate_from fold_left fst snd].
  assert (E : store_cell time_slots acc k v = acc).
  { unfold store_cell. now rewrite (lookup_ge_None_2 time_slots k Hk). }
  rewrite E. apply IH. lia.
Qed.

(** X12. The cells of a line beyond those the header has a label for are
    not read: the line cut after them gives the same readings. *)
Theorem cells_beyond_header_ignored (time_slots values : list string) :
  parse_values time_slots values
  = parse_values time_slots (take (S (length time_slots)) values).
Proof.
  unfold parse_values, enumerate.
  destruct values as [|date cells]; [reflexivity|].
  cbn [tail take]. rewrite <- (take_drop (length time_slots) cells) at 1.
  rewrite enumerate_from_app, fold_left_app.
  destruct (Nat.le_gt_cases (length time_slots) (length cells)) as [Hle|Hgt].
  - apply fold_cells_beyond_header. rewrite length_take. lia.
  - rewrite (drop_ge cells) by lia. reflexivity.
Qed.

(** ** The data lines of the HRV file *)

Lemma parse_line_unfold (time_slots : list string) (hrv_data : gmap string readings)
    (raw : string) :
  parse_line time_slots hrv_data raw
  = if not_blank raw
    then <[line_date raw := parse_values time_slots (line_values raw)]> hrv_data
    else hrv_data.
Proof.
  unfold parse_line, not_blank, line_date, line_values.
  now destruct (truthy (strip raw)).
Qed.

Lemma parse_hrv_file_unfold (lines : list string) (hrv_data : gmap string readings) :
  parse_hrv_file lines = Ok hrv_data ->
  hrv_data
  = fold_left
      (parse_line (map strip (tail (split "," (strip (nth 1 lines EmptyString))))))
      (drop 2 lines) ∅.
Proof.
  unfold parse_hrv_file. destruct (length lines <? 2)%nat; [discriminate|].
  now intros [= <-].
Qed.

Lemma fold_lines_other_dates (time_slots : list string) (date : string)
    (lines : list string) (hrv_data : gmap string readings) :
  Forall (fun raw => ~ line_of_date date raw) lines ->
  fold_left (parse_line time_slots) lines hrv_data !! date = hrv_data !! date.
Proof.
  revert hrv_data. induction lines as [|raw lines IH]; intros hrv_data H; [reflexivity|].
  apply Forall_cons in H as [Hraw Hlines]. cbn [fold_left].
  rewrite (IH _ Hlines), parse_line_unfold.
  destruct (not_blank raw) eqn:E; [|reflexivity].
  apply lookup_insert_ne. intros Hd. apply Hraw. now split.
Qed.

(** X13. Under a date the HRV data hold the readings of the last line of
    that date: a line that is not blank gives the readings of its date, when
    no later line is of the same date, whatever earlier lines held. *)
Theorem last_line_of_a_date_wins (lines before after : list string) (raw : string)
    (hrv_data : gmap string readings) :
  parse_hrv_file lines = Ok hrv_data ->
  drop 2 lines = before ++ raw :: after ->
  not_blank raw = true ->
  Forall (fun later => ~ line_of_date (line_date raw) later) after ->
  hrv_data !! line_date raw
  = Some (parse_values (map strip (tail (split "," (strip (nth 1 lines EmptyString)))))
            (line_values raw)).
Proof.
  intros Hfile Hbody Hraw Hafter.
  rewrite (parse_hrv_file_unfold _ _ Hfile), Hbody, fold_left_app.
  cbn [fold_left]. rewrite (fold_lines_other_dates _ _ _ _ Hafter).
  rewrite parse_line_unfold, Hraw. apply lookup_insert_eq.
Qed.

Lemma last_line_of_a_date_wins_example :
  Examples.hrv_data_repeated !! "2025/03/02"
  = Some [("6 AM - 7 AM", of_decimal false 50 0)].
Proof.
  exact (last_line_of_a_date_wins Examples.hrv_lines_repeated
           ["2025/03/02,30.0,35.0"; "   "; "2025/03/03,41,42"] [] "2025/03/02,50,"
           Examples.hrv_data_repeated
           ltac:(vm_compute; reflexivity) ltac:(reflexivity) ltac:(reflexivity)
           ltac:(constructor)).
Defined.

(** X14. A line of white space alone is skipped: the file without it gives
    the same data. *)
Theorem blank_lines_skipped (title header raw : string) (before after : list string) :
  not_blank raw = false ->
  parse_hrv_file (title :: header :: before ++ raw :: after)
  = parse_hrv_file (title :: header :: before ++ after).
Proof.
  intros Hraw. unfold parse_hrv_file.
  cbn [length Nat.ltb Nat.leb nth tail drop]. f_equal.
  rewrite !drop_0, !fold_left_app. cbn [fold_left].
  now rewrite (parse_line_unfold _ _ raw), Hraw.
Qed.

Lemma blank_lines_skipped_example :
  parse_hrv_file
    ("Heart Rate Variability" :: "Date,6 AM - 7 AM,9 AM - 10 AM"
     :: ["2025/03/02,30.0,35.0"] ++ "   " :: ["2025/03/03,41,42"; "2025/03/02,50,"])
  = parse_hrv_file
      ("Heart Rate Variability" :: "Date,6 AM - 7 AM,9 AM - 10 AM"
       :: ["2025/03/02,30.0,35.0"] ++ ["2025/03/03,41,42"; "2025/03/02,50,"]).
Proof.
  apply (blank_lines_skipped "Heart Rate Variability" "Date,6 AM - 7 AM,9 AM - 10 AM"
           "   " ["2025/03/02,30.0,35.0"] ["2025/03/03,41,42"; "2025/03/02,50,"]).
  reflexivity.
Defined.

Lemma fold_lines_dates (time_slots : list string) (date : string) (lines : list string)
    (hrv_data : gmap string readings) :
  is_Some (fold_left (parse_line time_slots) lines hrv_data !! date)
  <-> is_Some (hrv_data !! date) \/ Exists (line_of_date date) lines.
Proof.
  revert hrv_data. induction lines as [|raw lines IH]; intros hrv_data.
  - cbn [fold_left]. rewrite Exists_nil. tauto.
  - cbn [fold_left]. rewrite IH, Exists_cons, parse_line_unfold.
    unfold line_of_date at 2.
    destruct (not_blank raw) eqn:E.
    + rewrite lookup_insert_is_Some. split.
      * intros [[Hd|[_ Hs]]|Hex]; [right; left; now split | now left | right; now right].
      * intros [Hs|[[_ Hd]|Hex]]; [|left; now left | now right].
        destruct (decide (line_date raw = date)) as [Hd|Hd];
          [left; now left | left; right; now split].
    + split; [intros [Hs|Hex]; [now left | right; now right]|].
      intros [Hs|[[Hb _]|Hex]]; [now left | discriminate | now right].
Qed.

(** X15. The dates of the HRV data are those of the data lines that are not
    blank: a date is held exactly when some line from the third on, not
    blank, has it as its first cell. *)
Theorem dates_are_those_of_the_lines (lines : list string)
    (hrv_data : gmap string readings) (date : string) :
  parse_hrv_file lines = Ok hrv_data ->
  (is_Some (hrv_data !! date) <-> Exists (line_of_date date) (drop 2 lines)).
Proof.
  intros Hfile. rewrite (parse_hrv_file_unfold _ _ Hfile), fold_lines_dates.
  rewrite lookup_empty. split; [intros [[x Hx]|H]; [discriminate | exact H] | now right].
Qed.

Lemma dates_are_those_of_the_lines_example :
  is_Some (Examples.hrv_data_repeated !! "2025/03/03")
  <-> Exists (line_of_date "2025/03/03") (drop 2 Examples.hrv_lines_repeated).
Proof.
  apply (dates_are_those_of_the_lines Examples.hrv_lines_repeated
           Examples.hrv_data_repeated "2025/03/03").
  vm_compute. reflexivity.
Defined.

(** ** A data line that opens with the date of a timestamp *)

Lemma drop_while_app_stop (p : ascii -> bool) (x y : string) (c : ascii) :
  p c = false -> drop_while p (x +:+ String c y) = drop_while p x +:+ String c y.
Proof.
  intros Hc. induction x as [|a x IH].
  - rewrite !append_empty_l. cbn [drop_while]. now rewrite Hc.
  - rewrite append_cons. cbn [drop_while]. destruct (p a); [exact IH | reflexivity].
Qed.

Lemma reverse_cons (c : ascii) (s : string) :
  reverse (String c s) = reverse s +:+ String c EmptyString.
Proof.
  change (String c s) with (String c EmptyString +:+ s). now rewrite reverse_append.
Qed.

Lemma rstrip_after (a b : string) (c : ascii) :
  isspace c = false -> rstrip (a +:+ String c b) = a +:+ String c (rstrip b).
Proof.
  intros Hc. unfold rstrip.
  rewrite reverse_append, reverse_cons, append_cons_r.
  rewrite (drop_while_app_stop _ _ _ _ Hc).
  rewrite reverse_append, reverse_cons, reverse_involutive.
  now rewrite append_cons_r.
Qed.

Lemma drop_while_none (p : ascii -> bool) (s : string) :
  all_chars (fun c => negb (p c)) s = true -> drop_while p s = s.
Proof.
  destruct s as [|c s]; [reflexivity|]. cbn [all_chars drop_while].
  intros H. apply andb_prop in H as [Hc _]. now destruct (p c).
Qed.

Lemma strip_plain (s : string) : all_chars not_space s = true -> strip s = s.
Proof.
  intros H. unfold strip, lstrip, rstrip.
  rewrite (drop_while_none isspace s H).
  rewrite (drop_while_none isspace (reverse s)) by now rewrite all_chars_reverse.
  apply reverse_involutive.
Qed.

Lemma remove_char_app (c : ascii) (a b : string) :
  remove_char c (a +:+ b) = remove_char c a +:+ remove_char c b.
Proof.
  induction a as [|x a IH]; [reflexivity|].
  rewrite append_cons. cbn [remove_char]. destruct (Ascii.eqb c x); [exact IH|].
  now rewrite append_cons, IH.
Qed.

Lemma remove_char_absent (c : ascii) (s : string) :
  all_chars (fun x => negb (Ascii.eqb x c)) s = true -> remove_char c s = s.
Proof.
  induction s as [|x s IH]; [reflexivity|]. cbn [all_chars remove_char].
  intros H. apply andb_prop in H as [Hx Hs].
  rewrite Ascii.eqb_sym. apply negb_true_iff in Hx. now rewrite Hx, (IH Hs).
Qed.

Lemma contains_char_absent (c : ascii) (s : string) :
  all_chars (fun x => negb (Ascii.eqb x c)) s = true ->
  contains (String c EmptyString) s = false.
Proof.
  induction s as [|x s IH]; [reflexivity|]. cbn [all_chars].
  intros H. apply andb_prop in H as [Hx Hs]. rewrite contains_char_cons, (IH Hs).
  rewrite Ascii.eqb_sym. apply negb_true_iff in Hx. now rewrite Hx.
Qed.

(** A line that opens with a date free of white space, commas and quotes,
    then a comma: the line is not blank and its date is that date. *)
Lemma line_with_key (key rest : string) :
  truthy key = true ->
  all_chars key_char key = true ->
  strip (key +:+ "," +:+ rest) = key +:+ "," +:+ rstrip rest /\
  line_values (key +:+ "," +:+ rest)
  = key :: split "," (remove_char double_quote (rstrip rest)) /\
  line_date (key +:+ "," +:+ rest) = key.
Proof.
  intros Hne Hkey.
  assert (Hsp : all_chars not_space key = true).
  { revert Hkey. apply all_chars_impl. intros c Hc. unfold key_char in Hc.
    apply andb_prop in Hc as [Hc _]. apply andb_prop in Hc as [Hc _]. exact Hc. }
  assert (Hco : all_chars (fun x => negb (Ascii.eqb x ",")) key = true).
  { revert Hkey. apply all_chars_impl. intros c Hc. unfold key_char in Hc.
    apply andb_prop in Hc as [Hc _]. apply andb_prop in Hc as [_ Hc]. exact Hc. }
  assert (Hqu : all_chars (fun x => negb (Ascii.eqb x double_quote)) key = true).
  { revert Hkey. apply all_chars_impl. intros c Hc. unfold key_char in Hc.
    apply andb_prop in Hc as [_ Hc]. exact Hc. }
  assert (Hstrip : strip (key +:+ "," +:+ rest) = key +:+ "," +:+ rstrip rest).
  { unfold strip, lstrip.
    change (key +:+ "," +:+ rest) with (key +:+ String "," rest).
    assert (Hl : drop_while isspace (key +:+ String "," rest) = key +:+ String "," rest).
    { destruct key as [|k key]; [discriminate|].
      rewrite append_cons. cbn [drop_while]. cbn [all_chars] in Hsp.
      apply andb_prop in Hsp as [Hk _]. unfold not_space in Hk.
      now destruct (isspace k). }
    rewrite Hl. now apply rstrip_after. }
  assert (Hvalues : line_values (key +:+ "," +:+ rest)
                    = key :: split "," (remove_char double_quote (rstrip rest))).
  { unfold line_values. rewrite Hstrip.
    change (key +:+ "," +:+ rstrip rest) with (key +:+ String "," (rstrip rest)).
    rewrite remove_char_app, (remove_char_absent _ _ Hqu).
    change (remove_char double_quote (String "," (rstrip rest)))
      with (String "," (remove_char double_quote (rstrip rest))).
    unfold split.
    change ","%string with (String "," EmptyString).
    rewrite (split_char_joined "," key _ EmptyString (contains_char_absent _ _ Hco)).
    reflexivity. }
  split; [exact Hstrip|]. split; [exact Hvalues|].
  unfold line_date. rewrite Hvalues. cbn [nth]. now apply strip_plain.
Qed.

Lemma digit_char_isdigit (n : Z) : isdigit (digit_char n) = true.
Proof.
  unfold isdigit, code, digit_char.
  pose proof (Z.mod_pos_bound n 10 ltac:(lia)).
  rewrite nat_ascii_embedding by lia. rewrite Z2Nat.id by lia.
  apply andb_true_intro. split; apply Z.leb_le; lia.
Qed.

Lemma digit_is_key_char (c : ascii) : isdigit c = true -> key_char c = true.
Proof. each_char c. Qed.

Lemma strftime_ymd_key (d : datetime) :
  truthy (strftime_ymd d) = true /\ all_chars key_char (strftime_ymd d) = true.
Proof.
  unfold strftime_ymd. split.
  - destruct (year_text (year d)); reflexivity.
  - rewrite all_chars_app.
    rewrite (all_chars_impl isdigit key_char _ digit_is_key_char (year_text_digits _)).
    unfold two_digits. rewrite !append_cons, !append_empty_l. cbn [all_chars andb].
    rewrite !(digit_is_key_char _ (digit_char_isdigit _)). reflexivity.
Qed.

(** X16. A data line that opens with the date of a timestamp as
    [strftime] writes it, then a comma, is stored under the key with which
    the readings of a session waking at that timestamp are looked up,
    whatever follows the comma. *)
Theorem date_line_stored_under_date_key (time_slots : list string)
    (hrv_data : gmap string readings) (d : datetime) (rest : string) :
  not_blank (strftime_ymd d +:+ "," +:+ rest) = true /\
  line_date (strftime_ymd d +:+ "," +:+ rest) = strftime_ymd d /\
  parse_line time_slots hrv_data (strftime_ymd d +:+ "," +:+ rest) !! strftime_ymd d
  = Some (parse_values time_slots
            (strftime_ymd d :: split "," (remove_char double_quote (rstrip rest)))).
Proof.
  destruct (strftime_ymd_key d) as [Hne Hkey].
  destruct (line_with_key _ rest Hne Hkey) as (Hstrip & Hvalues & Hdate).
  assert (Hnb : not_blank (strftime_ymd d +:+ "," +:+ rest) = true).
  { unfold not_blank. rewrite Hstrip.
    destruct (strftime_ymd d); [discriminate Hne | reflexivity]. }
  split; [exact Hnb|]. split; [exact Hdate|].
  rewrite parse_line_unfold, Hnb, Hdate, Hvalues. apply lookup_insert_eq.
Qed.

(** ** Columns the sleep file does not have *)

Lemma process_record_fields (hrv_data : gmap string readings)
    (sleep_data : list sleep_record) (i : nat) (r : sleep_record) (row : result_row) :
  process_record hrv_data sleep_data i r = Ok (Some row) ->
  row_Date row = Date r /\
  row_Avg_Breathing_Rate row = default not_available (Avg_Breathing_Rate r) /\
  row_Sleep_Duration row = default not_available (Sleep_Duration r).
Proof.
  unfold process_record.
  destruct (Bedtime_dt r); [|discriminate].
  destruct (Wakeup_dt r) as [[w|]|]; try discriminate.
  destruct (format_time_part_of (Bedtime r)); cbn [bind]; [|discriminate].
  destruct (format_time_part_of (Wakeup r)); cbn [bind]; [|discriminate].
  intros [= <-]. repeat split.
Qed.

Lemma read_optional_columns (df : csv_frame) (sleep_data : list sleep_record) :
  read_autosleep_data df = Ok sleep_data ->
  (mem col_breathing (columns df) = false ->
   Forall (fun r => Avg_Breathing_Rate r = None) sleep_data) /\
  (mem col_sleep (columns df) = false ->
   Forall (fun r => Sleep_Duration r = None) sleep_data).
Proof.
  unfold read_autosleep_data.
  match goal with |- context [if ?c then Raise ValueError else _] => destruct c end;
    [discriminate|].
  destruct (series_apply get_date_string _) as [date|]; cbn [bind]; [|discriminate].
  intros [= <-]. split; intros Hmem; apply List.Forall_forall; intros r Hin;
    apply list_elem_of_In, list_elem_of_lookup_1 in Hin as [i Hi];
    apply lookup_frame_lines in Hi as (row & b & w & d & _ & _ & _ & _ & ->);
    cbn; unfold required_columns; cbn [List.filter]; rewrite Hmem;
    destruct (mem col_bedtime (columns df)), (mem col_wakeup (columns df));
    try destruct (mem col_breathing (columns df));
    try destruct (mem col_sleep (columns df)); reflexivity.
Qed.

(** X17. When the sleep file has no column of the breathing rate, every
    line of the result has N/A there, and likewise for the sleep duration. *)
Theorem missing_column_not_available (sleep_file : csv_frame) (hrv_file : list string)
    (result_df : list result_row) (sleep_data : list sleep_record)
    (hrv_data : gmap string readings) :
  process_sleep_hrv_data sleep_file hrv_file = Ok (result_df, sleep_data, hrv_data) ->
  (mem col_breathing (columns sleep_file) = false ->
   Forall (fun row => row_Avg_Breathing_Rate row = not_available) result_df) /\
  (mem col_sleep (columns sleep_file) = false ->
   Forall (fun row => row_Sleep_Duration row = not_available) result_df).
Proof.
  intros Hrun.
  destruct (process_sleep_hrv_data_unfold _ _ _ _ _ Hrun) as (Er & _ & -> & _).
  destruct (read_optional_columns _ _ Er) as [Hb Hs].
  assert (Hlines : forall row,
             In row (omap (line_of hrv_data sleep_data) (enumerate sleep_data)) ->
             exists i r, In r sleep_data /\
                         process_record hrv_data sleep_data i r = Ok (Some row)).
  { intros row Hrow.
    apply list_elem_of_In, list_elem_of_omap in Hrow as ([i r] & Hir & Hline).
    exists i, r. split.
    - apply list_elem_of_In, in_enumerate in Hir.
      apply list_elem_of_In. eapply list_elem_of_lookup_2. exact Hir.
    - unfold line_of in Hline. cbn [fst snd] in Hline.
      destruct (process_record hrv_data sleep_data i r) as [[row'|]|]; try discriminate.
      now injection Hline as ->. }
  split; intros Hmem; apply List.Forall_forall; intros row Hrow;
    destruct (Hlines row Hrow) as (i & r & Hr & Hrec);
    destruct (process_record_fields _ _ _ _ _ Hrec) as (_ & Ha & Hd).
  - specialize (Hb Hmem). rewrite List.Forall_forall in Hb. now rewrite Ha, (Hb r Hr).
  - specialize (Hs Hmem). rewrite List.Forall_forall in Hs. now rewrite Hd, (Hs r Hr).
Qed.

Lemma missing_column_not_available_example :
  Forall (fun row => row_Avg_Breathing_Rate row = not_available)
    (fst (fst Examples.run_times_only)).
Proof.
  apply (proj1 (missing_column_not_available Examples.frame_times_only Examples.hrv_lines
                  (fst (fst Examples.run_times_only)) (snd (fst Examples.run_times_only))
                  (snd Examples.run_times_only) ltac:(vm_compute; reflexivity))).
  reflexivity.
Defined.


(** ** The report *)

Lemma table_loop (filtered_data table_data : list (list string)) (n : nat) :
  (n <= length filtered_data)%nat ->
  fold_left (table_step filtered_data) (seq 0 n) table_data
  = table_data ++ take n filtered_data.
Proof.
  induction n as [|n IH]; intros Hn.
  - cbn. now rewrite app_nil_r.
  - rewrite seq_S, fold_left_app. cbn [fold_left Nat.add]. rewrite IH by lia.
    unfold table_step.
    destruct (lookup_lt_is_Some_2 filtered_data n ltac:(lia)) as [x Hx].
    rewrite (nth_lookup_Some _ _ _ _ Hx), (take_S_r _ _ _ Hx).
    now rewrite <- app_assoc.
Qed.

Lemma take_min_length {A : Type} (l : list A) (n : nat) :
  take (Nat.min (length l) n) l = take n l.
Proof.
  destruct (Nat.le_gt_cases (length l) n) as [Hle|Hgt].
  - rewrite Nat.min_l by exact Hle. now rewrite !take_ge by lia.
  - rewrite Nat.min_r by lia. reflexivity.
Qed.

(** The elements of the report of a frame that is not empty. *)
Lemma report_of_frame (str_of_float : float -> string) (df : csv_frame) :
  frame_empty df = false ->
  generate_pdf_report str_of_float (Some df)
  = [Paragraph "Sleep and HRV Analysis Report" "Title"; Spacer 1 20;
     Paragraph "Analysis Results" "Heading2"; Spacer 1 10;
     Table (columns df
            :: map (map (filter_ascii_only str_of_float)) (take MAX_ROWS (rows df)))]
    ++ (if (MAX_ROWS <? length (rows df))%nat
        then [Spacer 1 10;
              Paragraph (not_shown_info MAX_ROWS (length (rows df))) "Italic"]
        else []).
Proof.
  intros He. unfold generate_pdf_report. rewrite He.
  rewrite table_loop by apply Nat.le_min_l.
  rewrite take_min_length, List.firstn_map, List.length_map.
  cbn [app]. do 5 f_equal.
  destruct (Nat.ltb_spec MAX_ROWS (length (rows df))) as [Hlt|Hge]; [|reflexivity].
  now rewrite Nat.min_r by lia.
Qed.

(** X18. The report has a table exactly when the frame is given and not
    empty.  The table is the line of the column names followed by the first
    thirty lines of the frame, in their order and cell by cell filtered: it
    has at most thirty-one lines, and below the first its cells have only
    characters under 128. *)
Theorem report_table_rows (str_of_float : float -> string)
    (result_data : option csv_frame) (data : list (list string)) :
  (In (Table data) (generate_pdf_report str_of_float result_data) <->
   exists df : csv_frame,
     result_data = Some df /\ frame_empty df = false /\
     data = columns df
            :: map (map (filter_ascii_only str_of_float)) (take MAX_ROWS (rows df))) /\
  (In (Table data) (generate_pdf_report str_of_float result_data) ->
   (length data <= 31)%nat /\
   Forall (Forall (fun text => all_chars is_ascii text = true)) (tail data)).
Proof.
  assert (Hiff : In (Table data) (generate_pdf_report str_of_float result_data) <->
            exists df : csv_frame,
              result_data = Some df /\ frame_empty df = false /\
              data = columns df
                     :: map (map (filter_ascii_only str_of_float))
                          (take MAX_ROWS (rows df))).
  { destruct result_data as [df|].
    - destruct (frame_empty df) eqn:He.
      + unfold generate_pdf_report. rewrite He. split.
        * cbn [In]. intros [H|[H|[]]]; discriminate.
        * intros (df' & [= <-] & He' & _). congruence.
      + rewrite (report_of_frame _ _ He), in_app_iff. split.
        * intros [H|H].
          -- cbn [In] in H.
             destruct H as [H|[H|[H|[H|[H|[]]]]]]; try discriminate.
             injection H as <-. now exists df.
          -- destruct (MAX_ROWS <? length (rows df))%nat; cbn [In] in H;
               [destruct H as [H|[H|[]]]; discriminate | destruct H].
        * intros (df' & [= <-] & _ & ->). left. cbn [In]. tauto.
    - split.
      + cbn [generate_pdf_report In]. intros [H|[H|[]]]; discriminate.
      + intros (df & H & _). discriminate. }
  split; [exact Hiff|].
  intros H. apply Hiff in H as (df & _ & _ & ->). split.
  - cbn [length]. rewrite List.length_map, length_take. unfold MAX_ROWS. lia.
  - cbn [tail]. apply List.Forall_map, List.Forall_forall. intros row _.
    apply List.Forall_map, List.Forall_forall. intros c _.
    unfold filter_ascii_only. apply keep_ascii_all.
Qed.

(** X19. The report ends with a note exactly when the frame has columns and
    more than thirty lines; the note gives thirty as the lines shown, the
    number of lines of the frame, and their difference as the lines left
    out. *)
Theorem report_note_counts (str_of_float : float -> string)
    (result_data : option csv_frame) (text : string) :
  In (Paragraph text "Italic") (generate_pdf_report str_of_float result_data) <->
  exists df : csv_frame,
    result_data = Some df /\ columns df <> [] /\
    (MAX_ROWS < length (rows df))%nat /\
    text = "Note: Showing " +:+ str_of_nat 30 +:+ " of " +:+ str_of_nat (length (rows df))
           +:+ " rows. " +:+ str_of_nat (length (rows df) - 30)
           +:+ " rows are not displayed.".
Proof.
  destruct result_data as [df|].
  - destruct (frame_empty df) eqn:He.
    + unfold generate_pdf_report. rewrite He. split.
      * cbn [In]. intros [H|[H|[]]]; discriminate.
      * intros (df' & [= <-] & Hc & Hr & _). unfold frame_empty in He.
        apply orb_true_iff in He as [He|He]; apply Nat.eqb_eq in He.
        -- unfold MAX_ROWS in Hr. lia.
        -- destruct (columns df); [now destruct Hc | discriminate].
    + rewrite (report_of_frame _ _ He), in_app_iff.
      unfold frame_empty in He. apply orb_false_iff in He as [_ Hcol].
      apply Nat.eqb_neq in Hcol.
      assert (Hc : columns df <> []) by (intros E; rewrite E in Hcol; now apply Hcol).
      split.
      * intros [H|H].
        -- cbn [In] in H. destruct H as [H|[H|[H|[H|[H|[]]]]]]; discriminate.
        -- destruct (Nat.ltb_spec MAX_ROWS (length (rows df))) as [Hlt|Hge];
             cbn [In] in H; [|destruct H].
           destruct H as [H|[H|[]]]; [discriminate|].
           injection H as <-. exists df. repeat split; assumption.
      * intros (df' & [= <-] & _ & Hr & ->). right.
        destruct (Nat.ltb_spec MAX_ROWS (length (rows df))) as [Hlt|Hge]; [|lia].
        cbn [In]. right. left. reflexivity.
  - split.
    + cbn [generate_pdf_report In]. intros [H|[H|[]]]; discriminate.
    + intros (df & H & _). discriminate.
Qed.

(** ** Labels and timestamps written out and read back *)

Lemma hour_cases (h : Z) :
  0 <= h <= 23 ->
  h = 0 \/ h = 1 \/ h = 2 \/ h = 3 \/ h = 4 \/ h = 5 \/ h = 6 \/ h = 7 \/ h = 8 \/
  h = 9 \/ h = 10 \/ h = 11 \/ h = 12 \/ h = 13 \/ h = 14 \/ h = 15 \/ h = 16 \/
  h = 17 \/ h = 18 \/ h = 19 \/ h = 20 \/ h = 21 \/ h = 22 \/ h = 23.
Proof. lia. Qed.

(** X20. Every hour of the day has its label: the label of the bucket that
    starts at hour [h], whatever follows it, converts to [h]; noon is 12 PM
    and midnight 12 AM. *)
Theorem bucket_label_round_trip (h : Z) (rest : string) :
  0 <= h <= 23 ->
  convert_time_slot_to_hour (bucket_label h +:+ rest) = h.
Proof.
  intros Hh.
  assert (E : convert_time_slot_to_hour (bucket_label h) = h).
  { pose proof (hour_cases h Hh) as Hc.
    repeat (destruct Hc as [Hc|Hc]; [subst h; vm_compute; reflexivity|]).
    subst h. vm_compute. reflexivity. }
  unfold convert_time_slot_to_hour in *.
  destruct (match_time_slot (bucket_label h)) as [r|] eqn:Em; [|lia].
  now rewrite (match_time_slot_app _ rest _ Em).
Qed.

Lemma bucket_label_round_trip_example :
  convert_time_slot_to_hour (bucket_label 12 +:+ " - 1 PM") = 12.
Proof. apply (bucket_label_round_trip 12 " - 1 PM"). lia. Defined.

Lemma digit_value_digit_char (n : Z) : digit_value (digit_char n) = n mod 10.
Proof.
  unfold digit_value, code, digit_char.
  pose proof (Z.mod_pos_bound n 10 ltac:(lia)).
  rewrite nat_ascii_embedding by lia. lia.
Qed.

Lemma two_digits_digits (n : Z) : all_chars isdigit (two_digits n) = true.
Proof. unfold two_digits. cbn [all_chars]. now rewrite !digit_char_isdigit. Qed.

Lemma four_digits_digits (n : Z) : all_chars isdigit (four_digits n) = true.
Proof.
  unfold four_digits. cbn [all_chars]. now rewrite !digit_char_isdigit, two_digits_digits.
Qed.

Lemma decimal_digits (n : Z) : all_chars isdigit (decimal n) = true.
Proof.
  unfold decimal. destruct (n <? 10); [|apply two_digits_digits].
  cbn [all_chars]. now rewrite digit_char_isdigit.
Qed.

Lemma two_digits_value (n : Z) : 0 <= n <= 99 -> digits_value 0 (two_digits n) = n.
Proof.
  intros Hn. unfold two_digits. cbn [digits_value]. rewrite !digit_value_digit_char.
  Z.div_mod_to_equations. lia.
Qed.

Lemma four_digits_value (n : Z) : 0 <= n <= 9999 -> digits_value 0 (four_digits n) = n.
Proof.
  intros Hn. unfold four_digits, two_digits. cbn [digits_value].
  rewrite !digit_value_digit_char. Z.div_mod_to_equations. lia.
Qed.

Lemma decimal_value (n : Z) : 0 <= n <= 99 -> digits_value 0 (decimal n) = n.
Proof.
  intros Hn. unfold decimal. destruct (Z.ltb_spec n 10); [|now apply two_digits_value].
  cbn [digits_value]. rewrite digit_value_digit_char. Z.div_mod_to_equations. lia.
Qed.

Lemma digitpart_go_digits (s : string) (after_digit : bool) :
  all_chars isdigit s = true -> truthy s = true \/ after_digit = true ->
  digitpart_go after_digit s = Some s.
Proof.
  revert after_digit. induction s as [|c s IH]; intros b Hs Hb.
  - destruct Hb as [Hb| ->]; [discriminate | reflexivity].
  - cbn [all_chars] in Hs. apply andb_prop in Hs as [Hc Hs].
    cbn [digitpart_go]. rewrite Hc, (IH true Hs) by now right. reflexivity.
Qed.

Lemma digit_is_not_sign (c : ascii) :
  isdigit c = true -> Ascii.eqb c "-" = false /\ Ascii.eqb c "+" = false.
Proof. each_char c. Qed.

Lemma py_int_digits (s : string) :
  all_chars isdigit s = true -> truthy s = true -> py_int s = Some (digits_value 0 s).
Proof.
  intros Hs Hne. unfold py_int.
  rewrite strip_plain
    by (revert Hs; apply all_chars_impl; intros c Hc; apply (digit_is_plain c Hc)).
  destruct s as [|c s]; [discriminate|].
  pose proof Hs as Hs'. cbn [all_chars] in Hs'. apply andb_prop in Hs' as [Hc _].
  destruct (digit_is_not_sign c Hc) as [Hm Hp].
  cbn [take_sign]. rewrite Hm, Hp. unfold digitpart.
  now rewrite (digitpart_go_digits _ false Hs) by now left.
Qed.

Lemma take_while_all (p : ascii -> bool) (s : string) :
  all_chars p s = true -> take_while p s = s.
Proof.
  induction s as [|c s IH]; [reflexivity|]. cbn [all_chars take_while].
  intros H. apply andb_prop in H as [Hc Hs]. now rewrite Hc, (IH Hs).
Qed.

Lemma digits_then_colon_run (ds r : string) :
  all_chars isdigit ds = true -> truthy ds = true ->
  digits_then_colon (ds +:+ String ":" r) = Some (ds, r).
Proof.
  intros Hds Hne. unfold digits_then_colon.
  rewrite (take_while_until isdigit ds r ":" Hds eq_refl),
    (drop_while_until isdigit ds r ":" Hds eq_refl).
  destruct ds; [discriminate | reflexivity].
Qed.

Lemma substring_all (s : string) : String.substring 0 (String.length s) s = s.
Proof. induction s as [|c s IH]; [reflexivity|]. cbn. now rewrite IH. Qed.

Lemma drop_prefix_app (p r : string) : drop_prefix (String.length p) (p +:+ r) = r.
Proof.
  unfold drop_prefix. induction p as [|c p IH].
  - rewrite append_empty_l. cbn [String.length]. rewrite Nat.sub_0_r. apply substring_all.
  - rewrite append_cons. cbn [String.length Nat.sub String.substring]. exact IH.
Qed.

Lemma match_time_part_text (h m s : Z) (afternoon : bool) :
  match_time_part
    ((if afternoon then text_gogo else text_gozen)
     +:+ decimal h +:+ ":" +:+ two_digits m +:+ ":" +:+ two_digits s)
  = Some (if afternoon then Gogo else Gozen,
          digits_value 0 (decimal h), digits_value 0 (two_digits m),
          digits_value 0 (two_digits s)).
Proof.
  assert (Hh : truthy (decimal h) = true) by (unfold decimal; now destruct (h <? 10)).
  unfold match_time_part.
  destruct afternoon.
  - rewrite (prefix_app text_gogo).
    assert (Hz : forall r, String.prefix text_gozen (text_gogo +:+ r) = false).
    { intros r. unfold text_gozen, text_gogo. rewrite !append_cons, !prefix_cons.
      reflexivity. }
    rewrite Hz, drop_prefix_app.
    change (decimal h +:+ ":" +:+ two_digits m +:+ ":" +:+ two_digits s)
      with (decimal h +:+ String ":" (two_digits m +:+ String ":" (two_digits s))).
    rewrite (digits_then_colon_run _ _ (decimal_digits h) Hh).
    rewrite (digits_then_colon_run _ _ (two_digits_digits m) eq_refl).
    rewrite (take_while_all _ _ (two_digits_digits s)). reflexivity.
  - rewrite (prefix_app text_gozen), drop_prefix_app.
    change (decimal h +:+ ":" +:+ two_digits m +:+ ":" +:+ two_digits s)
      with (decimal h +:+ String ":" (two_digits m +:+ String ":" (two_digits s))).
    rewrite (digits_then_colon_run _ _ (decimal_digits h) Hh).
    rewrite (digits_then_colon_run _ _ (two_digits_digits m) eq_refl).
    rewrite (take_while_all _ _ (two_digits_digits s)). reflexivity.
Qed.

Lemma digits_free (c : ascii) (s : string) :
  all_chars isdigit s = true -> isdigit c = false ->
  contains (String c EmptyString) s = false.
Proof.
  intros Hs Hc. induction s as [|x s IH]; [reflexivity|].
  cbn [all_chars] in Hs. apply andb_prop in Hs as [Hx Hs].
  rewrite contains_char_cons, (IH Hs), orb_false_r.
  apply Ascii.eqb_neq. intros ->. congruence.
Qed.

Lemma split_date_part (a b c : string) :
  all_chars isdigit a = true -> all_chars isdigit b = true -> all_chars isdigit c = true ->
  split "-" (a +:+ "-" +:+ b +:+ "-" +:+ c) = [a; b; c].
Proof.
  intros Ha Hb Hc. unfold split.
  change (a +:+ "-" +:+ b +:+ "-" +:+ c) with (a +:+ String "-" (b +:+ String "-" c)).
  change "-"%string with (String "-" EmptyString).
  rewrite (split_char_joined "-" a _ EmptyString (digits_free "-" a Ha eq_refl)).
  rewrite (split_char_joined "-" b _ EmptyString (digits_free "-" b Hb eq_refl)).
  now rewrite (split_without_separator _ c EmptyString (digits_free "-" c Hc eq_refl)).
Qed.

Lemma split_timestamp (date_part time_part : string) :
  contains " " date_part = false -> contains " " time_part = false ->
  split " " (date_part +:+ " " +:+ time_part) = [date_part; time_part].
Proof.
  intros Hd Ht. unfold split.
  change (date_part +:+ " " +:+ time_part) with (date_part +:+ String " " time_part).
  change " "%string with (String " " EmptyString) in *.
  rewrite (split_char_joined " " date_part _ EmptyString Hd).
  now rewrite (split_without_separator _ time_part EmptyString Ht).
Qed.

Lemma hour12_back (h : Z) :
  0 <= h <= 23 ->
  1 <= hour12 h <= 12 /\
  (if h <? 12
   then (if hour12 h =? 12 then 0 else hour12 h)
   else (if negb (hour12 h =? 12) then hour12 h + 12 else hour12 h)) = h.
Proof.
  intros Hh. pose proof (hour_cases h Hh) as Hc.
  repeat (destruct Hc as [Hc|Hc]; [subst h; vm_compute; intuition discriminate|]).
  subst h. vm_compute. intuition discriminate.
Qed.

Lemma parse_timestamp_text (d : datetime) :
  valid_datetime d = true ->
  parse_japanese_datetime (Str (timestamp_text d)) = Some d.
Proof.
  intros Hv.
  pose proof (valid_datetime_date d Hv) as (Hy & Hm & Hd).
  pose proof (valid_hour d Hv) as Hh.
  assert (Hms : 0 <= minute d <= 59 /\ 0 <= second d <= 59).
  { unfold valid_datetime in Hv. repeat (apply andb_prop in Hv as [Hv ?]). lia. }
  destruct (hour12_back (hour d) Hh) as [H12 Hback].
  set (date_part := four_digits (year d) +:+ "-" +:+ two_digits (month d)
                    +:+ "-" +:+ two_digits (day d)).
  set (time_part := (if 12 <=? hour d then text_gogo else text_gozen)
                    +:+ decimal (hour12 (hour d)) +:+ ":" +:+ two_digits (minute d)
                    +:+ ":" +:+ two_digits (second d)).
  assert (Htext : timestamp_text d = date_part +:+ " " +:+ time_part).
  { unfold timestamp_text, date_part, time_part. rewrite !append_assoc.
    rewrite Z.leb_antisym. now destruct (hour d <? 12). }
  assert (Hdate : contains " " date_part = false).
  { unfold date_part. change " "%string with (String " " EmptyString).
    rewrite !contains_char_app.
    rewrite (digits_free " " _ (four_digits_digits (year d)) eq_refl).
    rewrite (digits_free " " _ (two_digits_digits (month d)) eq_refl).
    rewrite (digits_free " " _ (two_digits_digits (day d)) eq_refl). reflexivity. }
  assert (Htime : contains " " time_part = false).
  { unfold time_part. change " "%string with (String " " EmptyString).
    rewrite !contains_char_app.
    rewrite (digits_free " " _ (decimal_digits (hour12 (hour d))) eq_refl).
    rewrite (digits_free " " _ (two_digits_digits (minute d)) eq_refl).
    rewrite (digits_free " " _ (two_digits_digits (second d)) eq_refl).
    now destruct (12 <=? hour d). }
  unfold parse_japanese_datetime.
  replace (negb (truthy (timestamp_text d))) with false by reflexivity.
  rewrite Htext, (split_timestamp _ _ Hdate Htime).
  unfold date_part at 1.
  rewrite (split_date_part _ _ _ (four_digits_digits _) (two_digits_digits _)
             (two_digits_digits _)).
  cbn [map].
  rewrite (py_int_digits _ (four_digits_digits _) eq_refl),
    (py_int_digits _ (two_digits_digits _) eq_refl),
    (py_int_digits _ (two_digits_digits _) eq_refl).
  rewrite four_digits_value, !two_digits_value by lia.
  unfold time_part. rewrite match_time_part_text.
  rewrite decimal_value, !two_digits_value by lia.
  assert (Hhour : (match (if 12 <=? hour d then Gogo else Gozen) with
                   | Gozen => if hour12 (hour d) =? 12 then 0 else hour12 (hour d)
                   | Gogo => if negb (hour12 (hour d) =? 12)
                             then hour12 (hour d) + 12 else hour12 (hour d)
                   end) = hour d).
  { rewrite Z.leb_antisym. destruct (hour d <? 12); exact Hback. }
  rewrite Hhour. unfold make_datetime.
  replace {| year := year d; month := month d; day := day d; hour := hour d;
             minute := minute d; second := second d |} with d by now destruct d.
  now rewrite Hv.
Qed.

(** X21. A timestamp written the way the sleep file writes them is read back
    as itself: the date, the hour of the day from the marker and the hour on
    the 12-hour clock (12 in the morning is midnight, 12 in the afternoon is
    noon), the minute and the second. *)
Theorem timestamp_round_trip (d : datetime) :
  valid_datetime d = true ->
  parse_japanese_datetime (Str (timestamp_text d)) = Some d.
Proof. apply parse_timestamp_text. Qed.

Lemma timestamp_round_trip_example :
  parse_japanese_datetime (Str (timestamp_text (Examples.night 23)))
  = Some (Examples.night 23).
Proof. apply (timestamp_round_trip (Examples.night 23)). reflexivity. Defined.

(** ** The date of a record *)

Lemma existing_required_columns (df : csv_frame) :
  mem col_bedtime (columns df) = true ->
  mem col_wakeup (columns df) = true ->
  negb (mem col_bedtime
          (List.filter (fun col => mem col (columns df)) required_columns))
  || negb (mem col_wakeup
             (List.filter (fun col => mem col (columns df)) required_columns)) = false.
Proof.
  intros Hb Hw. unfold required_columns. cbn [List.filter]. rewrite Hb, Hw.
  destruct (mem col_breathing (columns df)), (mem col_sleep (columns df)); reflexivity.
Qed.

(** X22. A record that the reader returns never holds [NaT] as its wake
    timestamp; its date is empty exactly when its wake timestamp is [None],
    and is otherwise the key of the wake date.  The reader raises
    [ValueError] on a file that has the two columns of timestamps and in
    which a wake time fails to parse while another is parsed, the parsed
    ones being within the bounds of [Timestamp]. *)
Theorem record_date_empty_when_unparsed :
  (forall (df : csv_frame) (sleep_data : list sleep_record) (i : nat) (r : sleep_record),
      read_autosleep_data df = Ok sleep_data ->
      sleep_data !! i = Some r ->
      Wakeup_dt r <> Some NaT /\
      (Date r = EmptyString <-> Wakeup_dt r = None) /\
      (forall w : datetime, Wakeup_dt r = Some (Datetime w) -> Date r = strftime_ymd w)) /\
  (forall (df : csv_frame) (failed parsed : list cell) (d : datetime),
      mem col_bedtime (columns df) = true ->
      mem col_wakeup (columns df) = true ->
      In failed (rows df) ->
      parse_japanese_datetime (cell_at (columns df) failed col_wakeup) = None ->
      In parsed (rows df) ->
      parse_japanese_datetime (cell_at (columns df) parsed col_wakeup) = Some d ->
      (forall (row : list cell) (d' : datetime),
          In row (rows df) ->
          parse_japanese_datetime (cell_at (columns df) row col_wakeup) = Some d' ->
          in_bounds d' = true) ->
      read_autosleep_data df = Raise ValueError).
Proof.
  split.
  - intros df sleep_data i r Hread Hi.
    pose proof (record_of_file _ _ _ _ Hread Hi) as Hr.
    pose proof (from_reader_wake r Hr) as Hwake.
    destruct (Wakeup_dt r) as [[w|]|].
    + destruct Hwake as [Hd _]. split; [discriminate|]. split; [|now intros w' [= <-]].
      split; [|discriminate]. intros E. rewrite E in Hd.
      pose proof (proj1 (strftime_ymd_key w)) as Hne. rewrite <- Hd in Hne. discriminate.
    + destruct Hwake.
    + split; [discriminate|]. split; [tauto | discriminate].
  - intros df failed parsed d Hb Hw Hfailed Hnone Hparsed Hsome Hbounds.
    unfold read_autosleep_data. rewrite (existing_required_columns df Hb Hw).
    set (values := map (fun row => parse_japanese_datetime
                                     (cell_at (columns df) row col_wakeup)) (rows df)).
    assert (Hmode : infer_datetimelike values
                    = map (fun v => Some match v with
                                         | Some d => Datetime d
                                         | None => NaT
                                         end) values).
    { unfold infer_datetimelike.
      assert (He : existsb is_datetime values = true).
      { apply existsb_exists. exists (Some d). split; [|reflexivity].
        apply in_map_iff. now exists parsed. }
      assert (Hf : forallb fits values = true).
      { apply forallb_forall. intros v Hv. apply in_map_iff in Hv as (row & <- & Hrow).
        destruct (parse_japanese_datetime (cell_at (columns df) row col_wakeup))
          as [d'|] eqn:E; [|reflexivity].
        exact (Hbounds row d' Hrow E). }
      now rewrite He, Hf. }
    rewrite Hmode.
    destruct (series_apply get_date_string _) as [date|e] eqn:Ed; cbn [bind].
    + apply series_apply_ok in Ed.
      assert (Hin : In (Some NaT)
                      (map (fun v => Some match v with
                                          | Some d => Datetime d
                                          | None => NaT
                                          end) values)).
      { apply in_map_iff. exists None. split; [reflexivity|].
        apply in_map_iff. now exists failed. }
      apply list_elem_of_In, list_elem_of_lookup_1 in Hin as [i Hi].
      destruct (Forall2_lookup_l _ _ _ _ _ Ed Hi) as (y & _ & Hy). discriminate Hy.
    + apply series_apply_raise in Ed as ([[w|]|] & _ & Hv); cbn in Hv; congruence.
Qed.

Lemma record_date_empty_when_unparsed_example :
  Wakeup_dt Examples.record_no_wake_parsed <> Some NaT /\
  (Date Examples.record_no_wake_parsed = EmptyString
   <-> Wakeup_dt Examples.record_no_wake_parsed = None) /\
  (forall w : datetime,
      Wakeup_dt Examples.record_no_wake_parsed = Some (Datetime w) ->
      Date Examples.record_no_wake_parsed = strftime_ymd w).
Proof.
  apply (proj1 record_date_empty_when_unparsed Examples.frame_no_wake_parsed
           Examples.sleep_data_no_wake_parsed 1%nat Examples.record_no_wake_parsed);
    vm_compute; reflexivity.
Defined.


(** ** The cell of a bucket *)

Lemma dict_get_set_ne (k k' : string) (v : float) (d : readings) :
  k <> k' -> dict_get k' (dict_set k v d) = dict_get k' d.
Proof.
  intros Hk. induction d as [|[k0 v0] d IH]; cbn [dict_set dict_get].
  - destruct (String.eqb_spec k k'); [contradiction | reflexivity].
  - destruct (String.eqb_spec k0 k) as [->|N]; cbn [dict_get].
    + destruct (String.eqb_spec k k'); [contradiction | reflexivity].
    + now rewrite IH.
Qed.

Lemma store_cell_other (time_slots : list string) (d : readings) (j j' : nat)
    (slot value : string) :
  List.NoDup time_slots -> time_slots !! j = Some slot -> j' <> j ->
  dict_get slot (store_cell time_slots d j' value) = dict_get slot d.
Proof.
  intros Hnd Hslot Hj.
  destruct (store_cell_cases time_slots d j' value) as [->|(slot' & x & Hslot' & ->)];
    [reflexivity|].
  apply dict_get_set_ne. intros ->. apply Hj.
  apply NoDup_ListNoDup in Hnd. exact (NoDup_lookup _ _ _ _ Hnd Hslot' Hslot).
Qed.

Lemma fold_cells_other (time_slots : list string) (slot : string) (j : nat)
    (cells : list string) (k : nat) (acc : readings) :
  List.NoDup time_slots -> time_slots !! j = Some slot ->
  (j < k \/ k + length cells <= j)%nat ->
  dict_get slot
    (fold_left (fun date_hrv jv => store_cell time_slots date_hrv (fst jv) (snd jv))
       (enumerate_from k cells) acc)
  = dict_get slot acc.
Proof.
  intros Hnd Hslot. revert k acc. induction cells as [|v cells IH]; intros k acc Hj;
    [reflexivity|].
  cbn [enumerate_from fold_left fst snd]. cbn [length] in Hj.
  rewrite IH by lia. apply (store_cell_other _ _ j); [assumption.. | lia].
Qed.

Lemma store_cell_same (time_slots : list string) (d : readings) (j : nat)
    (slot value : string) :
  time_slots !! j = Some slot ->
  dict_get slot (store_cell time_slots d j value)
  = match dict_get slot (store_cell time_slots [] j value) with
    | Some x => Some x
    | None => dict_get slot d
    end.
Proof.
  intros Hslot. unfold store_cell. rewrite Hslot.
  destruct (truthy (strip value)); [|reflexivity].
  destruct (contains range_separator value).
  - destruct (split range_separator value) as [|p0 [|p1 [|? ?]]]; try reflexivity.
    destruct (py_float p0) as [a|]; [|reflexivity].
    destruct (py_float p1) as [b|]; [|reflexivity].
    now rewrite !dict_get_set.
  - destruct (py_float value) as [x|]; [|reflexivity].
    now rewrite !dict_get_set.
Qed.

(** X23. When the labels of the header are distinct, the reading a line
    holds for a bucket is read from the cell of that bucket alone: it is what
    that cell would store in an empty set, whatever the other cells hold. *)
Theorem bucket_reading_from_its_cell (time_slots values : list string) (j : nat)
    (slot : string) :
  List.NoDup time_slots ->
  time_slots !! j = Some slot ->
  dict_get slot (parse_values time_slots values)
  = dict_get slot (store_cell time_slots [] j (nth (S j) values EmptyString)).
Proof.
  intros Hnd Hslot. unfold parse_values, enumerate.
  replace (nth (S j) values EmptyString) with (nth j (tail values) EmptyString)
    by (destruct values; [now destruct j | reflexivity]).
  generalize (tail values). intros cells.
  destruct (Nat.le_gt_cases (length cells) j) as [Hshort|Hlong].
  - rewrite (fold_cells_other time_slots slot j) by (try assumption; lia).
    rewrite nth_overflow by exact Hshort.
    unfold store_cell. rewrite Hslot. reflexivity.
  - destruct (lookup_lt_is_Some_2 cells j Hlong) as [v Hv].
    rewrite (nth_lookup_Some _ _ _ _ Hv).
    rewrite <- (take_drop_middle cells j v Hv), enumerate_from_app, fold_left_app.
    cbn [enumerate_from fold_left fst snd].
    assert (Hlen : length (take j cells) = j) by (rewrite length_take; lia).
    rewrite Hlen. cbn [Nat.add].
    rewrite (fold_cells_other time_slots slot j) by (try assumption; lia).
    rewrite (store_cell_same _ _ _ _ _ Hslot).
    rewrite (fold_cells_other time_slots slot j) by (try assumption; lia).
    cbn [dict_get]. now destruct (dict_get slot (store_cell time_slots [] j v)).
Qed.

Lemma bucket_reading_from_its_cell_example :
  dict_get "9 AM - 10 AM"
    (parse_values ["6 AM - 7 AM"; "9 AM - 10 AM"] ["2025/03/02"; "30.0"; "20 - 30"])
  = dict_get "9 AM - 10 AM"
      (store_cell ["6 AM - 7 AM"; "9 AM - 10 AM"] [] 1 "20 - 30").
Proof.
  apply (bucket_reading_from_its_cell ["6 AM - 7 AM"; "9 AM - 10 AM"]
           ["2025/03/02"; "30.0"; "20 - 30"] 1 "9 AM - 10 AM").
  - repeat constructor; cbn; intuition discriminate.
  - reflexivity.
Defined.

(** ** Text after the seconds *)

Lemma split_char_app_last (c : ascii) (s t cur : string) :
  contains (String c EmptyString) t = false ->
  exists (init : list string) (lst : string),
    split_go (String c EmptyString) s O cur = init ++ [lst] /\
    split_go (String c EmptyString) (s +:+ t) O cur = init ++ [lst +:+ t].
Proof.
  intros Ht. revert cur. induction s as [|x s IH]; intros cur.
  - exists [], cur. split; [reflexivity|].
    rewrite append_empty_l. now apply split_without_separator.
  - rewrite append_cons. cbn [split_go]. rewrite !prefix_cons, !prefix_empty, !andb_true_r.
    destruct (Ascii.eqb c x).
    + cbn [String.length Nat.sub]. destruct (IH EmptyString) as (init & lst & E1 & E2).
      exists (cur :: init), lst. now rewrite E1, E2.
    + destruct (IH (cur +:+ String x EmptyString)) as (init & lst & E1 & E2).
      exists init, lst. now rewrite E1, E2.
Qed.

Lemma take_while_app_end (s t : string) :
  no_leading_digit t = true -> take_while isdigit (s +:+ t) = take_while isdigit s.
Proof.
  intros Ht. induction s as [|c s IH].
  - rewrite append_empty_l. destruct t as [|x t]; [reflexivity|].
    cbn [no_leading_digit] in Ht. cbn [take_while]. apply negb_true_iff in Ht.
    now rewrite Ht.
  - rewrite append_cons. cbn [take_while]. destruct (isdigit c); [now rewrite IH | reflexivity].
Qed.

Lemma digits_then_colon_app (r t ds r' : string) :
  digits_then_colon r = Some (ds, r') ->
  digits_then_colon (r +:+ t) = Some (ds, r' +:+ t).
Proof.
  unfold digits_then_colon. intros H.
  destruct (take_while isdigit r) as [|a ds0] eqn:Et; [discriminate|].
  destruct (drop_while isdigit r) as [|c rest] eqn:Ed; [discriminate|].
  assert (Hne : drop_while isdigit r <> EmptyString) by (rewrite Ed; discriminate).
  rewrite (take_while_app _ _ _ Hne), (drop_while_app _ _ _ Hne), Et, Ed, append_cons.
  destruct (Ascii.eqb c ":"); [|discriminate]. now injection H as <- <-.
Qed.

Lemma time_groups_app (ap : am_pm_ja) (r0 t : string) (res : am_pm_ja * Z * Z * Z) :
  no_leading_digit t = true ->
  match digits_then_colon r0 with
  | None => None
  | Some (h, r1) =>
      match digits_then_colon r1 with
      | None => None
      | Some (m, r2) =>
          match take_while isdigit r2 with
          | EmptyString => None
          | sec => Some (ap, digits_value 0 h, digits_value 0 m, digits_value 0 sec)
          end
      end
  end = Some res ->
  match digits_then_colon (r0 +:+ t) with
  | None => None
  | Some (h, r1) =>
      match digits_then_colon r1 with
      | None => None
      | Some (m, r2) =>
          match take_while isdigit r2 with
          | EmptyString => None
          | sec => Some (ap, digits_value 0 h, digits_value 0 m, digits_value 0 sec)
          end
      end
  end = Some res.
Proof.
  intros Ht H.
  destruct (digits_then_colon r0) as [[h r1]|] eqn:E0; [|discriminate].
  rewrite (digits_then_colon_app _ t _ _ E0).
  destruct (digits_then_colon r1) as [[m r2]|] eqn:E1; [|discriminate].
  rewrite (digits_then_colon_app _ t _ _ E1).
  now rewrite (take_while_app_end r2 t Ht).
Qed.

Lemma match_time_part_app (time_part t : string) (res : am_pm_ja * Z * Z * Z) :
  no_leading_digit t = true ->
  match_time_part time_part = Some res ->
  match_time_part (time_part +:+ t) = Some res.
Proof.
  intros Ht. unfold match_time_part.
  destruct (String.prefix text_gozen time_part) eqn:Ez.
  - destruct (prefix_true_app _ _ Ez) as [r0 ->].
    rewrite append_assoc, prefix_app, !drop_prefix_app. now apply time_groups_app.
  - destruct (String.prefix text_gogo time_part) eqn:Eg; [|discriminate].
    destruct (prefix_true_app _ _ Eg) as [r0 ->].
    rewrite append_assoc, prefix_app, !drop_prefix_app.
    assert (Hz : String.prefix text_gozen (text_gogo +:+ r0 +:+ t) = false).
    { unfold text_gozen, text_gogo. rewrite !append_cons, !prefix_cons. reflexivity. }
    rewrite Hz. now apply time_groups_app.
Qed.

(** X24. What follows the seconds of a timestamp is not read: a text that
    is parsed is parsed to the same timestamp when it is followed by any text
    without a space that does not start with a digit. *)
Theorem text_after_seconds_ignored (s t : string) (d : datetime) :
  parse_japanese_datetime (Str s) = Some d ->
  contains " " t = false ->
  no_leading_digit t = true ->
  parse_japanese_datetime (Str (s +:+ t)) = Some d.
Proof.
  unfold parse_japanese_datetime. intros H Hsp Ht.
  destruct s as [|c s]; [discriminate|].
  rewrite append_cons. cbn [truthy negb] in *.
  rewrite <- append_cons.
  change " "%string with (String " " EmptyString) in *.
  destruct (split_char_app_last " " (String c s) t EmptyString Hsp)
    as (init & lst & E1 & E2).
  unfold split in *. rewrite E1 in H. rewrite E2.
  destruct init as [|date_part [|x init]];
    [discriminate | | destruct init; discriminate].
  cbn [app] in *.
  destruct (map py_int (split_go "-" date_part 0 EmptyString))
    as [|[y|] [|[m|] [|[dd|] [|? ?]]]]; try discriminate.
  destruct (match_time_part lst) as [res|] eqn:Em; [|discriminate].
  now rewrite (match_time_part_app _ t _ Ht Em).
Qed.

Lemma text_after_seconds_ignored_example :
  parse_japanese_datetime (Str ("2025-03-02 午後1:05:09" +:+ ".500+09:00"))
  = Some {| year := 2025; month := 3; day := 2; hour := 13; minute := 5; second := 9 |}.
Proof.
  apply (text_after_seconds_ignored "2025-03-02 午後1:05:09" ".500+09:00");
    vm_compute; reflexivity.
Defined.

(** ** From the two files to the line of a session *)

(** X25. From the texts of the two files to the line of the result: in a
    run that returns, a session whose two timestamps are written the way the
    sleep file writes them has a line in the result; its date is the date of
    the wake timestamp, and its daily value is what the aggregation gives,
    with the wake timestamp and the bedtime timestamp held for the next
    session, for the readings of the last line of the HRV file that opens
    with that date. *)
Theorem session_line_from_the_files (sleep_file : csv_frame) (hrv_file : list string)
    (result_df : list result_row) (sleep_data : list sleep_record)
    (hrv_data : gmap string readings) (i : nat) (r : sleep_record) (b w : datetime)
    (before after : list string) (rest : string) :
  process_sleep_hrv_data sleep_file hrv_file = Ok (result_df, sleep_data, hrv_data) ->
  sleep_data !! i = Some r ->
  Bedtime r = Str (timestamp_text b) ->
  Wakeup r = Str (timestamp_text w) ->
  valid_datetime b = true ->
  valid_datetime w = true ->
  drop 2 hrv_file = before ++ (strftime_ymd w +:+ "," +:+ rest) :: after ->
  Forall (fun later => ~ line_of_date (strftime_ymd w) later) after ->
  exists row : result_row,
    In row result_df /\
    row_Date row = strftime_ymd w /\
    row_Daytime_HRV_Avg row
    = daytime_hrv_of
        (parse_values (map strip (tail (split "," (strip (nth 1 hrv_file EmptyString)))))
           (strftime_ymd w :: split "," (remove_char double_quote (rstrip rest))))
        w (next_bedtime_of sleep_data i).
Proof.
  intros Hrun Hr Hbed Hwake Hb Hw Hbody Hafter.
  destruct (process_sleep_hrv_data_unfold _ _ _ _ _ Hrun) as (Er & Eh & -> & _).
  pose proof (record_of_file _ _ _ _ Er Hr) as Hfrom.
  pose proof Hfrom as (Hbdt & Hwdt & _). unfold holds_parse in Hbdt, Hwdt.
  rewrite Hbed, (parse_timestamp_text b Hb) in Hbdt.
  rewrite Hwake, (parse_timestamp_text w Hw) in Hwdt.
  assert (Eb : Bedtime_dt r = Some (Datetime b)).
  { destruct (Bedtime_dt r) as [[b'|]|]; congruence. }
  assert (Ew : Wakeup_dt r = Some (Datetime w)).
  { destruct (Wakeup_dt r) as [[w'|]|]; congruence. }
  destruct (process_record_parsed hrv_data sleep_data i r b w Hfrom Eb Ew)
    as (bedtime & wakeup & _ & _ & Hrow).
  destruct (strftime_ymd_key w) as [Hne Hkey].
  destruct (line_with_key _ rest Hne Hkey) as (Hstrip & Hvalues & Hdate).
  assert (Hnb : not_blank (strftime_ymd w +:+ "," +:+ rest) = true).
  { unfold not_blank. rewrite Hstrip.
    destruct (strftime_ymd w); [discriminate Hne | reflexivity]. }
  assert (Hdata : hrv_data !! strftime_ymd w
                  = Some (parse_values
                            (map strip (tail (split "," (strip (nth 1 hrv_file EmptyString)))))
                            (strftime_ymd w
                             :: split "," (remove_char double_quote (rstrip rest))))).
  { rewrite (parse_hrv_file_unfold _ _ Eh), Hbody, fold_left_app. cbn [fold_left].
    rewrite (fold_lines_other_dates _ _ _ _ Hafter).
    rewrite parse_line_unfold, Hnb, Hdate, Hvalues. apply lookup_insert_eq. }
  unfold readings in *. rewrite Hdata in Hrow. cbn [default from_option id] in Hrow.
  match type of Hrow with _ = Ok (Some ?row) => exists row end.
  split; [|split; reflexivity].
  apply list_elem_of_In, list_elem_of_omap. exists (i, r). split.
  - apply list_elem_of_In, in_enumerate. exact Hr.
  - unfold line_of. cbn [fst snd]. rewrite Hrow. reflexivity.
Qed.

Lemma session_line_from_the_files_example :
  exists row : result_row,
    In row (fst (fst Examples.run_three_nights)) /\
    row_Date row = strftime_ymd Examples.morning_of_march_4 /\
    row_Daytime_HRV_Avg row
    = daytime_hrv_of
        (parse_values
           (map strip (tail (split "," (strip (nth 1 Examples.hrv_lines EmptyString)))))
           (strftime_ymd Examples.morning_of_march_4
            :: split "," (remove_char double_quote (rstrip ",20 - 30,,"))))
        Examples.morning_of_march_4
        (next_bedtime_of (snd (fst Examples.run_three_nights)) 2).
Proof.
  apply (session_line_from_the_files Examples.sleep_frame Examples.hrv_lines
           (fst (fst Examples.run_three_nights)) (snd (fst Examples.run_three_nights))
           (snd Examples.run_three_nights) 2 Examples.third_record
           {| year := 2025; month := 3; day := 3; hour := 22; minute := 0; second := 0 |}
           Examples.morning_of_march_4
           ["2025/03/01,80,81,82,83"; "2025/03/02,30.0,35.0,40.0,50"] [] ",20 - 30,,").
  - vm_compute. reflexivity.
  - vm_compute. reflexivity.
  - reflexivity.
  - reflexivity.
  - reflexivity.
  - reflexivity.
  - reflexivity.
  - constructor.
Defined.
